(** * pmm-dashboard: the data-processing core (src/data_processor.py)

    A shallow embedding of [DataProcessor] and of the two record builders of
    src/github_api.py.  DataFrames are Python objects that the code copies,
    slices and assigns columns to, so they live in a store and the methods
    are programs of a small state-and-exception monad.

    Conventions of the model:
    - a timestamp is an integer count of nanoseconds since 1970-01-01
      (timezone-naive, as the spec's data model asks);
    - a float is an exact rational ([Q]): [total_seconds() / 86400] and
      [mean()] are computed without rounding;
    - a Python [dict] is an association list in insertion order;
    - strings are ASCII. *)

From Stdlib Require Import ZArith QArith List String Ascii Bool Lia.
From Stdlib Require Import Permutation Sorted.
Import ListNotations.
Local Open Scope string_scope.
Local Open Scope list_scope.
Local Open Scope Z_scope.

(* ------------------------------------------------------------------ *)
(** ** Cells, dicts and tables *)

(** pandas offset aliases used by the code: 'D', 'W' and 'M'. *)
Inductive freq := FreqD | FreqW | FreqM.

(** What a cell of a table (or a value of a raw dict) can hold. *)
Inductive value :=
| VNone                       (* None *)
| VNaN                        (* NaN / NaT: pandas' missing marker *)
| VBool (b : bool)
| VInt (n : Z)
| VFloat (q : Q)
| VStr (s : string)
| VTime (t : Z)               (* datetime / Timestamp *)
| VDate (d : Z)               (* datetime.date, days since 1970-01-01 *)
| VPeriod (f : freq) (t : Z)  (* pandas Period containing instant t *)
| VList (l : list string).    (* the list of label names *)

Definition dict := list (string * value).

Fixpoint dict_get (k : string) (d : dict) : option value :=
  match d with
  | [] => None
  | (k', v) :: d' => if String.eqb k k' then Some v else dict_get k d'
  end.

Definition dict_keys (d : dict) : list string := map fst d.

Definition mem_str (k : string) (l : list string) : bool :=
  existsb (String.eqb k) l.

Record DataFrame := mkDF {
  df_columns : list string;
  df_rows : list dict
}.

(** [row.get(key, default)] on a row of a table. *)
Definition row_get (k : string) (default : value) (row : dict) : value :=
  match dict_get k row with Some v => v | None => default end.

(** Union of the keys of the records, in order of first appearance. *)
Fixpoint union_keys (seen : list string) (ks : list string) : list string :=
  match ks with
  | [] => seen
  | k :: ks' => if mem_str k seen then union_keys seen ks'
                else union_keys (seen ++ [k]) ks'
  end.

Definition records_columns (recs : list dict) : list string :=
  fold_left (fun seen d => union_keys seen (dict_keys d)) recs [].

(** A record laid out on the columns: an absent key becomes NaN. *)
Definition align_row (cols : list string) (d : dict) : dict :=
  map (fun c => (c, row_get c VNaN d)) cols.

(** [pd.DataFrame(list_of_dicts)]. *)
Definition frame_of_records (recs : list dict) : DataFrame :=
  let cols := records_columns recs in
  mkDF cols (map (align_row cols) recs).

(** [pd.DataFrame(columns=[...])]. *)
Definition frame_of_columns (cols : list string) : DataFrame := mkDF cols [].

(** [df.empty]: some axis has length 0. *)
Definition frame_empty (d : DataFrame) : bool :=
  match df_columns d, df_rows d with
  | [], _ => true
  | _, [] => true
  | _, _ => false
  end.

Definition has_column (c : string) (d : DataFrame) : bool :=
  mem_str c (df_columns d).

Definition column_values (c : string) (d : DataFrame) : list value :=
  map (row_get c VNaN) (df_rows d).

Fixpoint select {A : Type} (mask : list bool) (l : list A) : list A :=
  match mask, l with
  | b :: mask', x :: l' => if b then x :: select mask' l' else select mask' l'
  | _, _ => []
  end.

(** [df[mask]]: the rows whose mask entry is True. *)
Definition frame_mask (mask : list bool) (d : DataFrame) : DataFrame :=
  mkDF (df_columns d) (select mask (df_rows d)).

Fixpoint dict_set (k : string) (v : value) (d : dict) : dict :=
  match d with
  | [] => [(k, v)]
  | (k', v') :: d' => if String.eqb k k' then (k, v) :: d'
                      else (k', v') :: dict_set k v d'
  end.

Fixpoint set_cells (k : string) (vs : list value) (rows : list dict) : list dict :=
  match rows, vs with
  | r :: rows', v :: vs' => dict_set k v r :: set_cells k vs' rows'
  | _, _ => []
  end.

(** [df[c] = values]: replaces the column, or appends it as the last one. *)
Definition frame_set_column (c : string) (vs : list value) (d : DataFrame) : DataFrame :=
  mkDF (if mem_str c (df_columns d) then df_columns d else df_columns d ++ [c])
       (set_cells c vs (df_rows d)).

(* ------------------------------------------------------------------ *)
(** ** The store of DataFrame objects and the monad of the methods *)

Definition ref := nat.
Definition Store := list DataFrame.

Inductive exn :=
| KeyError (k : string)
| TypeError
| ValueError
| OutOfBoundsDatetime
| ReferenceError.

Definition M (A : Type) : Type := Store -> (exn + A) * Store.

Definition ret {A} (a : A) : M A := fun st => (inr a, st).

Definition bind {A B} (m : M A) (k : A -> M B) : M B :=
  fun st => match m st with
            | (inl e, st') => (inl e, st')
            | (inr a, st') => k a st'
            end.

Definition raise {A} (e : exn) : M A := fun st => (inl e, st).

Declare Scope m_scope.
Delimit Scope m_scope with M.
Notation "x <- c ;; k" := (bind c (fun x => k))
  (at level 61, c at next level, right associativity) : m_scope.
Notation "c ;;; k" := (bind c (fun _ => k))
  (at level 61, right associativity) : m_scope.
Local Open Scope m_scope.

(** A new object: it gets the next free reference. *)
Definition alloc (d : DataFrame) : M ref :=
  fun st => (inr (List.length st), st ++ [d]).

Definition load (r : ref) : M DataFrame :=
  fun st => match nth_error st r with
            | Some d => (inr d, st)
            | None => (inl ReferenceError, st)
            end.

Fixpoint replace_nth {A} (n : nat) (x : A) (l : list A) : list A :=
  match l, n with
  | [], _ => []
  | _ :: l', O => x :: l'
  | y :: l', S n' => y :: replace_nth n' x l'
  end.

(** In-place update of the object behind a reference. *)
Definition store (r : ref) (d : DataFrame) : M unit :=
  fun st => match nth_error st r with
            | Some _ => (inr tt, replace_nth r d st)
            | None => (inl ReferenceError, st)
            end.

(** What [pd.DataFrame(...)] is called on. *)
Inductive frame_data :=
| Records (recs : list dict)
| Frame (r : ref)
| Columns (cols : list string).

(** [pd.DataFrame(data)]: always a new object. *)
Definition pd_DataFrame (data : frame_data) : M ref :=
  match data with
  | Records recs => alloc (frame_of_records recs)
  | Frame r => d <- load r ;; alloc d
  | Columns cols => alloc (frame_of_columns cols)
  end.

(** [df.copy()]. *)
Definition df_copy (r : ref) : M ref := d <- load r ;; alloc d.

(** [df[mask]] with a boolean mask: a new object. *)
Definition df_getitem_mask (r : ref) (mask : list bool) : M ref :=
  d <- load r ;; alloc (frame_mask mask d).

(** [df[c]]: KeyError when the column does not exist. *)
Definition df_getitem (r : ref) (c : string) : M (list value) :=
  d <- load r ;;
  if has_column c d then ret (column_values c d) else raise (KeyError c).

(** [df[c] = values]: mutates the object behind [r]. *)
Definition df_setitem (r : ref) (c : string) (vs : list value) : M unit :=
  d <- load r ;; store r (frame_set_column c vs d).

Definition df_empty (r : ref) : M bool := d <- load r ;; ret (frame_empty d).

Definition df_has_column (r : ref) (c : string) : M bool :=
  d <- load r ;; ret (has_column c d).

(** [len(df)]. *)
Definition df_len (r : ref) : M Z := d <- load r ;; ret (Z.of_nat (List.length (df_rows d))).

(* ------------------------------------------------------------------ *)
(** ** DataProcessor.create_dataframes *)

Definition create_dataframes (issues prs : frame_data) : M (ref * ref) :=
  issues_df <- pd_DataFrame issues ;;
  prs_df <- pd_DataFrame prs ;;
  ret (issues_df, prs_df).

(** src/app.py: the dicts built from the fetched items are handed to
    [create_dataframes]. *)
Definition frames_of (issues_data prs_data : list dict) : M (ref * ref) :=
  create_dataframes (Records issues_data) (Records prs_data).

(** The table a method returned, read from the final store. *)
Definition returned (out : (exn + ref) * Store) : option DataFrame :=
  match out with
  | (inr r, st) => nth_error st r
  | (inl _, _) => None
  end.

(* ------------------------------------------------------------------ *)
(** ** Series helpers *)

Definition isna (v : value) : bool :=
  match v with VNone | VNaN => true | _ => false end.

Definition notna (v : value) : bool := negb (isna v).

(** [cell == 'text']. *)
Definition eq_str (s : string) (v : value) : bool :=
  match v with VStr s' => String.eqb s' s | _ => false end.

(** [cell == True] (in Python [1 == True]). *)
Definition eq_true (v : value) : bool :=
  match v with
  | VBool b => b
  | VInt n => n =? 1
  | VFloat q => Qeq_bool q 1
  | _ => false
  end.

Definition freq_eqb (f g : freq) : bool :=
  match f, g with
  | FreqD, FreqD | FreqW, FreqW | FreqM, FreqM => true
  | _, _ => false
  end.

Fixpoint list_eqb {A} (eqb : A -> A -> bool) (l1 l2 : list A) : bool :=
  match l1, l2 with
  | [], [] => true
  | x :: l1', y :: l2' => eqb x y && list_eqb eqb l1' l2'
  | _, _ => false
  end.

(** Equality of two cells as grouping keys. *)
Definition value_eqb (v w : value) : bool :=
  match v, w with
  | VNone, VNone => true
  | VNaN, VNaN => true
  | VBool a, VBool b => Bool.eqb a b
  | VInt a, VInt b => a =? b
  | VFloat a, VFloat b => Qeq_bool a b
  | VStr a, VStr b => String.eqb a b
  | VTime a, VTime b => a =? b
  | VDate a, VDate b => a =? b
  | VPeriod f a, VPeriod g b => freq_eqb f g && (a =? b)
  | VList a, VList b => list_eqb String.eqb a b
  | _, _ => false
  end.

Definition mem_value (v : value) (l : list value) : bool :=
  existsb (value_eqb v) l.

(** Order of two cells of the same kind, used by [sort_values]. *)
Definition value_leb (v w : value) : bool :=
  match v, w with
  | VBool a, VBool b => implb a b
  | VInt a, VInt b => a <=? b
  | VFloat a, VFloat b => Qle_bool a b
  | VInt a, VFloat b => Qle_bool (inject_Z a) b
  | VFloat a, VInt b => Qle_bool a (inject_Z b)
  | VStr a, VStr b => String.leb a b
  | VTime a, VTime b => a <=? b
  | VDate a, VDate b => a <=? b
  | VPeriod _ a, VPeriod _ b => a <=? b
  | _, _ => false
  end.

Fixpoint insert_by {A} (le : A -> A -> bool) (x : A) (l : list A) : list A :=
  match l with
  | [] => [x]
  | y :: l' => if le x y then x :: y :: l' else y :: insert_by le x l'
  end.

(** A stable sort.  pandas' default is numpy's quicksort, whose order among
    equal keys is not specified; nothing proved below depends on it. *)
Fixpoint sort_by {A} (le : A -> A -> bool) (l : list A) : list A :=
  match l with
  | [] => []
  | x :: l' => insert_by le x (sort_by le l')
  end.

(** The distinct cells of a list, in order of first appearance. *)
Fixpoint distinct (seen : list value) (l : list value) : list value :=
  match l with
  | [] => []
  | x :: l' => if mem_value x seen then distinct seen l'
               else x :: distinct (x :: seen) l'
  end.

Definition count_value (v : value) (l : list value) : Z :=
  Z.of_nat (List.length (filter (value_eqb v) l)).

(** [Series.value_counts()]: missing cells dropped, most frequent first. *)
Definition value_counts (vs : list value) : list (value * Z) :=
  let present := filter notna vs in
  sort_by (fun a b => snd b <=? snd a)
          (map (fun v => (v, count_value v present)) (distinct [] present)).

(** A two-column table made of the keys and the counts of a counting
    ([value_counts().reset_index()], or a dict of two columns). *)
Definition counts_frame (key count : string) (vc : list (value * Z)) : DataFrame :=
  mkDF [key; count] (map (fun p => [(key, fst p); (count, VInt (snd p))]) vc).

(** [df.sort_values(c)]: ascending, missing cells last. *)
Definition frame_sort_values (c : string) (ascending : bool) (d : DataFrame) : DataFrame :=
  let key r := row_get c VNaN r in
  let le r1 r2 := if ascending then value_leb (key r1) (key r2)
                  else value_leb (key r2) (key r1) in
  mkDF (df_columns d)
       (sort_by le (filter (fun r => notna (key r)) (df_rows d))
        ++ filter (fun r => isna (key r)) (df_rows d)).

Definition df_sort_values (r : ref) (c : string) (ascending : bool) : M ref :=
  d <- load r ;;
  if has_column c d then alloc (frame_sort_values c ascending d)
  else raise (KeyError c).

Fixpoint dict_remove (k : string) (d : dict) : dict :=
  match d with
  | [] => []
  | (k', v) :: d' => if String.eqb k k' then dict_remove k d'
                     else (k', v) :: dict_remove k d'
  end.

(** [df.drop(c, axis=1)]. *)
Definition df_drop_column (r : ref) (c : string) : M ref :=
  d <- load r ;;
  if has_column c d
  then alloc (mkDF (filter (fun c' => negb (String.eqb c c')) (df_columns d))
                   (map (dict_remove c) (df_rows d)))
  else raise (KeyError c).

(** [pd.concat([a, b])]. *)
Definition pd_concat (a b : ref) : M ref :=
  da <- load a ;;
  db <- load b ;;
  let cols := union_keys (df_columns da) (df_columns db) in
  alloc (mkDF cols (map (align_row cols) (df_rows da ++ df_rows db))).

Fixpoint foldM {A B} (f : A -> B -> M A) (l : list B) (a : A) : M A :=
  match l with
  | [] => ret a
  | x :: l' => a' <- f a x ;; foldM f l' a'
  end.

(* ------------------------------------------------------------------ *)
(** ** Records of the fetch layer (src/github_api.py) *)

Inductive item_state := Open | Closed.

Definition state_name (s : item_state) : string :=
  match s with Open => "open" | Closed => "closed" end.

(** The attributes of a PyGithub [Issue] that [get_issue_data] reads. *)
Record Issue := mkIssue {
  issue_number : Z;
  issue_title : string;
  issue_state : item_state;
  issue_created_at : Z;
  issue_closed_at : option Z;
  issue_user : option string;     (* the login, when the account exists *)
  issue_labels : list string;
  issue_comments : Z
}.

(** The attributes of a PyGithub [PullRequest] that [get_pr_data] reads. *)
Record PullRequest := mkPR {
  pr_number : Z;
  pr_title : string;
  pr_state : item_state;
  pr_created_at : Z;
  pr_closed_at : option Z;
  pr_merged_at : option Z;
  pr_user : option string;
  pr_labels : list string;
  pr_comments : Z;
  pr_review_comments : Z;
  pr_body : option string;
  pr_merged : bool
}.

Definition opt_time (t : option Z) : value :=
  match t with Some t => VTime t | None => VNone end.

Definition login_or_unknown (u : option string) : value :=
  match u with Some l => VStr l | None => VStr "Unknown" end.

Definition get_issue_data (issue : Issue) : dict :=
  [ ("number", VInt (issue_number issue));
    ("title", VStr (issue_title issue));
    ("state", VStr (state_name (issue_state issue)));
    ("created_at", VTime (issue_created_at issue));
    ("closed_at", opt_time (issue_closed_at issue));
    ("user", login_or_unknown (issue_user issue));
    ("labels", VList (issue_labels issue));
    ("comments", VInt (issue_comments issue));
    ("is_pr", VBool false) ].

Definition get_pr_data (pr : PullRequest) : dict :=
  [ ("number", VInt (pr_number pr));
    ("title", VStr (pr_title pr));
    ("state", VStr (state_name (pr_state pr)));
    ("created_at", VTime (pr_created_at pr));
    ("closed_at", opt_time (pr_closed_at pr));
    ("merged_at", opt_time (pr_merged_at pr));
    ("user", login_or_unknown (pr_user pr));
    ("labels", VList (pr_labels pr));
    ("comments", VInt (pr_comments pr));
    ("review_comments", VInt (pr_review_comments pr));
    ("body", VStr (match pr_body pr with Some b => b | None => "" end));
    ("is_pr", VBool true);
    ("merged", VBool (pr_merged pr)) ].

(* ------------------------------------------------------------------ *)
(** ** Time *)

Definition ns_per_day : Z := 86400000000000.

(** [(a - b).total_seconds() / 86400] on two datetime cells; NaT propagates. *)
Definition days_between (a b : value) : value :=
  match a, b with
  | VTime ta, VTime tb => VFloat ((ta - tb) # 86400000000000)
  | _, _ => VNaN
  end.

(** [float_cell <= bound]; a comparison with NaN is False. *)
Definition float_le (v : value) (bound : Z) : bool :=
  match v with
  | VFloat q => Qle_bool q (inject_Z bound)
  | VInt n => n <=? bound
  | _ => false
  end.

Fixpoint mapM {A B} (f : A -> exn + B) (l : list A) : exn + list B :=
  match l with
  | [] => inr []
  | x :: l' => match f x with
               | inl e => inl e
               | inr y => match mapM f l' with
                          | inl e => inl e
                          | inr ys => inr (y :: ys)
                          end
               end
  end.

Definition lift {A} (r : exn + A) : M A :=
  match r with inl e => raise e | inr a => ret a end.

(** Whole days of a timedelta: Python's [timedelta.days] (floor). *)
Definition timedelta_days (delta : Z) : Z := delta / ns_per_day.

(** The calendar day (days since 1970-01-01) of an instant. *)
Definition day_of (t : Z) : Z := t / ns_per_day.

(** pandas keeps a Timestamp in a signed 64-bit count of nanoseconds. *)
Definition in_bounds (t : Z) : bool :=
  (-9223372036854775808 <? t) && (t <=? 9223372036854775807).

(** Proleptic Gregorian calendar: (year, month, day) of a day number. *)
Definition civil_from_days (days : Z) : Z * Z * Z :=
  let z := days + 719468 in
  let era := z / 146097 in
  let doe := z mod 146097 in
  let yoe := (doe - doe / 1460 + doe / 36524 - doe / 146096) / 365 in
  let doy := doe - (365 * yoe + yoe / 4 - yoe / 100) in
  let mp := (5 * doy + 2) / 153 in
  let d := doy - (153 * mp + 2) / 5 + 1 in
  let m := if mp <? 10 then mp + 3 else mp - 9 in
  let y := yoe + era * 400 in
  (if m <=? 2 then y + 1 else y, m, d).

Definition days_from_civil (y m d : Z) : Z :=
  let y' := if m <=? 2 then y - 1 else y in
  let era := y' / 400 in
  let yoe := y' mod 400 in
  let mp := if 2 <? m then m - 3 else m + 9 in
  let doy := (153 * mp + 2) / 5 + d - 1 in
  let doe := yoe * 365 + yoe / 4 - yoe / 100 + doy in
  era * 146097 + doe - 719468.

(** Months since January 1970 of a day, and the last day of such a month. *)
Definition month_index (day : Z) : Z :=
  let '(y, m, _) := civil_from_days day in (y - 1970) * 12 + (m - 1).

Definition month_first_day (mi : Z) : Z :=
  days_from_civil (1970 + mi / 12) (mi mod 12 + 1) 1.

Definition month_last_day (mi : Z) : Z := month_first_day (mi + 1) - 1.

(** Monday = 0 ... Sunday = 6 (1970-01-01 was a Thursday). *)
Definition weekday (day : Z) : Z := (day + 3) mod 7.

(** The Sunday that ends the Monday-to-Sunday week of a day ('W' = 'W-SUN'). *)
Definition week_end (day : Z) : Z := day + (6 - weekday day).

Definition digit (n : Z) : ascii := ascii_of_nat (48 + Z.to_nat (n mod 10)).

Definition pad2 (n : Z) : string :=
  String (digit (n / 10)) (String (digit n) EmptyString).

Definition pad4 (n : Z) : string :=
  String (digit (n / 1000)) (String (digit (n / 100)) (pad2 n)).

(** [strftime('%Y-%m-%d')] of a day. *)
Definition format_date (day : Z) : string :=
  let '(y, m, d) := civil_from_days day in
  (pad4 y ++ "-" ++ pad2 m ++ "-" ++ pad2 d)%string.

(** [Timestamp.strftime('%Y-%m-%d')]. *)
Definition strftime_ymd (t : Z) : string := format_date (day_of t).

(** The ordinal that identifies the Period of frequency [f] containing an
    instant: the day for 'D', the Monday of the week for 'W', the month
    index for 'M'. *)
Definition period_ordinal (f : freq) (t : Z) : Z :=
  match f with
  | FreqD => day_of t
  | FreqW => week_end (day_of t) - 6
  | FreqM => month_index (day_of t)
  end.

(** [str(period)]. *)
Definition period_str (f : freq) (ordinal : Z) : string :=
  match f with
  | FreqD => format_date ordinal
  | FreqW => (format_date ordinal ++ "/" ++ format_date (ordinal + 6))%string
  | FreqM => let '(y, m, _) := civil_from_days (month_first_day ordinal) in
             (pad4 y ++ "-" ++ pad2 m)%string
  end.

(** The label (a day) of the bin in which [pd.Grouper(freq=f)] puts an
    instant: the day itself for 'D'; for 'W' and 'M' the bins are closed and
    labelled on the right, so the label is the Sunday ending the week, or
    the last day of the month. *)
Definition bin_label (f : freq) (t : Z) : Z :=
  match f with
  | FreqD => day_of t
  | FreqW => week_end (day_of t)
  | FreqM => month_last_day (month_index (day_of t))
  end.

(** The label after a label. *)
Definition next_label (f : freq) (label : Z) : Z :=
  match f with
  | FreqD => label + 1
  | FreqW => label + 7
  | FreqM => month_last_day (month_index label + 1)
  end.

Fixpoint list_min (x : Z) (l : list Z) : Z :=
  match l with [] => x | y :: l' => list_min (Z.min x y) l' end.

Fixpoint list_max (x : Z) (l : list Z) : Z :=
  match l with [] => x | y :: l' => list_max (Z.max x y) l' end.

(** [n] values from [x] on, each the [next] of the one before. *)
Fixpoint iterate (next : Z -> Z) (x : Z) (n : nat) : list Z :=
  match n with
  | O => []
  | S n' => x :: iterate next (next x) n'
  end.

(** The labels from [label] on, [n] of them. *)
Definition labels_from (f : freq) (label : Z) (n : nat) : list Z :=
  iterate (next_label f) label n.

(** How many bins lie between the first and the last label, both included. *)
Definition bins_between (f : freq) (first last : Z) : nat :=
  match f with
  | FreqD => Z.to_nat (last - first + 1)
  | FreqW => Z.to_nat ((last - first) / 7 + 1)
  | FreqM => Z.to_nat (month_index last - month_index first + 1)
  end.

(** For 'W' and 'M' the right edge of a bin is the last nanosecond of its
    label day; when the latest instant is exactly such an edge, pandas keeps
    one more (empty) bin after it. *)
Definition trailing_bin (f : freq) (latest : Z) : nat :=
  match f with
  | FreqD => 0%nat
  | _ => if (latest mod ns_per_day =? ns_per_day - 1)
            && (bin_label f latest =? day_of latest)
         then 1%nat else 0%nat
  end.

(** [groupby(pd.Grouper(key=..., freq=f)).size()] over the instants of the
    key column: every bin from the one of the earliest instant to the one of
    the latest, empty bins included, with the number of instants in it. *)
Definition grouper_size (f : freq) (ts : list Z) : list (Z * Z) :=
  match ts with
  | [] => []
  | t :: ts' =>
      let first := bin_label f (list_min t ts') in
      let latest := list_max t ts' in
      let n := (bins_between f first (bin_label f latest) + trailing_bin f latest)%nat in
      map (fun label =>
             (label,
              Z.of_nat (List.length (filter (fun x => bin_label f x =? label) ts))))
          (labels_from f first n)
  end.

(* ------------------------------------------------------------------ *)
(** ** Regular expressions of the linkage scan

    The five patterns are sequences of single-character items, each taken
    once, optionally ([?]) or one or more times ([+]); the last item is the
    capturing group.  Matching is greedy with backtracking and, as with
    [re.IGNORECASE], letters match in either case. *)

Inductive cclass := CChar (c : ascii) | CDigit | CSpace.
Inductive quant := One | Optional | Plus.

Record atom := mkAtom { a_class : cclass; a_quant : quant; a_group : bool }.

Definition regex := list atom.

Definition lower (c : ascii) : ascii :=
  let n := nat_of_ascii c in
  if ((65 <=? n) && (n <=? 90))%nat then ascii_of_nat (n + 32) else c.

Definition is_digit (c : ascii) : bool :=
  let n := nat_of_ascii c in ((48 <=? n) && (n <=? 57))%nat.

(** [\s] on a [str]: tab, LF, VT, FF, CR, FS, GS, RS, US and space. *)
Definition is_space (c : ascii) : bool :=
  let n := nat_of_ascii c in
  (((9 <=? n) && (n <=? 13)) || ((28 <=? n) && (n <=? 32)))%nat.

Definition class_match (cl : cclass) (c : ascii) : bool :=
  match cl with
  | CChar x => Ascii.eqb (lower x) (lower c)
  | CDigit => is_digit c
  | CSpace => is_space c
  end.

Definition capture (a : atom) (c : ascii) (cap : list ascii) : list ascii :=
  if a_group a then cap ++ [c] else cap.

(** [match_here re s cap]: match [re] at the start of [s]; the result is the
    text of the group and what follows the match. *)
Fixpoint match_here (re : regex) : list ascii -> list ascii -> option (list ascii * list ascii) :=
  match re with
  | [] => fun s cap => Some (cap, s)
  | a :: re' =>
      let k := match_here re' in
      match a_quant a with
      | One => fun s cap =>
          match s with
          | c :: s' => if class_match (a_class a) c then k s' (capture a c cap) else None
          | [] => None
          end
      | Optional => fun s cap =>
          match s with
          | c :: s' =>
              if class_match (a_class a) c
              then match k s' (capture a c cap) with
                   | Some r => Some r
                   | None => k s cap
                   end
              else k s cap
          | [] => k s cap
          end
      | Plus =>
          fix loop (s : list ascii) (cap : list ascii) :=
            match s with
            | c :: s' =>
                if class_match (a_class a) c
                then match loop s' (capture a c cap) with
                     | Some r => Some r
                     | None => k s' (capture a c cap)
                     end
                else None
            | [] => None
            end
      end
  end.

(** [re.findall]: the groups of the non-overlapping matches, left to right.
    Every pattern here matches at least one character, so the scan resumes
    after the match; [fuel] bounds the number of positions tried. *)
Fixpoint findall_from (fuel : nat) (re : regex) (s : list ascii) : list (list ascii) :=
  match fuel with
  | O => []
  | S fuel' =>
      match s with
      | [] => []
      | c :: s' =>
          match match_here re s [] with
          | Some (cap, rest) =>
              cap :: findall_from fuel'
                       re (if (List.length rest <? List.length s)%nat then rest else s')
          | None => findall_from fuel' re s'
          end
      end
  end.

Definition findall (re : regex) (s : string) : list string :=
  map string_of_list_ascii
      (findall_from (S (String.length s)) re (list_ascii_of_string s)).

Definition lit (s : string) : regex :=
  map (fun c => mkAtom (CChar c) One false) (list_ascii_of_string s).

Definition hash_digits : regex :=
  [mkAtom (CChar "#") One false; mkAtom CDigit Plus true].

Definition spaces : regex := [mkAtom CSpace Plus false].

Definition optional (c : ascii) : regex := [mkAtom (CChar c) Optional false].

Definition patterns : list regex :=
  [ hash_digits;                                               (* #(\d+) *)
    lit "close" ++ optional "s" ++ spaces ++ hash_digits;      (* closes?\s+#(\d+) *)
    lit "fixe" ++ optional "s" ++ spaces ++ hash_digits;       (* fixes?\s+#(\d+) *)
    lit "resolve" ++ optional "s" ++ spaces ++ hash_digits;    (* resolves?\s+#(\d+) *)
    lit "related" ++ spaces ++ lit "to" ++ spaces ++ hash_digits ].
                                                               (* related\s+to\s+#(\d+) *)

(** [int(text)] on a run of decimal digits. *)
Definition int_of_digits (s : string) : Z :=
  fold_left (fun acc c => acc * 10 + (Z.of_nat (nat_of_ascii c) - 48))
            (list_ascii_of_string s) 0.

(** [set.update(items)], the set kept in order of insertion. *)
Definition set_update (set items : list string) : list string :=
  fold_left (fun acc x => if mem_str x acc then acc else acc ++ [x]) items set.

(** [sep.join(items)]. *)
Fixpoint join (sep : string) (items : list string) : string :=
  match items with
  | [] => EmptyString
  | [x] => x
  | x :: items' => (x ++ sep ++ join sep items')%string
  end.

(** Python truthiness of a cell ([if body:]). *)
Definition truthy (v : value) : bool :=
  match v with
  | VNone => false
  | VBool b => b
  | VInt n => negb (n =? 0)
  | VFloat q => negb (Qeq_bool q 0)
  | VStr s => negb (String.eqb s "")
  | VList l => match l with [] => false | _ => true end
  | _ => true
  end.

Section Processor.

(** pandas' parser of date strings is not part of the repository: it is a
    parameter of the model ([None] stands for an unparsable string). *)
Variable parse_datetime : string -> option Z.

Definition timestamp (t : Z) : exn + value :=
  if in_bounds t then inr (VTime t) else inl OutOfBoundsDatetime.

Definition to_datetime_cell (v : value) : exn + value :=
  match v with
  | VTime t => timestamp t
  | VNone | VNaN => inr VNaN
  | VStr s => match parse_datetime s with
              | Some t => timestamp t
              | None => inl ValueError
              end
  | VInt n => timestamp n
  | VFloat q => timestamp (Z.quot (Qnum q) (Zpos (Qden q)))
  | VDate d => timestamp (d * ns_per_day)
  | _ => inl TypeError
  end.

(** [pd.to_datetime(series)]. *)
Definition to_datetime (vs : list value) : M (list value) :=
  lift (mapM to_datetime_cell vs).

(* ------------------------------------------------------------------ *)
(** ** DataProcessor.extract_labels_frequency *)

(** What [all_labels.extend(cell)] appends: the names of a list; a string is
    iterated character by character; other cells are not iterable. *)
Definition iterate_cell (v : value) : exn + list value :=
  match v with
  | VList l => inr (map VStr l)
  | VStr s => inr (map (fun c => VStr (String c EmptyString)) (list_ascii_of_string s))
  | _ => inl TypeError
  end.

Fixpoint extend_all (all_labels : list value) (cells : list value) : exn + list value :=
  match cells with
  | [] => inr all_labels
  | labels :: cells' =>
      match iterate_cell labels with
      | inl e => inl e
      | inr items => extend_all (all_labels ++ items) cells'
      end
  end.

(** One of the two "collect labels" blocks. *)
Definition collect_labels (df : ref) (all_labels : list value) : M (list value) :=
  empty <- df_empty df ;;
  has_labels <- df_has_column df "labels" ;;
  if negb empty && has_labels
  then cells <- df_getitem df "labels" ;; lift (extend_all all_labels cells)
  else ret all_labels.

Definition extract_labels_frequency (issues_df prs_df : ref) : M ref :=
  all_labels <- collect_labels issues_df [] ;;
  all_labels <- collect_labels prs_df all_labels ;;
  match all_labels with
  | _ :: _ =>
      let label_counts := value_counts all_labels in
      table <- alloc (counts_frame "Label" "Count" label_counts) ;;
      df_sort_values table "Count" false
  | [] => pd_DataFrame (Columns ["Label"; "Count"])
  end.

(* ------------------------------------------------------------------ *)
(** ** DataProcessor.create_contributor_leaderboard *)

(** [contributor_data]: user -> {'Issues': n, 'PRs': n}, in insertion order. *)
Definition tally := list (value * dict).

Definition new_entry : dict := [("Issues", VInt 0); ("PRs", VInt 0)].

Definition tally_mem (user : value) (data : tally) : bool :=
  existsb (fun e => value_eqb user (fst e)) data.

Fixpoint tally_update (user : value) (field : string) (count : Z) (data : tally) : tally :=
  match data with
  | [] => []
  | (u, entry) :: data' =>
      if value_eqb user u then (u, dict_set field (VInt count) entry) :: data'
      else (u, entry) :: tally_update user field count data'
  end.

(** One pass of a [for user, count in counts.items()] loop. *)
Definition record_count (field : string) (data : tally) (item : value * Z) : tally :=
  let '(user, count) := item in
  let data := if tally_mem user data then data else data ++ [(user, new_entry)] in
  tally_update user field count data.

(** One of the two "count per contributor" blocks. *)
Definition count_contributions (df : ref) (field : string) (data : tally) : M tally :=
  empty <- df_empty df ;;
  has_user <- df_has_column df "user" ;;
  if negb empty && has_user
  then users <- df_getitem df "user" ;;
       ret (fold_left (record_count field) (value_counts users) data)
  else ret data.

(** [a + b] on two cells. *)
Definition add_cells (a b : value) : value :=
  match a, b with
  | VInt x, VInt y => VInt (x + y)
  | VInt x, VFloat y => VFloat (inject_Z x + y)
  | VFloat x, VInt y => VFloat (x + inject_Z y)
  | VFloat x, VFloat y => VFloat (x + y)
  | _, _ => VNaN
  end.

Fixpoint zip_with {A B C} (f : A -> B -> C) (l1 : list A) (l2 : list B) : list C :=
  match l1, l2 with
  | x :: l1', y :: l2' => f x y :: zip_with f l1' l2'
  | _, _ => []
  end.

(** [df.columns = names]: positional renaming, in place. *)
Definition rename_row (names : list string) (row : dict) : dict :=
  zip_with (fun n cell => (n, snd cell)) names row.

Definition df_set_columns (r : ref) (names : list string) : M unit :=
  d <- load r ;;
  if (List.length names =? List.length (df_columns d))%nat
  then store r (mkDF names (map (rename_row names) (df_rows d)))
  else raise ValueError.

(** [pd.DataFrame.from_dict(data, orient='index').reset_index()]: one row
    per key, the key in a first column named "index". *)
Definition frame_from_tally (data : tally) : DataFrame :=
  let cols := records_columns (map snd data) in
  mkDF ("index" :: cols)
       (map (fun e => ("index", fst e) :: align_row cols (snd e)) data).

Definition create_contributor_leaderboard (issues_df prs_df : ref) : M ref :=
  contributor_data <- count_contributions issues_df "Issues" [] ;;
  contributor_data <- count_contributions prs_df "PRs" contributor_data ;;
  match contributor_data with
  | _ :: _ =>
      leaderboard_df <- alloc (frame_from_tally contributor_data) ;;
      df_set_columns leaderboard_df ["Contributor"; "Issues"; "PRs"] ;;;
      issues <- df_getitem leaderboard_df "Issues" ;;
      prs <- df_getitem leaderboard_df "PRs" ;;
      df_setitem leaderboard_df "Total" (zip_with add_cells issues prs) ;;;
      df_sort_values leaderboard_df "Total" false
  | [] => pd_DataFrame (Columns ["Contributor"; "Issues"; "PRs"; "Total"])
  end.

(* ------------------------------------------------------------------ *)
(** ** DataProcessor.extract_pr_issue_linkage *)

(** The scan of one body with every pattern, collected into a set. *)
Definition scan_body (body : string) : list string :=
  fold_left (fun linked_issues pattern => set_update linked_issues (findall pattern body))
            patterns [].

Definition sorted_by_int (linked_issues : list string) : list string :=
  sort_by (fun a b => int_of_digits a <=? int_of_digits b) linked_issues.

(** The body of the loop over [prs_df.iterrows()]. *)
Definition linkage_of_row (linkages : list dict) (pr : dict) : exn + list dict :=
  let pr_number := row_get "number" (VStr "N/A") pr in
  let pr_title := row_get "title" (VStr "N/A") pr in
  let body := row_get "body" (VStr "") pr in
  match (if truthy body
         then match body with
              | VStr text => inr (scan_body text)
              | _ => inl TypeError
              end
         else inr [])
  with
  | inl e => inl e
  | inr [] => inr linkages
  | inr linked_issues =>
      inr (linkages ++ [[ ("PR Number", pr_number);
                          ("PR Title", pr_title);
                          ("Linked Issues", VStr (join ", " (sorted_by_int linked_issues))) ]])
  end.

Fixpoint fold_rows (f : list dict -> dict -> exn + list dict)
         (rows : list dict) (acc : list dict) : exn + list dict :=
  match rows with
  | [] => inr acc
  | r :: rows' => match f acc r with
                  | inl e => inl e
                  | inr acc' => fold_rows f rows' acc'
                  end
  end.

Definition extract_pr_issue_linkage (prs_df : ref) : M ref :=
  empty <- df_empty prs_df ;;
  has_body <- df_has_column prs_df "body" ;;
  if empty || negb has_body
  then pd_DataFrame (Columns ["PR Number"; "PR Title"; "Linked Issues"])
  else
    prs <- load prs_df ;;
    linkages <- lift (fold_rows linkage_of_row (df_rows prs) []) ;;
    match linkages with
    | _ :: _ => pd_DataFrame (Records linkages)
    | [] => pd_DataFrame (Columns ["PR Number"; "PR Title"; "Linked Issues"])
    end.

(* ------------------------------------------------------------------ *)
(** ** DataProcessor.create_timeline_data *)

(** [.dt.date] of a datetime cell. *)
Definition date_of_cell (v : value) : value :=
  match v with VTime t => VDate (day_of t) | _ => VNaN end.

(** [groupby(key).size()]: one entry per distinct present key, keys
    ascending. *)
Definition groupby_size (keys : list value) : list (value * Z) :=
  let present := filter notna keys in
  map (fun k => (k, count_value k present))
      (sort_by value_leb (distinct [] present)).

(** [existing = next((x for x in data if x[key] == k), None)] followed by
    [existing[field] = count], or by the append of a new row when there is
    no such row. *)
Fixpoint upsert (key : string) (k : value) (field : string) (count : Z)
         (fresh : dict) (data : list dict) : list dict :=
  match data with
  | [] => [fresh]
  | x :: data' =>
      if value_eqb (row_get key VNaN x) k
      then dict_set field (VInt count) x :: data'
      else x :: upsert key k field count fresh data'
  end.

(** [df[c] = pd.to_datetime(df['created_at']).dt.date] on a copy, then the
    sizes of the groups. *)
Definition counts_by_creation_date (df : ref) : M (list (value * Z)) :=
  copy <- df_copy df ;;
  created <- df_getitem copy "created_at" ;;
  created <- to_datetime created ;;
  df_setitem copy "date" (map date_of_cell created) ;;;
  dates <- df_getitem copy "date" ;;
  ret (groupby_size dates).

Definition timeline_issues (issues_df : ref) : M (list dict) :=
  empty <- df_empty issues_df ;;
  has_created <- df_has_column issues_df "created_at" ;;
  if negb empty && has_created
  then
    issue_counts <- counts_by_creation_date issues_df ;;
    ret (map (fun item => [("Date", fst item); ("Issues", VInt (snd item)); ("PRs", VInt 0)])
             issue_counts)
  else ret [].

Definition timeline_prs (prs_df : ref) (timeline_data : list dict) : M (list dict) :=
  empty <- df_empty prs_df ;;
  has_created <- df_has_column prs_df "created_at" ;;
  if negb empty && has_created
  then
    pr_counts <- counts_by_creation_date prs_df ;;
    ret (fold_left
           (fun data item =>
              upsert "Date" (fst item) "PRs" (snd item)
                     [("Date", fst item); ("Issues", VInt 0); ("PRs", VInt (snd item))]
                     data)
           pr_counts timeline_data)
  else ret timeline_data.

Definition create_timeline_data (issues_df prs_df : ref) : M ref :=
  timeline_data <- timeline_issues issues_df ;;
  timeline_data <- timeline_prs prs_df timeline_data ;;
  match timeline_data with
  | _ :: _ =>
      timeline_df <- pd_DataFrame (Records timeline_data) ;;
      timeline_df <- df_sort_values timeline_df "Date" true ;;
      issues <- df_getitem timeline_df "Issues" ;;
      prs <- df_getitem timeline_df "PRs" ;;
      df_setitem timeline_df "Total" (zip_with add_cells issues prs) ;;;
      ret timeline_df
  | [] => pd_DataFrame (Columns ["Date"; "Issues"; "PRs"; "Total"])
  end.

(* ------------------------------------------------------------------ *)
(** ** DataProcessor.calculate_kpis *)

(** [len(df[df[c] == ...])]. *)
Definition count_where (df : ref) (c : string) (p : value -> bool) : M Z :=
  col <- df_getitem df c ;;
  selected <- df_getitem_mask df (map p col) ;;
  df_len selected.

(** The numbers of a float column, missing cells skipped. *)
Fixpoint present_floats (vs : list value) : list Q :=
  match vs with
  | [] => []
  | VFloat q :: vs' => q :: present_floats vs'
  | VInt n :: vs' => inject_Z n :: present_floats vs'
  | _ :: vs' => present_floats vs'
  end.

Definition Qsum (qs : list Q) : Q := fold_right Qplus 0%Q qs.

(** [series.mean()]: NaN cells are skipped; NaN when nothing is left. *)
Definition series_mean (vs : list value) : value :=
  match present_floats vs with
  | [] => VNaN
  | qs => VFloat (Qsum qs / inject_Z (Z.of_nat (List.length qs)))
  end.

(** The average of [(until - created_at)] in days over the rows selected by
    [c == wanted]: the two "average time" blocks of [calculate_kpis]. *)
Definition average_days (df : ref) (c : string) (p : value -> bool)
           (until out : string) : M value :=
  col <- df_getitem df c ;;
  selected <- df_getitem_mask df (map p col) ;;
  done <- df_copy selected ;;
  none <- df_empty done ;;
  any_finished <- (if negb none
                   then finished <- df_getitem done until ;; ret (existsb notna finished)
                   else ret false) ;;
  if any_finished
  then
    finished <- df_getitem done until ;;
    finished <- to_datetime finished ;;
    created <- df_getitem done "created_at" ;;
    created <- to_datetime created ;;
    df_setitem done out (zip_with days_between finished created) ;;;
    times <- df_getitem done out ;;
    ret (series_mean times)
  else ret (VInt 0).

Definition calculate_kpis (issues_df prs_df : ref) : M dict :=
  issues_empty <- df_empty issues_df ;;
  prs_empty <- df_empty prs_df ;;
  (* Basic counts *)
  total_issues <- (if negb issues_empty then df_len issues_df else ret 0) ;;
  total_prs <- (if negb prs_empty then df_len prs_df else ret 0) ;;
  open_issues <- (if negb issues_empty
                  then count_where issues_df "state" (eq_str "open") else ret 0) ;;
  open_prs <- (if negb prs_empty
               then count_where prs_df "state" (eq_str "open") else ret 0) ;;
  closed_issues <- (if negb issues_empty
                    then count_where issues_df "state" (eq_str "closed") else ret 0) ;;
  has_merged <- df_has_column prs_df "merged" ;;
  merged_prs <- (if negb prs_empty && has_merged
                 then count_where prs_df "merged" eq_true else ret 0) ;;
  (* Calculate average resolution time *)
  issue_created <- df_has_column issues_df "created_at" ;;
  issue_closed <- df_has_column issues_df "closed_at" ;;
  avg_issue_resolution_days <-
    (if negb issues_empty && issue_created && issue_closed
     then average_days issues_df "state" (eq_str "closed") "closed_at" "resolution_time"
     else ret (VInt 0)) ;;
  pr_created <- df_has_column prs_df "created_at" ;;
  pr_merged_at <- df_has_column prs_df "merged_at" ;;
  avg_pr_merge_days <-
    (if negb prs_empty && pr_created && pr_merged_at && has_merged
     then average_days prs_df "merged" eq_true "merged_at" "merge_time"
     else ret (VInt 0)) ;;
  ret [ ("total_issues", VInt total_issues);
        ("total_prs", VInt total_prs);
        ("open_issues", VInt open_issues);
        ("open_prs", VInt open_prs);
        ("closed_issues", VInt closed_issues);
        ("merged_prs", VInt merged_prs);
        ("avg_issue_resolution_days", avg_issue_resolution_days);
        ("avg_pr_merge_days", avg_pr_merge_days) ].

(* ------------------------------------------------------------------ *)
(** ** DataProcessor.create_throughput_data *)

(** The "Determine grouping period" chain of [create_throughput_data]. *)
Definition throughput_period (start_date end_date : Z) : freq :=
  let days_range := timedelta_days (end_date - start_date) in
  if days_range <=? 7 then FreqD        (* Daily *)
  else if days_range <=? 30 then FreqW  (* Weekly *)
  else if days_range <=? 90 then FreqW  (* Weekly *)
  else FreqM.                           (* Monthly *)

(** [cell >= t] and [cell <= t] on a datetime cell; False on NaT. *)
Definition time_ge (v : value) (t : Z) : bool :=
  match v with VTime x => t <=? x | _ => false end.

Definition time_le (v : value) (t : Z) : bool :=
  match v with VTime x => x <=? t | _ => false end.

(** [(cell >= start_date) & (cell <= end_date)]. *)
Definition in_window (start_date end_date : Z) (v : value) : bool :=
  time_ge v start_date && time_le v end_date.

Fixpoint timestamps (vs : list value) : list Z :=
  match vs with
  | [] => []
  | VTime t :: vs' => t :: timestamps vs'
  | _ :: vs' => timestamps vs'
  end.

(** The counts per bin of the rows of [df] selected by [c == wanted] whose
    [at_col] instant lies in the window: the part shared by the two
    "process" blocks. *)
Definition window_counts (df : ref) (c : string) (p : value -> bool) (at_col : string)
           (start_date end_date : Z) (period : freq) : M (list (Z * Z)) :=
  col <- df_getitem df c ;;
  selected <- df_getitem_mask df (map p col) ;;
  done <- df_copy selected ;;
  none <- df_empty done ;;
  if negb none
  then
    at_times <- df_getitem done at_col ;;
    at_times <- to_datetime at_times ;;
    df_setitem done at_col at_times ;;;
    at_times <- df_getitem done at_col ;;
    done <- df_getitem_mask done (map (in_window start_date end_date) at_times) ;;
    at_times <- df_getitem done at_col ;;
    ret (grouper_size period (timestamps at_times))
  else ret [].

Definition day_start (label : Z) : Z := label * ns_per_day.

(** "Process closed issues". *)
Definition throughput_closed_issues (issues_df : ref) (start_date end_date : Z)
           (period : freq) : M (list dict) :=
  empty <- df_empty issues_df ;;
  has_closed_at <- df_has_column issues_df "closed_at" ;;
  if negb empty && has_closed_at
  then
    closed_counts <- window_counts issues_df "state" (eq_str "closed") "closed_at"
                                   start_date end_date period ;;
    ret (map (fun item =>
                [ ("Period", VStr (strftime_ymd (day_start (fst item))));
                  ("Closed_Issues", VInt (snd item));
                  ("Merged_PRs", VInt 0) ])
             closed_counts)
  else ret [].

(** "Process merged PRs". *)
Definition throughput_merged_prs (prs_df : ref) (start_date end_date : Z)
           (period : freq) (throughput_data : list dict) : M (list dict) :=
  empty <- df_empty prs_df ;;
  has_merged_at <- df_has_column prs_df "merged_at" ;;
  has_merged <- df_has_column prs_df "merged" ;;
  if negb empty && has_merged_at && has_merged
  then
    merged_counts <- window_counts prs_df "merged" eq_true "merged_at"
                                   start_date end_date period ;;
    ret (fold_left
           (fun data item =>
              let period_str := strftime_ymd (day_start (fst item)) in
              upsert "Period" (VStr period_str) "Merged_PRs" (snd item)
                     [ ("Period", VStr period_str);
                       ("Closed_Issues", VInt 0);
                       ("Merged_PRs", VInt (snd item)) ]
                     data)
           merged_counts throughput_data)
  else ret throughput_data.

Definition create_throughput_data (issues_df prs_df : ref) (start_date end_date : Z) : M ref :=
  let period := throughput_period start_date end_date in
  throughput_data <- throughput_closed_issues issues_df start_date end_date period ;;
  throughput_data <- throughput_merged_prs prs_df start_date end_date period throughput_data ;;
  match throughput_data with
  | _ :: _ =>
      df <- pd_DataFrame (Records throughput_data) ;;
      df_sort_values df "Period" true
  | [] => pd_DataFrame (Columns ["Period"; "Closed_Issues"; "Merged_PRs"])
  end.

(* ------------------------------------------------------------------ *)
(** ** DataProcessor.create_cycle_time_data *)

(** The "Determine grouping period" chain of [create_cycle_time_data]. *)
Definition cycle_time_period (start_date end_date : Z) : freq :=
  let days_range := timedelta_days (end_date - start_date) in
  if days_range <=? 7 then FreqD
  else if days_range <=? 30 then FreqW
  else if days_range <=? 90 then FreqW
  else FreqM.

(** [.dt.to_period(f)] on a datetime cell. *)
Definition to_period (f : freq) (v : value) : value :=
  match v with VTime t => VPeriod f (period_ordinal f t) | _ => VNaN end.

(** [.astype(str)] on a Period cell. *)
Definition period_to_str (v : value) : value :=
  match v with VPeriod f o => VStr (period_str f o) | _ => VStr "NaT" end.

(** [groupby(key)[c].mean()]: one entry per distinct present key, keys
    ascending, with the mean of the group's cells. *)
Definition groupby_mean (keys cells : list value) : list (value * value) :=
  let present := filter notna keys in
  map (fun k => (k, series_mean (select (map (value_eqb k) keys) cells)))
      (sort_by value_leb (distinct [] present)).

Fixpoint dict_rename (old new : string) (d : dict) : dict :=
  match d with
  | [] => []
  | (k, v) :: d' => (if String.eqb k old then new else k, v) :: dict_rename old new d'
  end.

(** [df.rename(columns={old: new})]: a new table. *)
Definition df_rename (r : ref) (old new : string) : M ref :=
  d <- load r ;;
  alloc (mkDF (map (fun c => if String.eqb c old then new else c) (df_columns d))
              (map (dict_rename old new) (df_rows d))).

(** [df[[c1, c2, ...]]]: a new table with these columns. *)
Definition df_select_columns (r : ref) (cols : list string) : M ref :=
  d <- load r ;;
  match filter (fun c => negb (has_column c d)) cols with
  | [] => alloc (mkDF cols (map (align_row cols) (df_rows d)))
  | c :: _ => raise (KeyError c)
  end.

Definition empty_cycle_time : M ref :=
  pd_DataFrame (Columns ["Period"; "Avg_Cycle_Time_Days"]).

Definition create_cycle_time_data (prs_df : ref) (start_date end_date : Z) : M ref :=
  empty <- df_empty prs_df ;;
  has_created <- df_has_column prs_df "created_at" ;;
  has_merged_at <- df_has_column prs_df "merged_at" ;;
  has_merged <- df_has_column prs_df "merged" ;;
  if empty || negb has_created || negb has_merged_at || negb has_merged
  then empty_cycle_time
  else
    merged <- df_getitem prs_df "merged" ;;
    selected <- df_getitem_mask prs_df (map eq_true merged) ;;
    merged_prs <- df_copy selected ;;
    none <- df_empty merged_prs ;;
    if none then empty_cycle_time
    else
      created <- df_getitem merged_prs "created_at" ;;
      created <- to_datetime created ;;
      df_setitem merged_prs "created_at" created ;;;
      merged_at <- df_getitem merged_prs "merged_at" ;;
      merged_at <- to_datetime merged_at ;;
      df_setitem merged_prs "merged_at" merged_at ;;;
      created <- df_getitem merged_prs "created_at" ;;
      merged_at <- df_getitem merged_prs "merged_at" ;;
      merged_prs <- df_getitem_mask merged_prs
                      (zip_with (fun c m => time_ge c start_date && time_le m end_date)
                                created merged_at) ;;
      none <- df_empty merged_prs ;;
      if none then empty_cycle_time
      else
        (* Calculate cycle time in days *)
        merged_at <- df_getitem merged_prs "merged_at" ;;
        created <- df_getitem merged_prs "created_at" ;;
        df_setitem merged_prs "cycle_time_days" (zip_with days_between merged_at created) ;;;
        (* Determine grouping period *)
        let period := cycle_time_period start_date end_date in
        (* Group by period and calculate average cycle time *)
        merged_at <- df_getitem merged_prs "merged_at" ;;
        df_setitem merged_prs "period" (map (to_period period) merged_at) ;;;
        periods <- df_getitem merged_prs "period" ;;
        cycle_times <- df_getitem merged_prs "cycle_time_days" ;;
        cycle_time_avg <-
          alloc (mkDF ["period"; "cycle_time_days"]
                      (map (fun g => [("period", fst g); ("cycle_time_days", snd g)])
                           (groupby_mean periods cycle_times))) ;;
        periods <- df_getitem cycle_time_avg "period" ;;
        df_setitem cycle_time_avg "Period" (map period_to_str periods) ;;;
        cycle_time_avg <- df_rename cycle_time_avg "cycle_time_days" "Avg_Cycle_Time_Days" ;;
        df_select_columns cycle_time_avg ["Period"; "Avg_Cycle_Time_Days"].

(* ------------------------------------------------------------------ *)
(** ** DataProcessor.create_issue_aging_data *)

Definition get_age_bucket (age_days : value) : value :=
  if float_le age_days 7 then VStr "0-7 days"
  else if float_le age_days 30 then VStr "7-30 days"
  else VStr "30+ days".

Definition all_buckets : list string := ["0-7 days"; "7-30 days"; "30+ days"].

Definition bucket_order : dict :=
  [("0-7 days", VInt 0); ("7-30 days", VInt 1); ("30+ days", VInt 2)].

(** [series.map(mapping)]: a value outside the mapping becomes NaN. *)
Definition series_map (mapping : dict) (vs : list value) : list value :=
  map (fun v => match v with
                | VStr s => row_get s VNaN mapping
                | _ => VNaN
                end) vs.

Definition create_issue_aging_data (issues_df : ref) (current_date : Z) : M ref :=
  empty <- df_empty issues_df ;;
  has_created <- df_has_column issues_df "created_at" ;;
  if empty || negb has_created then pd_DataFrame (Columns ["Age_Bucket"; "Count"])
  else
    state <- df_getitem issues_df "state" ;;
    selected <- df_getitem_mask issues_df (map (eq_str "open") state) ;;
    open_issues <- df_copy selected ;;
    none_open <- df_empty open_issues ;;
    if none_open then pd_DataFrame (Columns ["Age_Bucket"; "Count"])
    else
      created <- df_getitem open_issues "created_at" ;;
      created <- to_datetime created ;;
      df_setitem open_issues "created_at" created ;;;
      created <- df_getitem open_issues "created_at" ;;
      df_setitem open_issues "age_days"
                 (map (days_between (VTime current_date)) created) ;;;
      age_days <- df_getitem open_issues "age_days" ;;
      df_setitem open_issues "Age_Bucket" (map get_age_bucket age_days) ;;;
      buckets <- df_getitem open_issues "Age_Bucket" ;;
      bucket_counts <- alloc (counts_frame "Age_Bucket" "Count" (value_counts buckets)) ;;
      (* Ensure all buckets are present *)
      bucket_counts <-
        foldM (fun bucket_counts bucket =>
                 present <- df_getitem bucket_counts "Age_Bucket" ;;
                 if negb (mem_value (VStr bucket) present)
                 then
                   extra <- alloc (mkDF ["Age_Bucket"; "Count"]
                                        [[("Age_Bucket", VStr bucket); ("Count", VInt 0)]]) ;;
                   pd_concat bucket_counts extra
                 else ret bucket_counts)
              all_buckets bucket_counts ;;
      (* Sort by bucket order *)
      present <- df_getitem bucket_counts "Age_Bucket" ;;
      df_setitem bucket_counts "order" (series_map bucket_order present) ;;;
      sorted <- df_sort_values bucket_counts "order" true ;;
      df_drop_column sorted "order".

End Processor.

(* ------------------------------------------------------------------ *)
(** ** Vocabulary of the specification *)

(** Section 4.1: the fields every raw item must carry. *)
Definition required_fields : list string := ["number"; "created_at"; "state"].

Definition lacks_required (item : dict) : bool :=
  existsb (fun k => negb (mem_str k (dict_keys item))) required_fields.

(** The columns of a table of pull requests, in the order of [get_pr_data]. *)
Definition pr_columns : list string :=
  ["number"; "title"; "state"; "created_at"; "closed_at"; "merged_at"; "user";
   "labels"; "comments"; "review_comments"; "body"; "is_pr"; "merged"].
(** Section 8: the body of the linkage example, on a pull request numbered 5. *)
Definition spec_body : string := "Fixes #12 and relates to #7, also see #12".
Definition spec_pr : PullRequest :=
  mkPR 5 "Fix the parser" Closed 0 (Some 10) (Some 10) (Some "alice") []
       0 0 (Some spec_body) true.

(** Section 4.3: the period selection rule, on the range in whole days. *)
Definition period_rule (days_range : Z) : freq :=
  if days_range <=? 7 then FreqD
  else if days_range <=? 90 then FreqW
  else FreqM.

(** Every table of [st] is still there, with the same contents, in [st']. *)
Definition unchanged (st st' : Store) : Prop :=
  forall r d, nth_error st r = Some d -> nth_error st' r = Some d.

(** Whatever the outcome of [m], the tables that existed before its run are
    unchanged after it. *)
Definition leaves_tables_intact {A} (m : M A) : Prop :=
  forall st, unchanged st (snd (m st)).

(** The table [m] returns is an object that did not exist before the run. *)
Definition returns_new_table (m : M ref) : Prop :=
  forall st r, fst (m st) = inr r -> nth_error st r = None.

(** The invariant of a run started in [st0]: the store only grows past
    [st0], and the result satisfies [G]. *)
Definition preserves (st0 : Store) {A} (m : M A) (G : A -> Prop) : Prop :=
  forall st, (exists extra, st = st0 ++ extra) ->
    (exists extra, snd (m st) = st0 ++ extra)
    /\ forall a, fst (m st) = inr a -> G a.

(** A reference that [st0] does not hold. *)
Definition fresh (st0 : Store) (r : ref) : Prop := (List.length st0 <= r)%nat.

(** How many times a text occurs in a list. *)
Definition occurrences (k : string) (l : list string) : Z :=
  Z.of_nat (List.length (filter (String.eqb k) l)).

(** The columns of a table of issues, in the order of [get_issue_data]. *)
Definition issue_columns : list string :=
  ["number"; "title"; "state"; "created_at"; "closed_at"; "user"; "labels";
   "comments"; "is_pr"].

Definition is_open (i : Issue) : bool :=
  match issue_state i with Open => true | Closed => false end.

Definition is_closed (i : Issue) : bool :=
  match issue_state i with Open => false | Closed => true end.

(** Section 8, aging buckets: the class of an issue by its age at [now]. *)
Definition age_class (now : Z) (i : Issue) : string :=
  let age := now - issue_created_at i in
  if age <=? 7 * ns_per_day then "0-7 days"
  else if age <=? 30 * ns_per_day then "7-30 days"
  else "30+ days".

(** The row of the aging table for a bucket: the open issues of that class. *)
Definition aging_row (now : Z) (issues : list Issue) (bucket : string) : dict :=
  [ ("Age_Bucket", VStr bucket);
    ("Count", VInt (occurrences bucket (map (age_class now) (filter is_open issues)))) ].
(** A row of a two-column counting table. *)
Definition bucket_row (entry : string * Z) : dict :=
  [("Age_Bucket", VStr (fst entry)); ("Count", VInt (snd entry))].

(** The "ensure all buckets are present" loop, on the entries of the table. *)
Definition ensure_buckets (buckets : list string) (entries : list (string * Z))
  : list (string * Z) :=
  fold_left (fun entries bucket =>
               if mem_str bucket (map fst entries) then entries
               else entries ++ [(bucket, 0)])
            buckets entries.
(** The position of a bucket in [bucket_order]. *)
Definition bucket_rank (row : dict) : Z :=
  match row_get "order" VNaN row with VInt n => n | _ => 0 end.

Definition ordered_row (classes : list string) (bucket : string) : dict :=
  [ ("Age_Bucket", VStr bucket);
    ("Count", VInt (occurrences bucket classes));
    ("order", row_get bucket VNaN bucket_order) ].
(** An open issue created 5 days before day 0, and a closed one. *)
Definition aged_issue : Issue :=
  mkIssue 1 "Crash on start" Open (-5 * ns_per_day) None (Some "alice") [] 0.

Definition closed_issue : Issue :=
  mkIssue 2 "Typo" Closed (-40 * ns_per_day) (Some 0) (Some "bob") [] 0.

(** [(until - created) .total_seconds() / 86400] for two instants. *)
Definition days_from_to (created until : Z) : Q := (until - created) # 86400000000000.

(** The arithmetic mean of a list of numbers. *)
Definition mean (qs : list Q) : Q := Qsum qs / inject_Z (Z.of_nat (List.length qs)).

(** Section 4.2: the issues that count for the average resolution time, and
    the resolution time of one of them in days. *)
Definition resolved (i : Issue) : bool :=
  is_closed i && match issue_closed_at i with Some _ => true | None => false end.

Definition resolution_days (i : Issue) : Q :=
  match issue_closed_at i with
  | Some closed => days_from_to (issue_created_at i) closed
  | None => 0
  end.

(** The same for the pull requests and their merge time. *)
Definition merged_with_time (p : PullRequest) : bool :=
  pr_merged p && match pr_merged_at p with Some _ => true | None => false end.

Definition merge_days (p : PullRequest) : Q :=
  match pr_merged_at p with
  | Some merged => days_from_to (pr_created_at p) merged
  | None => 0
  end.

(** What [average_days] returns on items that have a selection flag, a
    creation instant and an optional final instant. *)
Definition average_of {A} (sel : A -> bool) (created : A -> Z) (final : A -> option Z)
           (items : list A) : value :=
  let counted x := sel x && match final x with Some _ => true | None => false end in
  let days x := match final x with
                | Some t => days_from_to (created x) t
                | None => 0%Q
                end in
  if existsb counted items then VFloat (mean (map days (filter counted items)))
  else VInt 0.

(** The instants of an item are representable as pandas Timestamps. *)
Definition opt_in_bounds (t : option Z) : bool :=
  match t with Some t => in_bounds t | None => true end.

Definition issue_in_bounds (i : Issue) : bool :=
  in_bounds (issue_created_at i) && opt_in_bounds (issue_closed_at i).

Definition pr_in_bounds (p : PullRequest) : bool :=
  in_bounds (pr_created_at p) && opt_in_bounds (pr_closed_at p)
  && opt_in_bounds (pr_merged_at p).
(** Section 8: three closed issues resolved in 1, 2 and 3 days. *)
Definition spec_issues : list Issue :=
  [ mkIssue 1 "a" Closed 0 (Some (1 * ns_per_day)) (Some "alice") [] 0;
    mkIssue 2 "b" Closed 0 (Some (2 * ns_per_day)) (Some "alice") [] 0;
    mkIssue 3 "c" Closed 0 (Some (3 * ns_per_day)) (Some "bob") [] 0 ].

Definition issue_login (i : Issue) : string :=
  match issue_user i with Some l => l | None => "Unknown" end.

Definition pr_login (p : PullRequest) : string :=
  match pr_user p with Some l => l | None => "Unknown" end.

(** Section 4.4: the row of a contributor. *)
Definition leaderboard_row (issues prs : list string) (u : string) : dict :=
  [ ("Contributor", VStr u);
    ("Issues", VInt (occurrences u issues));
    ("PRs", VInt (occurrences u prs));
    ("Total", VInt (occurrences u issues + occurrences u prs)) ].

(** The tally seen as a list of logins with their two counters. *)
Definition counters := list (string * (Z * Z)).

Definition tally_of (data : counters) : tally :=
  map (fun e => (VStr (fst e),
                 [("Issues", VInt (fst (snd e))); ("PRs", VInt (snd (snd e)))]))
      data.

Definition field_name (issues_field : bool) : string :=
  if issues_field then "Issues" else "PRs".

Definition set_counter (issues_field : bool) (n : Z) (c : Z * Z) : Z * Z :=
  if issues_field then (n, snd c) else (fst c, n).

Fixpoint counters_update (f : bool) (u : string) (n : Z) (data : counters) : counters :=
  match data with
  | [] => []
  | (k, c) :: data' =>
      if String.eqb u k then (k, set_counter f n c) :: data'
      else (k, c) :: counters_update f u n data'
  end.

Definition counters_record (f : bool) (data : counters) (item : string * Z) : counters :=
  counters_update f (fst item) (snd item)
    (if mem_str (fst item) (map fst data) then data
     else data ++ [(fst item, (0, 0))]).
Definition counters_row (e : string * (Z * Z)) : dict :=
  [ ("Contributor", VStr (fst e));
    ("Issues", VInt (fst (snd e)));
    ("PRs", VInt (snd (snd e)));
    ("Total", VInt (fst (snd e) + snd (snd e))) ].
(** Section 8: two issues by alice; one pull request by alice, three by bob. *)
Definition leaderboard_issues : list Issue :=
  [ mkIssue 1 "a" Open 0 None (Some "alice") [] 0;
    mkIssue 2 "b" Open 0 None (Some "alice") [] 0 ].

Definition leaderboard_prs : list PullRequest :=
  [ mkPR 3 "c" Open 0 None None (Some "alice") [] 0 0 None false;
    mkPR 4 "d" Open 0 None None (Some "bob") [] 0 0 None false;
    mkPR 5 "e" Open 0 None None (Some "bob") [] 0 0 None false;
    mkPR 6 "f" Open 0 None None (Some "bob") [] 0 0 None false ].

(** What [calculate_kpis] returns on a collection of issues and of pull
    requests. *)
Definition pr_is_open (p : PullRequest) : bool :=
  match pr_state p with Open => true | Closed => false end.

Definition count_of {A} (sel : A -> bool) (items : list A) : Z :=
  Z.of_nat (List.length (filter sel items)).

Definition kpis_of (issues : list Issue) (prs : list PullRequest) : dict :=
  [ ("total_issues", VInt (Z.of_nat (List.length issues)));
    ("total_prs", VInt (Z.of_nat (List.length prs)));
    ("open_issues", VInt (count_of is_open issues));
    ("open_prs", VInt (count_of pr_is_open prs));
    ("closed_issues", VInt (count_of is_closed issues));
    ("merged_prs", VInt (count_of pr_merged prs));
    ("avg_issue_resolution_days",
     average_of is_closed issue_created_at issue_closed_at issues);
    ("avg_pr_merge_days",
     average_of pr_merged pr_created_at pr_merged_at prs) ].

(** Two merged pull requests (2 and 4 days from creation to merge), one
    closed without merge and one still open. *)
Definition merged_examples : list PullRequest :=
  [ mkPR 1 "a" Closed 0 (Some (2 * ns_per_day)) (Some (2 * ns_per_day))
         (Some "alice") [] 0 0 None true;
    mkPR 2 "b" Closed ns_per_day (Some (5 * ns_per_day)) (Some (5 * ns_per_day))
         (Some "bob") [] 0 0 None true;
    mkPR 3 "c" Closed 0 (Some ns_per_day) None (Some "bob") [] 0 0 None false;
    mkPR 4 "d" Open 0 None None None [] 0 0 None false ].
(** The table of an empty collection, and a store holding two of them. *)
Definition no_items : DataFrame := frame_of_records [].

Definition empty_store : Store := [no_items; no_items].
(** A raw issue that carries no [state] field, and the store made of its
    table and of an empty table of pull requests. *)
Definition stateless_issue : dict :=
  [("number", VInt 1); ("created_at", VTime 0); ("closed_at", VNone)].

Definition stateless_store : Store :=
  [frame_of_records [stateless_issue]; frame_of_records []].

(** Every label name carried by the issues, then by the pull requests, with
    repetitions. *)
Definition all_label_names (issues : list Issue) (prs : list PullRequest) : list string :=
  flat_map issue_labels issues ++ flat_map pr_labels prs.

Definition label_row (names : list string) (k : string) : dict :=
  [("Label", VStr k); ("Count", VInt (occurrences k names))].

(** What [list.extend] accepts: a list of names or a string. *)
Definition iterable (v : value) : bool :=
  match v with VList _ | VStr _ => true | _ => false end.

(** Two raw issues, the second of which carries no [labels] field. *)
Definition unlabelled_items : list dict :=
  [ [("number", VInt 1); ("labels", VList ["bug"])];
    [("number", VInt 2)] ].




(** A run of decimal digits, and a text that does not go on with a digit. *)
Definition digits (ds : list ascii) : Prop := forallb is_digit ds = true.

Definition stops (rest : list ascii) : Prop :=
  match rest with [] => True | c :: _ => is_digit c = false end.

(** [ds] is a maximal, non-empty run of digits that follows a [#] in [s]. *)
Definition occurs (s ds : list ascii) : Prop :=
  exists pre rest,
    s = pre ++ "#"%char :: ds ++ rest /\ ds <> [] /\ digits ds /\ stops rest.

(** [x] is the number of a reference [#<digits>] written in [body]. *)
Definition references (body x : string) : Prop :=
  exists ds, x = string_of_list_ascii ds /\ occurs (list_ascii_of_string body) ds.

(* ------------------------------------------------------------------ *)
(** ** GitHubRepositoryAnalyzer.fetch_issues_and_prs (src/github_api.py)

    The GitHub API lists pull requests among the issues; an item of the
    listing is an issue object whose [pull_request] attribute is set when
    the item is a pull request. *)
Record Item := mkItem {
  item_issue : Issue;
  item_pull_request : bool      (* [item.pull_request is not None] *)
}.

Section Repository.

(** [self.repo.get_pull(number)]: the answer of the API is a parameter. *)
Variable get_pull : Z -> PullRequest.

(** The body of the loop over the listing. *)
Definition fetch_item (start_date end_date : Z)
           (fetched : list Issue * list PullRequest) (item : Item)
  : list Issue * list PullRequest :=
  let '(issues, pull_requests) := fetched in
  let created_at := issue_created_at (item_issue item) in
  if (start_date <=? created_at) && (created_at <=? end_date)
  then if item_pull_request item
       then (issues, pull_requests ++ [get_pull (issue_number (item_issue item))])
       else (issues ++ [item_issue item], pull_requests)
  else (issues, pull_requests).

(** [all_items] is what [self.repo.get_issues(state='all', since=start_date)]
    lists. *)
Definition fetch_issues_and_prs (all_items : list Item) (start_date end_date : Z)
  : list Issue * list PullRequest :=
  fold_left (fetch_item start_date end_date) all_items ([], []).

End Repository.

(** An item of the listing was created inside the window. *)
Definition created_within (start_date end_date : Z) (item : Item) : bool :=
  (start_date <=? issue_created_at (item_issue item))
  && (issue_created_at (item_issue item) <=? end_date).
(* ------------------------------------------------------------------ *)
(** ** The window and the KPI cards of the dashboard (src/app.py)

    [datetime.combine(start_date, datetime.min.time())] and
    [datetime.combine(end_date, datetime.max.time())], for dates given as
    day numbers: midnight, and 23:59:59.999999 of the day. *)
Definition start_of_day (date : Z) : Z := date * ns_per_day.

Definition end_of_day (date : Z) : Z := date * ns_per_day + (ns_per_day - 1000).

(** The validation of the two dates: [start_date > end_date] and
    [date_range_days < 1] stop the run. *)
Definition date_range_accepted (start_date end_date : Z) : bool :=
  negb (end_date <? start_date) && negb (end_date - start_date <? 1).

(** [value > 0] on a KPI; a comparison with NaN is False. *)
Definition greater_than_zero (v : value) : bool :=
  match v with
  | VInt n => 0 <? n
  | VFloat q => negb (Qle_bool q 0)
  | VBool b => b
  | _ => false
  end.

(** The text of an average card: [f"{value:.1f}d" if value > 0 else "N/A"]. *)
Inductive card_text :=
| NotApplicable               (* "N/A" *)
| DaysText (v : value).       (* the value with one decimal, then "d" *)

Definition average_card (v : value) : card_text :=
  if greater_than_zero v then DaysText v else NotApplicable.

(** Two issues closed at the instant of their creation. *)
Definition instant_issues : list Issue :=
  [ mkIssue 1 "a" Closed 0 (Some 0) (Some "alice") [] 0;
    mkIssue 2 "b" Closed ns_per_day (Some ns_per_day) None [] 0 ].

(** How many times a number occurs in a list. *)
Definition count_key (k : Z) (ks : list Z) : Z :=
  Z.of_nat (List.length (filter (Z.eqb k) ks)).

(** The two counters of a key, in insertion order: what the two "process"
    blocks of a time series build. *)
Definition entries (K : Type) : Type := list (K * (Z * Z)).

(** The second block on one key: the second counter of the first entry of
    that key is replaced, or a new entry is appended. *)
Fixpoint entries_upsert {K} (eqb : K -> K -> bool) (k : K) (n : Z) (data : entries K)
  : entries K :=
  match data with
  | [] => [(k, (0, n))]
  | (k', c) :: data' =>
      if eqb k' k then (k', (fst c, n)) :: data'
      else (k', c) :: entries_upsert eqb k n data'
  end.

Definition timeline_entry (e : Z * (Z * Z)) : dict :=
  [ ("Date", VDate (fst e));
    ("Issues", VInt (fst (snd e)));
    ("PRs", VInt (snd (snd e))) ].

(** The row of a day in the timeline. *)
Definition timeline_row (issue_days pr_days : list Z) (day : Z) : dict :=
  [ ("Date", VDate day);
    ("Issues", VInt (count_key day issue_days));
    ("PRs", VInt (count_key day pr_days));
    ("Total", VInt (count_key day issue_days + count_key day pr_days)) ].

(** Two issues created on day 1 and one pull request created on day 0. *)
Definition timeline_issues_example : list Issue :=
  [ mkIssue 1 "a" Open (ns_per_day + 5) None (Some "alice") [] 0;
    mkIssue 2 "b" Open (ns_per_day + 9) None (Some "bob") [] 0 ].

Definition timeline_prs_example : list PullRequest :=
  [ mkPR 3 "c" Open 7 None None (Some "alice") [] 0 0 None false ].

(** The pull requests that enter the cycle-time series: merged, created at
    or after the start of the window, and merged at or before its end. *)
Definition in_cycle_window (start_date end_date : Z) (p : PullRequest) : bool :=
  pr_merged p
  && ((start_date <=? pr_created_at p)
      && match pr_merged_at p with Some m => m <=? end_date | None => false end).

(** The period in which a pull request was merged. *)
Definition merge_ordinal (f : freq) (p : PullRequest) : Z :=
  match pr_merged_at p with Some m => period_ordinal f m | None => 0 end.

(** The row of a period in the cycle-time series. *)
Definition cycle_time_row (f : freq) (selected : list PullRequest) (o : Z) : dict :=
  [ ("Period", VStr (period_str f o));
    ("Avg_Cycle_Time_Days",
     VFloat (mean (map merge_days (filter (fun p => o =? merge_ordinal f p) selected)))) ].

(** Pull requests around a window of two days: merged inside it after one
    day, created before it, merged after it, and not merged. *)
Definition cycle_examples : list PullRequest :=
  [ mkPR 1 "a" Closed 0 (Some ns_per_day) (Some ns_per_day) (Some "alice") [] 0 0 None true;
    mkPR 2 "b" Closed (-1) (Some ns_per_day) (Some ns_per_day) (Some "bob") [] 0 0 None true;
    mkPR 3 "c" Closed 5 (Some (3 * ns_per_day)) (Some (3 * ns_per_day)) None [] 0 0 None true;
    mkPR 4 "d" Open 9 None None None [] 0 0 None false ].

(** The part of [civil_from_days] that depends only on the day of the
    400-year era: the year of the era, the month and the day of the month. *)
Definition era_date (doe : Z) : Z * Z * Z :=
  let yoe := (doe - doe / 1460 + doe / 36524 - doe / 146096) / 365 in
  let doy := doe - (365 * yoe + yoe / 4 - yoe / 100) in
  let mp := (5 * doy + 2) / 153 in
  (yoe, if mp <? 10 then mp + 3 else mp - 9, doy - (153 * mp + 2) / 5 + 1).

(** The day of the era of such a date, as [days_from_civil] computes it. *)
Definition era_day (yoe m d : Z) : Z :=
  let mp := if 2 <? m then m - 3 else m + 9 in
  yoe * 365 + yoe / 4 - yoe / 100 + ((153 * mp + 2) / 5 + d - 1).

Definition era_date_ok (doe : Z) : bool :=
  let '(yoe, m, d) := era_date doe in
  (era_day yoe m d =? doe) && (0 <=? yoe) && (yoe <=? 399)
  && (1 <=? m) && (m <=? 12) && (1 <=? d) && (d <=? 31).

(** [p] holds of the [n] numbers from [x] on. *)
Fixpoint all_from (p : Z -> bool) (x : Z) (n : nat) : bool :=
  match n with
  | O => true
  | S n' => p x && all_from p (Z.succ x) n'
  end.

(* ================================================================== *)
(** * Properties *)

(* ------------------------------------------------------------------ *)
(** ** The store *)

Lemma nth_error_top (st : Store) (d : DataFrame) :
  nth_error (st ++ [d]) (List.length st) = Some d.
Proof.
  rewrite nth_error_app2 by lia. now rewrite Nat.sub_diag.
Qed.

Lemma nth_error_keep (st extra : Store) (r : ref) (d : DataFrame) :
  nth_error st r = Some d -> nth_error (st ++ extra) r = Some d.
Proof.
  intro H. rewrite nth_error_app1; [exact H|].
  apply nth_error_Some. congruence.
Qed.

Lemma bind_run {A B} (m : M A) (k : A -> M B) st a st' :
  m st = (inr a, st') -> bind m k st = k a st'.
Proof. unfold bind. now intros ->. Qed.

Lemma bind_raise {A B} (m : M A) (k : A -> M B) st e st' :
  m st = (inl e, st') -> bind m k st = (inl e, st').
Proof. unfold bind. now intros ->. Qed.

Lemma load_run st r d : nth_error st r = Some d -> load r st = (inr d, st).
Proof. unfold load. now intros ->. Qed.

Lemma pd_DataFrame_records recs st :
  pd_DataFrame (Records recs) st = (inr (List.length st), st ++ [frame_of_records recs]).
Proof. reflexivity. Qed.

Lemma frames_of_run issues_data prs_data st :
  frames_of issues_data prs_data st
  = (inr (List.length st, List.length (st ++ [frame_of_records issues_data])),
     (st ++ [frame_of_records issues_data]) ++ [frame_of_records prs_data]).
Proof. reflexivity. Qed.

(* ------------------------------------------------------------------ *)
(** ** Tables built from records *)

Lemma mem_str_In k l : mem_str k l = true <-> In k l.
Proof.
  unfold mem_str. rewrite existsb_exists. split.
  - intros [x [Hx Hk]]. apply String.eqb_eq in Hk. now subst.
  - intro H. exists k. split; [exact H | apply String.eqb_refl].
Qed.

Lemma union_keys_incl seen ks k : In k seen -> In k (union_keys seen ks).
Proof.
  revert seen. induction ks as [|x ks IH]; intros seen H; simpl; [exact H|].
  destruct (mem_str x seen); apply IH; [exact H|].
  apply in_or_app. now left.
Qed.

Lemma union_keys_NoDup seen ks : NoDup seen -> NoDup (union_keys seen ks).
Proof.
  revert seen. induction ks as [|x ks IH]; intros seen H; simpl; [exact H|].
  destruct (mem_str x seen) eqn:E; apply IH; [exact H|].
  apply NoDup_app; [exact H | repeat constructor; intros [] | ].
  intros a Ha [<-|[]]. apply mem_str_In in Ha. congruence.
Qed.

Lemma union_keys_covered seen ks :
  (forall k, In k ks -> In k seen) -> union_keys seen ks = seen.
Proof.
  revert seen. induction ks as [|x ks IH]; intros seen H; simpl; [reflexivity|].
  assert (Hx : mem_str x seen = true) by (apply mem_str_In, H; now left).
  rewrite Hx. apply IH. intros k Hk. apply H. now right.
Qed.

Lemma union_keys_fresh ks : NoDup ks -> forall seen,
  (forall k, In k ks -> ~ In k seen) -> union_keys seen ks = seen ++ ks.
Proof.
  induction 1 as [|x ks Hx Hks IH]; intros seen H; simpl.
  - now rewrite app_nil_r.
  - destruct (mem_str x seen) eqn:E.
    + apply mem_str_In in E. exfalso. apply (H x); [now left | exact E].
    + rewrite IH.
      * now rewrite <- app_assoc.
      * intros k Hk Hin. apply in_app_or in Hin. destruct Hin as [Hin|[<-|[]]].
        -- apply (H k); [now right | exact Hin].
        -- contradiction.
Qed.

Lemma records_columns_fold_NoDup recs seen :
  NoDup seen ->
  NoDup (fold_left (fun seen d => union_keys seen (dict_keys d)) recs seen).
Proof.
  revert seen. induction recs as [|d recs IH]; intros seen H; simpl; [exact H|].
  apply IH, union_keys_NoDup, H.
Qed.

Lemma records_columns_NoDup recs : NoDup (records_columns recs).
Proof. apply records_columns_fold_NoDup. constructor. Qed.

Lemma dict_get_align cols d k :
  In k cols -> dict_get k (align_row cols d) = Some (row_get k VNaN d).
Proof.
  induction cols as [|c cols IH]; intros H; [destruct H|].
  simpl. destruct (String.eqb_spec k c) as [->|Hne]; [reflexivity|].
  destruct H as [H|H]; [congruence | now apply IH].
Qed.

Lemma dict_keys_align cols d : dict_keys (align_row cols d) = cols.
Proof.
  unfold dict_keys, align_row. rewrite map_map. simpl. apply map_id.
Qed.

Lemma align_row_idem cols d :
  align_row cols (align_row cols d) = align_row cols d.
Proof.
  unfold align_row at 1 3. apply map_ext_in. intros c Hc.
  unfold row_get at 1. now rewrite dict_get_align.
Qed.

Lemma fold_columns_stable cols recs :
  fold_left (fun seen d => union_keys seen (dict_keys d))
            (map (align_row cols) recs) cols = cols.
Proof.
  induction recs as [|d recs IH]; simpl; [reflexivity|].
  rewrite dict_keys_align, union_keys_covered; auto.
Qed.

(** Laying the rows of a table out again gives the same table. *)
Lemma frame_of_records_rows recs :
  frame_of_records (df_rows (frame_of_records recs)) = frame_of_records recs.
Proof.
  unfold frame_of_records at 2. simpl df_rows.
  set (cols := records_columns recs).
  assert (Hcols : records_columns (map (align_row cols) recs) = cols \/ recs = []).
  { destruct recs as [|d recs]; [now right|left].
    unfold records_columns. simpl.
    rewrite dict_keys_align.
    rewrite (union_keys_fresh cols (records_columns_NoDup _) []) by (intros ? ? []).
    simpl. apply fold_columns_stable. }
  destruct Hcols as [Hcols| ->]; [|reflexivity].
  unfold frame_of_records. rewrite Hcols. fold cols. f_equal.
  rewrite map_map. apply map_ext. intro d. apply align_row_idem.
Qed.

(* ------------------------------------------------------------------ *)
(** ** create_dataframes *)

(** C1, as stated, fails: an issue without [number] is not rejected;
    [create_dataframes] returns its two tables. *)
Lemma create_dataframes_accepts_missing_number :
  let item := [("title", VStr "no number"); ("created_at", VTime 0);
               ("state", VStr "open")] in
  ~ (lacks_required item = true ->
     exists e st', create_dataframes (Records [item]) (Records []) [] = (inl e, st')).
Proof.
  intros item H. destruct (H eq_refl) as [e [st' E]]. discriminate E.
Qed.

(** C1, amended: [create_dataframes] validates nothing.  On every pair of
    sequences of raw items, also with required fields missing, it raises no
    error and returns two new tables, the layouts of the two sequences; an
    item that lacks the key of a column holds NaN in that column. *)
Theorem create_dataframes_never_rejects :
  forall (issues prs : list dict) (st : Store),
  exists issues_df prs_df st',
    create_dataframes (Records issues) (Records prs) st = (inr (issues_df, prs_df), st')
    /\ nth_error st' issues_df = Some (frame_of_records issues)
    /\ nth_error st' prs_df = Some (frame_of_records prs)
    /\ forall recs n item k,
         nth_error recs n = Some item ->
         In k (df_columns (frame_of_records recs)) ->
         dict_get k item = None ->
         exists row, nth_error (df_rows (frame_of_records recs)) n = Some row
                     /\ dict_get k row = Some VNaN.
Proof.
  intros issues prs st.
  exists (List.length st), (List.length (st ++ [frame_of_records issues])),
         ((st ++ [frame_of_records issues]) ++ [frame_of_records prs]).
  repeat split.
  - apply nth_error_keep, nth_error_top.
  - apply nth_error_top.
  - intros recs n item k Hn Hk Hnone.
    exists (align_row (records_columns recs) item). split.
    + simpl. now rewrite nth_error_map, Hn.
    + rewrite dict_get_align by exact Hk. unfold row_get. now rewrite Hnone.
Qed.

Lemma create_dataframes_never_rejects_witness :
  exists row,
    nth_error (df_rows (frame_of_records
                          [[("number", VInt 1); ("state", VStr "open")];
                           [("state", VStr "closed")]])) 1 = Some row
    /\ dict_get "number" row = Some VNaN.
Proof.
  destruct (create_dataframes_never_rejects [] [] []) as (_ & _ & _ & _ & _ & _ & H).
  apply (H _ 1%nat [("state", VStr "closed")] "number").
  - reflexivity.
  - simpl. now left.
  - reflexivity.
Defined.

(** C9: normalising what the normaliser returned changes nothing.  The two
    tables of a first call, passed to a second call, come back as two tables
    with the same contents; and a table is the layout of its own rows. *)
Theorem create_dataframes_idempotent :
  forall (issues prs : list dict) (st : Store),
  exists issues_df prs_df st1 issues_df' prs_df' st2,
    create_dataframes (Records issues) (Records prs) st = (inr (issues_df, prs_df), st1)
    /\ create_dataframes (Frame issues_df) (Frame prs_df) st1
       = (inr (issues_df', prs_df'), st2)
    /\ nth_error st1 issues_df = Some (frame_of_records issues)
    /\ nth_error st1 prs_df = Some (frame_of_records prs)
    /\ nth_error st2 issues_df' = Some (frame_of_records issues)
    /\ nth_error st2 prs_df' = Some (frame_of_records prs)
    /\ frame_of_records (df_rows (frame_of_records issues)) = frame_of_records issues
    /\ frame_of_records (df_rows (frame_of_records prs)) = frame_of_records prs.
Proof.
  intros issues prs st.
  set (fi := frame_of_records issues). set (fp := frame_of_records prs).
  set (st1 := (st ++ [fi]) ++ [fp]).
  assert (Hi : nth_error st1 (List.length st) = Some fi)
    by apply nth_error_keep, nth_error_top.
  assert (Hp : nth_error st1 (List.length (st ++ [fi])) = Some fp)
    by apply nth_error_top.
  exists (List.length st), (List.length (st ++ [fi])), st1,
         (List.length st1), (List.length (st1 ++ [fi])), ((st1 ++ [fi]) ++ [fp]).
  split; [reflexivity|]. split.
  - unfold create_dataframes, pd_DataFrame.
    rewrite (bind_run _ _ st1 (List.length st1) (st1 ++ [fi])).
    + rewrite (bind_run _ _ (st1 ++ [fi]) (List.length (st1 ++ [fi])) ((st1 ++ [fi]) ++ [fp]));
        [reflexivity|].
      rewrite (bind_run _ _ _ fp (st1 ++ [fi])); [reflexivity|].
      apply load_run, nth_error_keep, Hp.
    + rewrite (bind_run _ _ _ fi st1); [reflexivity|]. apply load_run, Hi.
  - repeat split; try assumption.
    + apply nth_error_keep, nth_error_top.
    + apply nth_error_top.
    + apply frame_of_records_rows.
    + apply frame_of_records_rows.
Qed.

(* ------------------------------------------------------------------ *)
(** ** Running the primitives *)

Lemma df_empty_run st r d :
  nth_error st r = Some d -> df_empty r st = (inr (frame_empty d), st).
Proof. intro H. unfold df_empty. now rewrite (bind_run _ _ _ _ _ (load_run _ _ _ H)). Qed.

Lemma df_has_column_run st r c d :
  nth_error st r = Some d -> df_has_column r c st = (inr (has_column c d), st).
Proof. intro H. unfold df_has_column. now rewrite (bind_run _ _ _ _ _ (load_run _ _ _ H)). Qed.

Lemma df_len_run st r d :
  nth_error st r = Some d -> df_len r st = (inr (Z.of_nat (List.length (df_rows d))), st).
Proof. intro H. unfold df_len. now rewrite (bind_run _ _ _ _ _ (load_run _ _ _ H)). Qed.

Lemma df_getitem_run st r c d :
  nth_error st r = Some d -> has_column c d = true ->
  df_getitem r c st = (inr (column_values c d), st).
Proof.
  intros H Hc. unfold df_getitem.
  rewrite (bind_run _ _ _ _ _ (load_run _ _ _ H)). now rewrite Hc.
Qed.

Lemma df_getitem_mask_run st r mask d :
  nth_error st r = Some d ->
  df_getitem_mask r mask st = (inr (List.length st), st ++ [frame_mask mask d]).
Proof. intro H. unfold df_getitem_mask. now rewrite (bind_run _ _ _ _ _ (load_run _ _ _ H)). Qed.

Lemma df_copy_run st r d :
  nth_error st r = Some d -> df_copy r st = (inr (List.length st), st ++ [d]).
Proof. intro H. unfold df_copy. now rewrite (bind_run _ _ _ _ _ (load_run _ _ _ H)). Qed.

Lemma replace_nth_top {A} (l : list A) (x y : A) :
  replace_nth (List.length l) y (l ++ [x]) = l ++ [y].
Proof. induction l as [|a l IH]; simpl; [reflexivity | now rewrite IH]. Qed.

Lemma store_top st d d' : store (List.length st) d' (st ++ [d]) = (inr tt, st ++ [d']).
Proof. unfold store. now rewrite nth_error_top, replace_nth_top. Qed.

Lemma df_setitem_top st c vs d :
  df_setitem (List.length st) c vs (st ++ [d]) = (inr tt, st ++ [frame_set_column c vs d]).
Proof.
  unfold df_setitem.
  rewrite (bind_run _ _ _ _ _ (load_run _ _ _ (nth_error_top st d))).
  apply store_top.
Qed.

Lemma df_sort_values_run st r c asc d :
  nth_error st r = Some d -> has_column c d = true ->
  df_sort_values r c asc st = (inr (List.length st), st ++ [frame_sort_values c asc d]).
Proof.
  intros H Hc. unfold df_sort_values.
  rewrite (bind_run _ _ _ _ _ (load_run _ _ _ H)). now rewrite Hc.
Qed.

Create HintDb store.
#[local] Hint Resolve nth_error_top nth_error_keep : store.

Ltac lookup := solve [eauto 8 with store].

(** One step of a run: the first action of a [bind] is replaced by its
    outcome. *)
Ltac run_with lem := erewrite bind_run; [| solve [eapply lem; try lookup; try reflexivity]].

Ltac run_step :=
  first [ run_with df_empty_run
        | run_with df_has_column_run
        | run_with df_len_run
        | run_with df_getitem_run
        | run_with df_getitem_mask_run
        | run_with df_copy_run
        | run_with df_setitem_top
        | run_with df_sort_values_run
        | run_with load_run
        | run_with frames_of_run
        | run_with pd_DataFrame_records ].

(* ------------------------------------------------------------------ *)
(** ** extract_pr_issue_linkage *)



Lemma pr_columns_fold l :
  fold_left (fun seen d => union_keys seen (dict_keys d)) (map get_pr_data l) pr_columns
  = pr_columns.
Proof. induction l as [|p l IH]; [reflexivity|]. simpl map. simpl fold_left. exact IH. Qed.

Lemma frame_of_prs p l :
  frame_of_records (map get_pr_data (p :: l)) = mkDF pr_columns (map get_pr_data (p :: l)).
Proof.
  unfold frame_of_records, records_columns.
  change (fold_left _ (map get_pr_data (p :: l)) [])
    with (fold_left (fun seen d => union_keys seen (dict_keys d)) (map get_pr_data l) pr_columns).
  rewrite pr_columns_fold. f_equal.
  rewrite map_map. apply map_ext. intro a. reflexivity.
Qed.



Lemma scan_spec_body : scan_body spec_body = ["12"; "7"].
Proof. vm_compute. reflexivity. Qed.

Lemma linkage_of_spec_row pr :
  pr_number pr = 5 ->
  pr_body pr = Some spec_body ->
  linkage_of_row [] (get_pr_data pr)
  = inr [[ ("PR Number", VInt 5);
           ("PR Title", VStr (pr_title pr));
           ("Linked Issues", VStr "7, 12") ]].
Proof.
  intros Hn Hb. unfold linkage_of_row, get_pr_data. rewrite Hn, Hb.
  cbn [row_get dict_get String.eqb Ascii.eqb Bool.eqb].
  change (truthy (VStr spec_body)) with true. cbv iota.
  rewrite scan_spec_body. reflexivity.
Qed.

(** C2, amended: the example of the specification gives exactly one row,
    for PR 5, whose linked issues are rendered "7, 12": deduplicated,
    sorted by number, joined by a comma and a space. *)
Theorem linkage_of_spec_example :
  forall (issues : list dict) (pr : PullRequest) (st : Store),
    pr_number pr = 5 ->
    pr_body pr = Some spec_body ->
    returned ((dfs <- frames_of issues [get_pr_data pr] ;;
               extract_pr_issue_linkage (snd dfs)) st)
    = Some (mkDF ["PR Number"; "PR Title"; "Linked Issues"]
                 [[ ("PR Number", VInt 5);
                    ("PR Title", VStr (pr_title pr));
                    ("Linked Issues", VStr "7, 12") ]]).
Proof.
  intros issues pr st Hn Hb.
  run_step. cbn [snd].
  change [get_pr_data pr] with (map get_pr_data [pr]). rewrite frame_of_prs.
  unfold extract_pr_issue_linkage.
  run_step. run_step.
  cbn [frame_empty df_columns df_rows pr_columns map orb].
  change (has_column "body" _) with true. cbn [negb].
  run_step.
  cbn [df_rows fold_rows]. rewrite (linkage_of_spec_row pr Hn Hb).
  cbn [lift]. unfold ret at 1. cbn [bind].
  rewrite pd_DataFrame_records. cbn [returned].
  rewrite nth_error_top. reflexivity.
Qed.



Lemma linkage_of_spec_example_witness :
  returned ((dfs <- frames_of [] [get_pr_data spec_pr] ;;
             extract_pr_issue_linkage (snd dfs)) [])
  = Some (mkDF ["PR Number"; "PR Title"; "Linked Issues"]
               [[ ("PR Number", VInt 5);
                  ("PR Title", VStr "Fix the parser");
                  ("Linked Issues", VStr "7, 12") ]]).
Proof. apply (linkage_of_spec_example [] spec_pr []); reflexivity. Defined.

(** C2, as stated, fails: the rendered list is not "7,12". *)
Lemma linkage_of_spec_example_not_compact :
  ~ (exists title,
       returned ((dfs <- frames_of [] [get_pr_data spec_pr] ;;
                  extract_pr_issue_linkage (snd dfs)) [])
       = Some (mkDF ["PR Number"; "PR Title"; "Linked Issues"]
                    [[ ("PR Number", VInt 5);
                       ("PR Title", title);
                       ("Linked Issues", VStr "7,12") ]])).
Proof.
  intros [title H]. vm_compute in H. discriminate H.
Qed.

(* ------------------------------------------------------------------ *)
(** ** The period selection rule *)


Lemma throughput_period_rule start_date end_date :
  throughput_period start_date end_date
  = period_rule (timedelta_days (end_date - start_date)).
Proof.
  unfold throughput_period, period_rule.
  destruct (timedelta_days (end_date - start_date) <=? 7) eqn:E7; [reflexivity|].
  destruct (timedelta_days (end_date - start_date) <=? 30) eqn:E30;
    destruct (timedelta_days (end_date - start_date) <=? 90) eqn:E90; try reflexivity.
  apply Z.leb_le in E30. apply Z.leb_gt in E90. lia.
Qed.

Lemma cycle_time_period_rule start_date end_date :
  cycle_time_period start_date end_date
  = period_rule (timedelta_days (end_date - start_date)).
Proof.
  unfold cycle_time_period, period_rule.
  destruct (timedelta_days (end_date - start_date) <=? 7) eqn:E7; [reflexivity|].
  destruct (timedelta_days (end_date - start_date) <=? 30) eqn:E30;
    destruct (timedelta_days (end_date - start_date) <=? 90) eqn:E90; try reflexivity.
  apply Z.leb_le in E30. apply Z.leb_gt in E90. lia.
Qed.

(** C4: the throughput series and the cycle-time series choose their period
    by the same rule.  With the range of the window counted in whole days,
    as both methods do with [(end_date - start_date).days]: daily when it is
    at most 7, weekly when it is at most 90, monthly otherwise; hence the
    same granularity for the same window. *)
Theorem period_selection_shared :
  forall start_date end_date : Z,
    let days_range := timedelta_days (end_date - start_date) in
    throughput_period start_date end_date = cycle_time_period start_date end_date
    /\ (days_range <= 7 -> throughput_period start_date end_date = FreqD)
    /\ (7 < days_range <= 90 -> throughput_period start_date end_date = FreqW)
    /\ (90 < days_range -> throughput_period start_date end_date = FreqM).
Proof.
  intros start_date end_date days_range.
  rewrite cycle_time_period_rule, throughput_period_rule.
  fold days_range. unfold period_rule.
  repeat split; intros.
  - destruct (Z.leb_spec days_range 7); [reflexivity | lia].
  - destruct (Z.leb_spec days_range 7); [lia|].
    destruct (Z.leb_spec days_range 90); [reflexivity | lia].
  - destruct (Z.leb_spec days_range 7); [lia|].
    destruct (Z.leb_spec days_range 90); [lia | reflexivity].
Qed.

Lemma period_selection_shared_witness :
  throughput_period 0 (7 * ns_per_day) = FreqD
  /\ throughput_period 0 (20 * ns_per_day) = FreqW
  /\ throughput_period 0 (91 * ns_per_day) = FreqM
  /\ cycle_time_period 0 (20 * ns_per_day) = FreqW.
Proof.
  pose proof (period_selection_shared 0 (7 * ns_per_day)) as H7.
  pose proof (period_selection_shared 0 (20 * ns_per_day)) as H20.
  pose proof (period_selection_shared 0 (91 * ns_per_day)) as H91.
  cbv zeta in H7, H20, H91.
  destruct H7 as (_ & Hd & _ & _).
  destruct H20 as (Heq & _ & Hw & _).
  destruct H91 as (_ & _ & _ & Hm).
  split; [| split; [| split]].
  - apply Hd. vm_compute. discriminate.
  - apply Hw. vm_compute. split; [reflexivity | discriminate].
  - apply Hm. vm_compute. reflexivity.
  - rewrite <- Heq. apply Hw. vm_compute. split; [reflexivity | discriminate].
Defined.

(* ------------------------------------------------------------------ *)
(** ** Period keys of the two time series *)

Lemma string_length_append (s1 s2 : string) :
  String.length (s1 ++ s2)%string = (String.length s1 + String.length s2)%nat.
Proof. induction s1 as [|c s1 IH]; simpl; [reflexivity | now rewrite IH]. Qed.

Lemma format_date_length day : String.length (format_date day) = 10%nat.
Proof.
  unfold format_date. destruct (civil_from_days day) as [[y m] d]. reflexivity.
Qed.

Lemma period_str_week_length o : String.length (period_str FreqW o) = 21%nat.
Proof.
  unfold period_str. rewrite !string_length_append, !format_date_length. reflexivity.
Qed.

Lemma period_str_month_length o : String.length (period_str FreqM o) = 7%nat.
Proof.
  unfold period_str. destruct (civil_from_days (month_first_day o)) as [[y m] d].
  reflexivity.
Qed.

(** C10: when the window selects weekly or monthly buckets, the key of a
    throughput row (the label of a bin, formatted with '%Y-%m-%d') is never
    the key of a cycle-time row (a Period rendered as text): not for the
    bucket of the same instant, and not for any other. *)
Theorem period_keys_never_equal :
  forall (start_date end_date label t : Z),
    throughput_period start_date end_date <> FreqD ->
    VStr (strftime_ymd (day_start label))
      <> period_to_str (to_period (cycle_time_period start_date end_date) (VTime t))
    /\ VStr (strftime_ymd (day_start (bin_label (throughput_period start_date end_date) t)))
      <> period_to_str (to_period (cycle_time_period start_date end_date) (VTime t)).
Proof.
  intros start_date end_date label t Hf.
  destruct (period_selection_shared start_date end_date) as (<- & _).
  assert (H : forall l, VStr (strftime_ymd (day_start l))
                        <> period_to_str (to_period (throughput_period start_date end_date)
                                                    (VTime t))).
  { intros l E. cbn [to_period period_to_str] in E. injection E as E.
    apply (f_equal String.length) in E. unfold strftime_ymd in E.
    rewrite format_date_length in E.
    destruct (throughput_period start_date end_date).
    - now apply Hf.
    - rewrite period_str_week_length in E. discriminate E.
    - rewrite period_str_month_length in E. discriminate E. }
  split; apply H.
Qed.

Lemma period_keys_never_equal_witness :
  VStr (strftime_ymd (day_start (bin_label FreqW 1704283200000000000)))
  <> period_to_str (to_period FreqW (VTime 1704283200000000000)).
Proof.
  assert (Hne : throughput_period 0 (20 * ns_per_day) <> FreqD)
    by (vm_compute; discriminate).
  exact (proj2 (period_keys_never_equal 0 (20 * ns_per_day) 0 1704283200000000000 Hne)).
Defined.

(* ------------------------------------------------------------------ *)
(** ** No method mutates a table it was given *)


Section Preservation.

Variable st0 : Store.

Lemma preserves_ret {A} (a : A) (G : A -> Prop) : G a -> preserves st0 (ret a) G.
Proof. intros H st Hst. split; [exact Hst|]. simpl. intros a' E. now injection E as <-. Qed.

Lemma preserves_raise {A} (e : exn) (G : A -> Prop) : preserves st0 (raise e) G.
Proof. intros st Hst. split; [exact Hst|]. simpl. discriminate. Qed.

Lemma preserves_bind {A B} (m : M A) (k : A -> M B) (G : A -> Prop) (G' : B -> Prop) :
  preserves st0 m G ->
  (forall a, G a -> preserves st0 (k a) G') ->
  preserves st0 (bind m k) G'.
Proof.
  intros Hm Hk st Hst. unfold bind.
  destruct (Hm st Hst) as [Hext Hres].
  destruct (m st) as [[e|a] st']; simpl in *.
  - split; [exact Hext | discriminate].
  - apply (Hk a (Hres a eq_refl) st' Hext).
Qed.

Lemma preserves_weaken {A} (m : M A) (G G' : A -> Prop) :
  preserves st0 m G -> (forall a, G a -> G' a) -> preserves st0 m G'.
Proof.
  intros Hm HG st Hst. destruct (Hm st Hst) as [Hext Hres].
  split; [exact Hext|]. intros a E. apply HG, Hres, E.
Qed.

Lemma preserves_lift {A} (r : exn + A) : preserves st0 (lift r) (fun _ => True).
Proof. destruct r; [apply preserves_raise | now apply preserves_ret]. Qed.

Lemma preserves_alloc d : preserves st0 (alloc d) (fresh st0).
Proof.
  intros st [extra ->]. simpl. split.
  - exists (extra ++ [d]). now rewrite app_assoc.
  - intros a E. injection E as <-. unfold fresh. rewrite length_app. lia.
Qed.

Lemma preserves_load r : preserves st0 (load r) (fun _ => True).
Proof.
  intros st Hst. unfold load. destruct (nth_error st r); simpl; split; auto.
Qed.

Lemma replace_nth_app_r {A} (l1 l2 : list A) n x :
  (List.length l1 <= n)%nat ->
  replace_nth n x (l1 ++ l2) = l1 ++ replace_nth (n - List.length l1) x l2.
Proof.
  revert n. induction l1 as [|a l1 IH]; intros n Hn; simpl.
  - now rewrite Nat.sub_0_r.
  - destruct n as [|n]; simpl in *; [lia|]. rewrite IH by lia. reflexivity.
Qed.

Lemma preserves_store r d : fresh st0 r -> preserves st0 (store r d) (fun _ => True).
Proof.
  intros Hr st [extra ->]. unfold store.
  destruct (nth_error (st0 ++ extra) r); simpl; split; auto.
  - eexists. apply replace_nth_app_r, Hr.
  - now exists extra.
Qed.

Lemma preserves_if {A} (b : bool) (m1 m2 : M A) G :
  preserves st0 m1 G -> preserves st0 m2 G -> preserves st0 (if b then m1 else m2) G.
Proof. now destruct b. Qed.

Lemma preserves_foldM {A B} (f : A -> B -> M A) (G : A -> Prop) l :
  (forall a x, G a -> preserves st0 (f a x) G) ->
  forall a, G a -> preserves st0 (foldM f l a) G.
Proof.
  intro Hf. induction l as [|x l IH]; intros a Ha; simpl.
  - now apply preserves_ret.
  - eapply preserves_bind; [apply Hf, Ha | exact IH].
Qed.

(** The conclusion drawn from the invariant. *)
Lemma preserves_intact {A} (m : M A) G :
  preserves st0 m G ->
  unchanged st0 (snd (m st0)) /\ forall a, fst (m st0) = inr a -> G a.
Proof.
  intro H. destruct (H st0) as [[extra Hext] Hres].
  - exists []. now rewrite app_nil_r.
  - split; [|exact Hres]. intros r d Hr. rewrite Hext. now apply nth_error_keep.
Qed.

Create HintDb safe.

Ltac safe_bind := eapply preserves_bind; [ | intros ].
Ltac safe_via lem := eapply preserves_bind; [ apply lem | intros ].

Lemma preserves_pd_DataFrame data : preserves st0 (pd_DataFrame data) (fresh st0).
Proof.
  destruct data; simpl; try apply preserves_alloc.
  safe_via preserves_load. apply preserves_alloc.
Qed.

Lemma preserves_df_copy r : preserves st0 (df_copy r) (fresh st0).
Proof. unfold df_copy. safe_via preserves_load. apply preserves_alloc. Qed.

Lemma preserves_df_getitem_mask r mask :
  preserves st0 (df_getitem_mask r mask) (fresh st0).
Proof. unfold df_getitem_mask. safe_via preserves_load. apply preserves_alloc. Qed.

Lemma preserves_df_getitem r c : preserves st0 (df_getitem r c) (fun _ => True).
Proof.
  unfold df_getitem. safe_via preserves_load.
  apply preserves_if; [now apply preserves_ret | apply preserves_raise].
Qed.

Lemma preserves_df_setitem r c vs :
  fresh st0 r -> preserves st0 (df_setitem r c vs) (fun _ => True).
Proof. intro H. unfold df_setitem. safe_via preserves_load. now apply preserves_store. Qed.

Lemma preserves_df_set_columns r names :
  fresh st0 r -> preserves st0 (df_set_columns r names) (fun _ => True).
Proof.
  intro H. unfold df_set_columns. safe_via preserves_load.
  apply preserves_if; [now apply preserves_store | apply preserves_raise].
Qed.

Lemma preserves_df_empty r : preserves st0 (df_empty r) (fun _ => True).
Proof. unfold df_empty. safe_via preserves_load. now apply preserves_ret. Qed.

Lemma preserves_df_has_column r c : preserves st0 (df_has_column r c) (fun _ => True).
Proof. unfold df_has_column. safe_via preserves_load. now apply preserves_ret. Qed.

Lemma preserves_df_len r : preserves st0 (df_len r) (fun _ => True).
Proof. unfold df_len. safe_via preserves_load. now apply preserves_ret. Qed.

Lemma preserves_df_sort_values r c asc :
  preserves st0 (df_sort_values r c asc) (fresh st0).
Proof.
  unfold df_sort_values. safe_via preserves_load.
  apply preserves_if; [apply preserves_alloc | apply preserves_raise].
Qed.

Lemma preserves_df_drop_column r c : preserves st0 (df_drop_column r c) (fresh st0).
Proof.
  unfold df_drop_column. safe_via preserves_load.
  apply preserves_if; [apply preserves_alloc | apply preserves_raise].
Qed.

Lemma preserves_pd_concat a b : preserves st0 (pd_concat a b) (fresh st0).
Proof.
  unfold pd_concat. safe_via preserves_load. safe_via preserves_load.
  apply preserves_alloc.
Qed.

Lemma preserves_df_rename r old new : preserves st0 (df_rename r old new) (fresh st0).
Proof. unfold df_rename. safe_via preserves_load. apply preserves_alloc. Qed.

Lemma preserves_df_select_columns r cols :
  preserves st0 (df_select_columns r cols) (fresh st0).
Proof.
  unfold df_select_columns. safe_via preserves_load.
  destruct (filter _ cols); [apply preserves_alloc | apply preserves_raise].
Qed.

Lemma preserves_to_datetime parse vs :
  preserves st0 (to_datetime parse vs) (fun _ => True).
Proof. apply preserves_lift. Qed.

Hint Resolve preserves_pd_DataFrame preserves_df_copy preserves_df_getitem_mask
  preserves_df_getitem preserves_df_setitem preserves_df_set_columns
  preserves_df_empty preserves_df_has_column preserves_df_len
  preserves_df_sort_values preserves_df_drop_column preserves_pd_concat
  preserves_df_rename preserves_df_select_columns preserves_to_datetime
  preserves_alloc preserves_load preserves_lift preserves_raise : safe.

(** Walks through a method: each action keeps the invariant. *)
Ltac safe :=
  repeat first
    [ solve [eauto with safe]
    | apply preserves_ret; solve [trivial | assumption]
    | match goal with
      | |- preserves _ (ret _) ?G => is_evar G; apply (preserves_ret _ (fun _ => True) I)
      end
    | apply preserves_if
    | match goal with
      | |- preserves _ (match ?x with _ => _ end) _ => destruct x
      end
    | match goal with
      | |- preserves _ (bind (foldM _ _ _) _) _ =>
          eapply preserves_bind;
          [ apply (preserves_foldM _ (fresh st0)); [ intros | assumption ] | intros ]
      end
    | eapply preserves_bind; [ solve [eauto with safe] | intros ]
    | eapply preserves_bind; [ | intros ] ].

Lemma preserves_collect_labels df all_labels :
  preserves st0 (collect_labels df all_labels) (fun _ => True).
Proof. unfold collect_labels. safe. Qed.

Lemma preserves_extract_labels_frequency issues_df prs_df :
  preserves st0 (extract_labels_frequency issues_df prs_df) (fresh st0).
Proof.
  unfold extract_labels_frequency.
  safe_via preserves_collect_labels. safe_via preserves_collect_labels. safe.
Qed.

Lemma preserves_count_contributions df field data :
  preserves st0 (count_contributions df field data) (fun _ => True).
Proof. unfold count_contributions. safe. Qed.

Lemma preserves_create_contributor_leaderboard issues_df prs_df :
  preserves st0 (create_contributor_leaderboard issues_df prs_df) (fresh st0).
Proof.
  unfold create_contributor_leaderboard.
  safe_via preserves_count_contributions. safe_via preserves_count_contributions. safe.
Qed.

Lemma preserves_extract_pr_issue_linkage prs_df :
  preserves st0 (extract_pr_issue_linkage prs_df) (fresh st0).
Proof. unfold extract_pr_issue_linkage. safe. Qed.

Lemma preserves_counts_by_creation_date parse df :
  preserves st0 (counts_by_creation_date parse df) (fun _ => True).
Proof. unfold counts_by_creation_date. safe. Qed.

Lemma preserves_create_timeline_data parse issues_df prs_df :
  preserves st0 (create_timeline_data parse issues_df prs_df) (fresh st0).
Proof.
  unfold create_timeline_data, timeline_issues, timeline_prs.
  pose proof (preserves_counts_by_creation_date parse) as Hc.
  safe.
Qed.

Variable parse_datetime : string -> option Z.

Lemma preserves_count_where df c p :
  preserves st0 (count_where df c p) (fun _ => True).
Proof. unfold count_where. safe. Qed.

Lemma preserves_average_days df c p until out :
  preserves st0 (average_days parse_datetime df c p until out) (fun _ => True).
Proof. unfold average_days. safe. Qed.

Lemma preserves_calculate_kpis issues_df prs_df :
  preserves st0 (calculate_kpis parse_datetime issues_df prs_df) (fun _ => True).
Proof.
  unfold calculate_kpis.
  pose proof preserves_count_where. pose proof preserves_average_days.
  safe.
Qed.

Lemma preserves_window_counts df c p at_col start_date end_date period :
  preserves st0 (window_counts parse_datetime df c p at_col start_date end_date period)
            (fun _ => True).
Proof. unfold window_counts. safe. Qed.

Lemma preserves_create_throughput_data issues_df prs_df start_date end_date :
  preserves st0 (create_throughput_data parse_datetime issues_df prs_df start_date end_date)
            (fresh st0).
Proof.
  unfold create_throughput_data, throughput_closed_issues, throughput_merged_prs.
  pose proof preserves_window_counts.
  safe.
Qed.

Lemma preserves_create_cycle_time_data prs_df start_date end_date :
  preserves st0 (create_cycle_time_data parse_datetime prs_df start_date end_date)
            (fresh st0).
Proof. unfold create_cycle_time_data, empty_cycle_time. safe. Qed.

Lemma preserves_create_issue_aging_data issues_df current_date :
  preserves st0 (create_issue_aging_data parse_datetime issues_df current_date)
            (fresh st0).
Proof.
  unfold create_issue_aging_data. safe.
Qed.

End Preservation.

(** C8: no aggregate method mutates a table it was given.  Whatever the
    store, the references passed and the outcome (a result or an
    exception), every table that existed before the call is unchanged after
    it; and the table a method returns is a new object. *)
Theorem aggregates_leave_inputs_intact :
  forall (parse_datetime : string -> option Z) (issues_df prs_df : ref)
         (start_date end_date current_date : Z),
    leaves_tables_intact (calculate_kpis parse_datetime issues_df prs_df)
    /\ leaves_tables_intact (extract_labels_frequency issues_df prs_df)
    /\ leaves_tables_intact (create_contributor_leaderboard issues_df prs_df)
    /\ leaves_tables_intact (create_timeline_data parse_datetime issues_df prs_df)
    /\ leaves_tables_intact
         (create_throughput_data parse_datetime issues_df prs_df start_date end_date)
    /\ leaves_tables_intact
         (create_cycle_time_data parse_datetime prs_df start_date end_date)
    /\ leaves_tables_intact
         (create_issue_aging_data parse_datetime issues_df current_date)
    /\ leaves_tables_intact (extract_pr_issue_linkage prs_df)
    /\ returns_new_table (extract_labels_frequency issues_df prs_df)
    /\ returns_new_table (create_contributor_leaderboard issues_df prs_df)
    /\ returns_new_table (create_timeline_data parse_datetime issues_df prs_df)
    /\ returns_new_table
         (create_throughput_data parse_datetime issues_df prs_df start_date end_date)
    /\ returns_new_table
         (create_cycle_time_data parse_datetime prs_df start_date end_date)
    /\ returns_new_table
         (create_issue_aging_data parse_datetime issues_df current_date)
    /\ returns_new_table (extract_pr_issue_linkage prs_df).
Proof.
  intros parse issues_df prs_df start_date end_date current_date.
  assert (Hnew : forall (m : M ref),
             (forall st, preserves st m (fresh st)) -> returns_new_table m).
  { intros m H st r E. destruct (preserves_intact st m _ (H st)) as [_ Hr].
    apply nth_error_None, Hr, E. }
  assert (Hkeep : forall A (m : M A) (G : Store -> A -> Prop),
             (forall st, preserves st m (G st)) -> leaves_tables_intact m).
  { intros A m G H st. apply (preserves_intact st m _ (H st)). }
  repeat split.
  - apply (Hkeep _ _ (fun _ _ => True)). intro. apply preserves_calculate_kpis.
  - apply (Hkeep _ _ fresh). intro. apply preserves_extract_labels_frequency.
  - apply (Hkeep _ _ fresh). intro. apply preserves_create_contributor_leaderboard.
  - apply (Hkeep _ _ fresh). intro. apply preserves_create_timeline_data.
  - apply (Hkeep _ _ fresh). intro. apply preserves_create_throughput_data.
  - apply (Hkeep _ _ fresh). intro. apply preserves_create_cycle_time_data.
  - apply (Hkeep _ _ fresh). intro. apply preserves_create_issue_aging_data.
  - apply (Hkeep _ _ fresh). intro. apply preserves_extract_pr_issue_linkage.
  - apply Hnew. intro. apply preserves_extract_labels_frequency.
  - apply Hnew. intro. apply preserves_create_contributor_leaderboard.
  - apply Hnew. intro. apply preserves_create_timeline_data.
  - apply Hnew. intro. apply preserves_create_throughput_data.
  - apply Hnew. intro. apply preserves_create_cycle_time_data.
  - apply Hnew. intro. apply preserves_create_issue_aging_data.
  - apply Hnew. intro. apply preserves_extract_pr_issue_linkage.
Qed.

(** The property is not vacuous: a column assignment on a table that was
    passed in does change it. *)
Remark setitem_mutates_its_target :
  ~ leaves_tables_intact (df_setitem 0%nat "date" [VDate 0]).
Proof.
  intro H. specialize (H [mkDF ["n"] [[("n", VInt 1)]]] 0%nat _ eq_refl).
  discriminate H.
Qed.

Lemma aggregates_leave_inputs_intact_witness :
  let issues := frame_of_records [get_issue_data (mkIssue 1 "t" Open 0 None None [] 0)] in
  let prs := frame_of_records [get_pr_data spec_pr] in
  nth_error (snd (create_timeline_data (fun _ => None) 0%nat 1%nat [issues; prs])) 0
  = Some issues
  /\ nth_error (snd (create_timeline_data (fun _ => None) 0%nat 1%nat [issues; prs])) 1
     = Some prs.
Proof.
  intros issues prs.
  destruct (aggregates_leave_inputs_intact (fun _ => None) 0%nat 1%nat 0 0 0)
    as (_ & _ & _ & H & _).
  split; apply H; reflexivity.
Defined.

(* ------------------------------------------------------------------ *)
(** ** Sorting *)

Section Sorting.

Context {A : Type}.
Variable le : A -> A -> bool.

Lemma insert_by_perm x l : Permutation (insert_by le x l) (x :: l).
Proof.
  induction l as [|y l IH]; simpl; [reflexivity|].
  destruct (le x y); [reflexivity|].
  rewrite IH. apply perm_swap.
Qed.

Lemma sort_by_perm l : Permutation (sort_by le l) l.
Proof.
  induction l as [|x l IH]; simpl; [reflexivity|].
  rewrite insert_by_perm. now constructor.
Qed.

Lemma sort_by_In x l : In x (sort_by le l) <-> In x l.
Proof.
  split; apply Permutation_in; [apply sort_by_perm | symmetry; apply sort_by_perm].
Qed.

Lemma sort_by_length l : List.length (sort_by le l) = List.length l.
Proof. apply Permutation_length, sort_by_perm. Qed.

Hypothesis le_total : forall x y, le x y = false -> le y x = true.

Let ordered (x y : A) : Prop := le x y = true.

Lemma insert_by_sorted x l : Sorted ordered l -> Sorted ordered (insert_by le x l).
Proof.
  induction 1 as [|y l Hl IH Hy]; simpl.
  - repeat constructor.
  - destruct (le x y) eqn:E.
    + constructor; [now constructor | now constructor].
    + constructor; [exact IH|].
      destruct l as [|z l]; simpl.
      * constructor. now apply le_total.
      * destruct (le x z); constructor; [now apply le_total | now inversion Hy].
Qed.

Lemma sort_by_sorted l : Sorted ordered (sort_by le l).
Proof.
  induction l as [|x l IH]; simpl; [constructor | now apply insert_by_sorted].
Qed.

End Sorting.

Lemma insert_by_ext {A} (le1 le2 : A -> A -> bool) x l :
  (forall y, In y l -> le1 x y = le2 x y) ->
  insert_by le1 x l = insert_by le2 x l.
Proof.
  induction l as [|y l IH]; intro H; simpl; [reflexivity|].
  rewrite (H y) by now left. destruct (le2 x y); [reflexivity|].
  f_equal. apply IH. intros z Hz. apply H. now right.
Qed.

Lemma sort_by_ext {A} (le1 le2 : A -> A -> bool) l :
  (forall x y, In x l -> In y l -> le1 x y = le2 x y) ->
  sort_by le1 l = sort_by le2 l.
Proof.
  induction l as [|x l IH]; intro H; simpl; [reflexivity|].
  rewrite IH by (intros x0 y0 Hx0 Hy0; apply H; right; assumption).
  apply insert_by_ext. intros y Hy. apply H; [now left|].
  right. exact (proj1 (sort_by_In le2 y l) Hy).
Qed.

(** Two strictly increasing arrangements of the same elements are equal. *)
Lemma sorted_perm_unique {A} (key : A -> Z) (l1 l2 : list A) :
  Permutation l1 l2 ->
  StronglySorted (fun x y => key x < key y) l1 ->
  StronglySorted (fun x y => key x < key y) l2 ->
  l1 = l2.
Proof.
  revert l2. induction l1 as [|a l1 IH]; intros l2 Hp H1 H2.
  - apply Permutation_nil in Hp. now subst.
  - destruct l2 as [|b l2]; [apply Permutation_sym, Permutation_nil in Hp; discriminate|].
    apply StronglySorted_inv in H1. destruct H1 as [H1 Ha].
    apply StronglySorted_inv in H2. destruct H2 as [H2 Hb].
    assert (a = b).
    { assert (Hina : In a (b :: l2)) by (apply (Permutation_in _ Hp); now left).
      assert (Hinb : In b (a :: l1))
        by (apply (Permutation_in _ (Permutation_sym Hp)); now left).
      destruct Hina as [->|Hina]; [reflexivity|].
      destruct Hinb as [->|Hinb]; [reflexivity|].
      rewrite Forall_forall in Ha, Hb.
      specialize (Ha _ Hinb). specialize (Hb _ Hina). lia. }
    subst b. f_equal. apply IH; [|assumption|assumption].
    now apply Permutation_cons_inv in Hp.
Qed.

(** Sorting by an integer key a list whose keys are pairwise distinct gives
    the one increasing arrangement. *)
Lemma sort_by_key_unique {A} (key : A -> Z) (l sorted : list A) :
  Permutation l sorted ->
  StronglySorted (fun x y => key x < key y) sorted ->
  sort_by (fun x y => key x <=? key y) l = sorted.
Proof.
  intros Hp Hs.
  assert (Hnd : forall x y, In x sorted -> In y sorted -> key x = key y -> x = y).
  { clear Hp. induction Hs as [|a s Hs IH Ha]; intros x y Hx Hy E; [destruct Hx|].
    rewrite Forall_forall in Ha.
    destruct Hx as [->|Hx], Hy as [->|Hy]; auto.
    - specialize (Ha _ Hy). lia.
    - specialize (Ha _ Hx). lia. }
  apply (sorted_perm_unique key).
  - now rewrite sort_by_perm.
  - assert (Hsorted : Sorted (fun x y => (key x <=? key y) = true)
                             (sort_by (fun x y => key x <=? key y) l)).
    { apply sort_by_sorted. intros x y E. apply Z.leb_gt in E. apply Z.leb_le. lia. }
    apply Sorted_StronglySorted in Hsorted.
    2:{ intros x y z Hxy Hyz. apply Z.leb_le in Hxy, Hyz. apply Z.leb_le. lia. }
    assert (Hin : forall x, In x (sort_by (fun x y => key x <=? key y) l) -> In x sorted).
    { intros x Hx. apply (Permutation_in _ Hp). exact (proj1 (sort_by_In _ x l) Hx). }
    assert (Hnodup : NoDup (sort_by (fun x y => key x <=? key y) l)).
    { apply (Permutation_NoDup (l := sorted)).
      - symmetry. now rewrite sort_by_perm.
      - clear -Hs. induction Hs as [|a s Hs IH Ha]; constructor; [|exact IH].
        intro Hin. rewrite Forall_forall in Ha. specialize (Ha _ Hin). lia. }
    revert Hsorted Hin Hnodup. generalize (sort_by (fun x y => key x <=? key y) l).
    induction l0 as [|a l0 IH]; intros Hsorted Hin Hnodup; constructor.
    + apply IH.
      * now inversion Hsorted.
      * intros x Hx. apply Hin. now right.
      * now inversion Hnodup.
    + inversion Hsorted as [|? ? _ Hall]; subst. inversion Hnodup as [|? ? Hnot _]; subst.
      rewrite Forall_forall in Hall |- *. intros x Hx.
      specialize (Hall _ Hx). apply Z.leb_le in Hall.
      assert (key a <> key x); [|lia].
      intro E. apply Hnot. rewrite (Hnd a x); auto. apply Hin. now left. apply Hin. now right.
  - exact Hs.
Qed.

(* ------------------------------------------------------------------ *)
(** ** Counting text cells *)


Lemma filter_notna_strs us : filter notna (map VStr us) = map VStr us.
Proof. induction us as [|u us IH]; simpl; [reflexivity | now rewrite IH]. Qed.

Lemma mem_value_strs u ss : mem_value (VStr u) (map VStr ss) = mem_str u ss.
Proof.
  unfold mem_value, mem_str. induction ss as [|s ss IH]; simpl; [reflexivity|].
  now rewrite IH.
Qed.

Lemma count_value_strs u us : count_value (VStr u) (map VStr us) = occurrences u us.
Proof.
  unfold count_value, occurrences. f_equal.
  induction us as [|x us IH]; simpl; [reflexivity|].
  destruct (String.eqb u x); simpl; now rewrite IH.
Qed.

Lemma occurrences_absent u us : ~ In u us -> occurrences u us = 0.
Proof.
  unfold occurrences. intro H. induction us as [|x us IH]; simpl; [reflexivity|].
  destruct (String.eqb_spec u x) as [->|_]; [exfalso; apply H; now left|].
  apply IH. intro Hin. apply H. now right.
Qed.

Lemma occurrences_present u us : In u us -> 0 < occurrences u us.
Proof.
  unfold occurrences. induction us as [|x us IH]; [intros []|].
  intros [->|H]; simpl.
  - rewrite String.eqb_refl. simpl. lia.
  - destruct (String.eqb u x); simpl; [lia | now apply IH].
Qed.

(** The distinct texts of a column of texts. *)
Lemma distinct_strs ss us :
  exists ks, distinct (map VStr ss) (map VStr us) = map VStr ks
             /\ NoDup ks
             /\ forall k, In k ks <-> In k us /\ ~ In k ss.
Proof.
  revert ss. induction us as [|u us IH]; intro ss; simpl.
  - exists []. split; [reflexivity|]. split; [constructor|]. intro k. simpl. tauto.
  - rewrite mem_value_strs. destruct (mem_str u ss) eqn:E.
    + destruct (IH ss) as (ks & Hks & Hnd & Hin). exists ks.
      split; [exact Hks|]. split; [exact Hnd|]. intro k. rewrite Hin.
      apply mem_str_In in E. split; [tauto|].
      intros [[<-|Hk] Hn]; [contradiction | tauto].
    + destruct (IH (u :: ss)) as (ks & Hks & Hnd & Hin).
      exists (u :: ks). simpl in Hks. rewrite Hks.
      assert (Hu : ~ In u ss) by (intro Hs; apply mem_str_In in Hs; congruence).
      split; [reflexivity|]. split.
      * constructor; [|exact Hnd]. intro Hk. apply Hin in Hk. apply (proj2 Hk). now left.
      * intro k. simpl. rewrite Hin. simpl. split.
        -- intros [<-|[Hk Hn]]; [tauto|]. split; [tauto|]. intro Hs. apply Hn. now right.
        -- intros [[<-|Hk] Hn]; [now left|].
           destruct (String.eqb_spec u k) as [->|Hne]; [now left|].
           right. split; [exact Hk|]. intros [->|Hs]; tauto.
Qed.

Lemma sort_by_map {A B} (f : A -> B) (le : B -> B -> bool) l :
  sort_by le (map f l) = map f (sort_by (fun a b => le (f a) (f b)) l).
Proof.
  induction l as [|x l IH]; simpl; [reflexivity|]. rewrite IH.
  generalize (sort_by (fun a b => le (f a) (f b)) l). intro s.
  induction s as [|y s IHs]; simpl; [reflexivity|].
  destruct (le (f x) (f y)); simpl; [reflexivity | now rewrite IHs].
Qed.

(** [value_counts] on a column of texts: each distinct text once, with the
    number of its occurrences. *)
Lemma value_counts_strs us :
  exists ks, value_counts (map VStr us) = map (fun k => (VStr k, occurrences k us)) ks
             /\ NoDup ks
             /\ forall k, In k ks <-> In k us.
Proof.
  unfold value_counts. rewrite filter_notna_strs.
  destruct (distinct_strs [] us) as (ks & Hks & Hnd & Hin).
  change (@nil value) with (map VStr []). rewrite Hks, map_map.
  rewrite (map_ext _ (fun k => (VStr k, occurrences k us)))
    by (intro; now rewrite count_value_strs).
  rewrite sort_by_map.
  eexists. split; [reflexivity|]. split.
  - apply (Permutation_NoDup (l := ks)); [symmetry; apply sort_by_perm | exact Hnd].
  - intro k. rewrite sort_by_In, Hin. tauto.
Qed.

(* ------------------------------------------------------------------ *)
(** ** Tables of issues *)


Lemma issue_columns_fold l :
  fold_left (fun seen d => union_keys seen (dict_keys d)) (map get_issue_data l) issue_columns
  = issue_columns.
Proof. induction l as [|i l IH]; [reflexivity|]. simpl map. simpl fold_left. exact IH. Qed.

Lemma frame_of_issues i l :
  frame_of_records (map get_issue_data (i :: l))
  = mkDF issue_columns (map get_issue_data (i :: l)).
Proof.
  unfold frame_of_records, records_columns.
  change (fold_left _ (map get_issue_data (i :: l)) [])
    with (fold_left (fun seen d => union_keys seen (dict_keys d)) (map get_issue_data l)
                    issue_columns).
  rewrite issue_columns_fold. f_equal.
  rewrite map_map. apply map_ext. intro a. reflexivity.
Qed.

Lemma select_map_filter {A B} (p : A -> bool) (f : A -> B) l :
  select (map p l) (map f l) = map f (filter p l).
Proof.
  induction l as [|x l IH]; simpl; [reflexivity|].
  destruct (p x); simpl; now rewrite IH.
Qed.

Lemma set_cells_map {A} k (g : A -> value) (f : A -> dict) l :
  set_cells k (map g l) (map f l) = map (fun x => dict_set k (g x) (f x)) l.
Proof. induction l as [|x l IH]; simpl; [reflexivity | now rewrite IH]. Qed.

Lemma mapM_timestamps {A} parse (t : A -> Z) l :
  Forall (fun x => in_bounds (t x) = true) l ->
  mapM (to_datetime_cell parse) (map (fun x => VTime (t x)) l)
  = inr (map (fun x => VTime (t x)) l).
Proof.
  induction 1 as [|x l Hx Hl IH]; simpl; [reflexivity|].
  unfold timestamp. now rewrite Hx, IH.
Qed.

Lemma to_datetime_run {A} parse (t : A -> Z) l st :
  Forall (fun x => in_bounds (t x) = true) l ->
  to_datetime parse (map (fun x => VTime (t x)) l) st
  = (inr (map (fun x => VTime (t x)) l), st).
Proof. intro H. unfold to_datetime. now rewrite mapM_timestamps. Qed.

(** Tables whose rows are built from the items of a list. *)
Lemma frame_mask_map {A} cols (p : A -> bool) (f : A -> dict) l :
  frame_mask (map p l) (mkDF cols (map f l)) = mkDF cols (map f (filter p l)).
Proof. unfold frame_mask. simpl. now rewrite select_map_filter. Qed.

Lemma column_values_map {A} c cols (f : A -> dict) l :
  column_values c (mkDF cols (map f l)) = map (fun x => row_get c VNaN (f x)) l.
Proof. unfold column_values. simpl. now rewrite map_map. Qed.

Lemma frame_set_column_map {A} c cols (g : A -> value) (f : A -> dict) l :
  frame_set_column c (map g l) (mkDF cols (map f l))
  = mkDF (if mem_str c cols then cols else cols ++ [c])
         (map (fun x => dict_set c (g x) (f x)) l).
Proof. unfold frame_set_column. simpl. now rewrite set_cells_map. Qed.

Lemma frame_empty_map {A} cols (f : A -> dict) l :
  cols <> [] ->
  frame_empty (mkDF cols (map f l)) = match l with [] => true | _ => false end.
Proof. destruct cols; [congruence|]. now destruct l. Qed.

Ltac name_store s :=
  match goal with
  | |- context [bind _ _ ?st] => set (s := st) in *
  | |- context [returned (_ ?st)] => set (s := st) in *
  end.

Ltac frame_norm :=
  repeat first [ rewrite frame_set_column_map | rewrite column_values_map
               | rewrite frame_mask_map | rewrite map_map ];
  cbn [row_get dict_get dict_set get_issue_data get_pr_data String.eqb Ascii.eqb
       Bool.eqb mem_str existsb orb app issue_columns pr_columns fst snd].

(* ------------------------------------------------------------------ *)
(** ** create_issue_aging_data *)


Lemma get_age_bucket_class now (i : Issue) :
  get_age_bucket (days_between (VTime now) (VTime (issue_created_at i)))
  = VStr (age_class now i).
Proof.
  unfold get_age_bucket, days_between, float_le, age_class, Qle_bool, inject_Z.
  cbn [Qnum Qden]. rewrite !Z.mul_1_r.
  change (Z.pos 86400000000000) with ns_per_day.
  destruct (now - issue_created_at i <=? 7 * ns_per_day); [reflexivity|].
  destruct (now - issue_created_at i <=? 30 * ns_per_day); reflexivity.
Qed.

Lemma ensure_bucket_run st entries bucket :
  exists st',
    (present <- df_getitem (List.length st) "Age_Bucket" ;;
     if negb (mem_value (VStr bucket) present)
     then
       extra <- alloc (mkDF ["Age_Bucket"; "Count"]
                            [[("Age_Bucket", VStr bucket); ("Count", VInt 0)]]) ;;
       pd_concat (List.length st) extra
     else ret (List.length st))
      (st ++ [mkDF ["Age_Bucket"; "Count"] (map bucket_row entries)])
    = (inr (List.length st'),
       st' ++ [mkDF ["Age_Bucket"; "Count"]
                    (map bucket_row (ensure_buckets [bucket] entries))]).
Proof.
  run_step. rewrite column_values_map.
  cbn [row_get dict_get bucket_row String.eqb Ascii.eqb Bool.eqb].
  rewrite <- (map_map fst VStr), mem_value_strs.
  unfold ensure_buckets. cbn [fold_left].
  destruct (mem_str bucket (map fst entries)); cbn [negb].
  - exists st. reflexivity.
  - set (table := mkDF _ (map bucket_row entries)).
    set (extra := mkDF ["Age_Bucket"; "Count"]
                       [[("Age_Bucket", VStr bucket); ("Count", VInt 0)]]).
    exists ((st ++ [table]) ++ [extra]).
    erewrite bind_run by reflexivity.
    unfold pd_concat.
    erewrite bind_run by (apply load_run; lookup).
    erewrite bind_run by (apply load_run; lookup).
    unfold alloc. f_equal. f_equal. f_equal.
    subst table extra. cbn [df_columns df_rows union_keys mem_str existsb String.eqb
                            Ascii.eqb Bool.eqb orb].
    f_equal. rewrite !map_app, map_map. cbn [map]. f_equal.
Qed.

Lemma ensure_buckets_run buckets : forall st entries,
  exists st',
    foldM (fun bucket_counts bucket =>
             present <- df_getitem bucket_counts "Age_Bucket" ;;
             if negb (mem_value (VStr bucket) present)
             then
               extra <- alloc (mkDF ["Age_Bucket"; "Count"]
                                    [[("Age_Bucket", VStr bucket); ("Count", VInt 0)]]) ;;
               pd_concat bucket_counts extra
             else ret bucket_counts)
          buckets (List.length st)
          (st ++ [mkDF ["Age_Bucket"; "Count"] (map bucket_row entries)])
    = (inr (List.length st'),
       st' ++ [mkDF ["Age_Bucket"; "Count"]
                    (map bucket_row (ensure_buckets buckets entries))]).
Proof.
  induction buckets as [|b buckets IH]; intros st entries.
  - exists st. reflexivity.
  - cbn [foldM]. destruct (ensure_bucket_run st entries b) as [st1 H1].
    rewrite (bind_run _ _ _ _ _ H1).
    destruct (IH st1 (ensure_buckets [b] entries)) as [st2 H2].
    exists st2. rewrite H2. reflexivity.
Qed.

Lemma ensure_buckets_spec buckets : NoDup buckets -> forall entries,
  ensure_buckets buckets entries
  = entries ++ map (fun b => (b, 0))
                   (filter (fun b => negb (mem_str b (map fst entries))) buckets).
Proof.
  unfold ensure_buckets.
  induction 1 as [|b buckets Hb Hnd IH]; intro entries; cbn [fold_left filter map].
  - now rewrite app_nil_r.
  - rewrite IH. destruct (mem_str b (map fst entries)) eqn:E; cbn [negb map].
    + reflexivity.
    + rewrite <- app_assoc. cbn [app]. do 3 f_equal.
      apply filter_ext_in. intros k Hk. f_equal.
      rewrite map_app. cbn [map fst]. unfold mem_str. rewrite existsb_app.
      cbn [existsb]. destruct (String.eqb_spec k b) as [->|_]; [contradiction|].
      now rewrite !orb_false_r.
Qed.


Lemma in_all_buckets k :
  In k all_buckets -> k = "0-7 days" \/ k = "7-30 days" \/ k = "30+ days".
Proof. intros [<- | [<- | [<- | []]]]; auto. Qed.

(** Sorting the completed table by bucket order gives the three buckets in
    the order 0-7, 7-30, 30+. *)
Lemma sort_ordered_rows classes keys :
  Permutation keys all_buckets ->
  df_rows (frame_sort_values "order" true
             (mkDF ["Age_Bucket"; "Count"; "order"] (map (ordered_row classes) keys)))
  = map (ordered_row classes) all_buckets.
Proof.
  intro Hp. unfold frame_sort_values. cbn [df_rows].
  assert (Hkey : forall r, In r (map (ordered_row classes) keys) ->
                           row_get "order" VNaN r = VInt (bucket_rank r)).
  { intros r Hr. apply in_map_iff in Hr. destruct Hr as (k & <- & Hk).
    apply (Permutation_in _ Hp), in_all_buckets in Hk.
    destruct Hk as [-> | [-> | ->]]; reflexivity. }
  rewrite (filter_ext_in _ (fun _ => true)), filter_true
    by (intros r Hr; now rewrite (Hkey r Hr)).
  rewrite (filter_ext_in _ (fun _ => false)), filter_false, app_nil_r
    by (intros r Hr; now rewrite (Hkey r Hr)).
  rewrite (sort_by_ext _ (fun r1 r2 => bucket_rank r1 <=? bucket_rank r2)).
  2:{ intros r1 r2 H1 H2. now rewrite (Hkey r1 H1), (Hkey r2 H2). }
  apply sort_by_key_unique.
  - now apply Permutation_map.
  - repeat constructor; vm_compute; reflexivity.
Qed.
Lemma age_class_bucket now i : In (age_class now i) all_buckets.
Proof.
  unfold age_class, all_buckets.
  destruct (_ <=? 7 * ns_per_day); [now left|].
  destruct (_ <=? 30 * ns_per_day); [right; now left | right; right; now left].
Qed.

(** After the loop the table has each of the three buckets exactly once,
    with the number of its occurrences. *)
Lemma completed_buckets classes ks :
  (forall c, In c classes -> In c all_buckets) ->
  NoDup ks ->
  (forall k, In k ks <-> In k classes) ->
  exists keys,
    ensure_buckets all_buckets (map (fun k => (k, occurrences k classes)) ks)
    = map (fun k => (k, occurrences k classes)) keys
    /\ Permutation keys all_buckets.
Proof.
  intros Hcl Hnd Hin.
  assert (Hall : NoDup all_buckets).
  { unfold all_buckets. repeat constructor; simpl; intuition discriminate. }
  set (missing := filter (fun b => negb (mem_str b ks)) all_buckets).
  exists (ks ++ missing). split.
  - rewrite (ensure_buckets_spec _ Hall), map_map. cbn [fst]. rewrite map_id, map_app.
    f_equal. fold missing. apply map_ext_in. intros b Hb. f_equal.
    symmetry. apply occurrences_absent. intro Hc. apply Hin in Hc.
    apply filter_In in Hb. destruct Hb as [_ Hb]. apply mem_str_In in Hc.
    rewrite Hc in Hb. discriminate Hb.
  - apply NoDup_Permutation.
    + apply NoDup_app; [exact Hnd | apply NoDup_filter, Hall |].
      intros k Hk Hm. apply filter_In in Hm. destruct Hm as [_ Hm].
      apply mem_str_In in Hk. rewrite Hk in Hm. discriminate Hm.
    + exact Hall.
    + intro k. rewrite in_app_iff. split.
      * intros [Hk|Hk]; [apply Hcl, Hin, Hk | now apply filter_In in Hk].
      * intro Hk. destruct (mem_str k ks) eqn:E.
        -- left. now apply mem_str_In.
        -- right. apply filter_In. split; [exact Hk | now rewrite E].
Qed.

Lemma df_drop_column_run st r c d :
  nth_error st r = Some d -> has_column c d = true ->
  df_drop_column r c st
  = (inr (List.length st),
     st ++ [mkDF (filter (fun c' => negb (String.eqb c c')) (df_columns d))
                 (map (dict_remove c) (df_rows d))]).
Proof.
  intros H Hc. unfold df_drop_column.
  rewrite (bind_run _ _ _ _ _ (load_run _ _ _ H)). now rewrite Hc.
Qed.

(** The aging table of a collection that has an open issue. *)
Lemma aging_run_open parse issues now st r :
  nth_error st r = Some (mkDF issue_columns (map get_issue_data issues)) ->
  Forall (fun x => in_bounds (issue_created_at x) = true) issues ->
  filter is_open issues <> [] ->
  returned (create_issue_aging_data parse r now st)
  = Some (mkDF ["Age_Bucket"; "Count"] (map (aging_row now issues) all_buckets)).
Proof.
  intros Hst Hb Hopen.
  unfold create_issue_aging_data.
  run_step. run_step.
  rewrite frame_empty_map by discriminate.
  destruct issues as [|i l]; [now elim Hopen|]. cbv iota. set (issues := i :: l) in *.
  change (has_column "created_at" _) with true. cbn [negb orb].
  run_step. run_step. frame_norm. cbn [eq_str].
  rewrite (filter_ext _ is_open) by (intros [? ? [] ? ? ? ? ?]; reflexivity).
  assert (Hbo : Forall (fun x => in_bounds (issue_created_at x) = true)
                       (filter is_open issues)).
  { rewrite Forall_forall in *. intros x Hx. apply Hb. now apply filter_In in Hx. }
  unfold aging_row.
  destruct (filter is_open issues) as [|o opens'] eqn:Eo; [congruence|].
  set (opens := o :: opens') in *.
  run_step.
  run_step. rewrite frame_empty_map by discriminate. subst opens. cbv iota.
  set (opens := o :: opens') in *.
  run_step. frame_norm.
  erewrite bind_run by (apply to_datetime_run, Hbo).
  run_step. frame_norm.
  run_step. frame_norm.
  run_step. frame_norm.
  run_step. frame_norm.
  run_step. frame_norm.
  run_step. frame_norm.
  rewrite (map_ext _ (fun x => VStr (age_class now x)))
    by (intro; apply get_age_bucket_class).
  rewrite <- (map_map (age_class now) VStr).
  set (classes := map (age_class now) opens).
  destruct (value_counts_strs classes) as (ks & Hvc & Hnd & Hin). rewrite Hvc.
  unfold counts_frame. rewrite map_map.
  rewrite <- (map_map (fun k => (k, occurrences k classes)) bucket_row).
  erewrite bind_run by reflexivity.
  match goal with
  | |- context [bind (foldM _ _ _) _ (?s ++ [_])] =>
      destruct (ensure_buckets_run all_buckets s
                  (map (fun k => (k, occurrences k classes)) ks)) as [st' Hloop]
  end.
  rewrite (bind_run _ _ _ _ _ Hloop). clear Hloop.
  destruct (completed_buckets classes ks) as (keys & -> & Hperm); auto.
  { intros c Hc. apply in_map_iff in Hc. destruct Hc as (x & <- & _).
    apply age_class_bucket. }
  run_step. frame_norm. cbn [bucket_row].
  unfold series_map. rewrite map_map.
  run_step. frame_norm. cbn [bucket_row].
  change (map _ keys) with (map (ordered_row classes) keys).
  run_step.
  erewrite df_drop_column_run by (try lookup; reflexivity).
  cbn [returned]. rewrite nth_error_top. cbn [df_columns filter String.eqb Ascii.eqb
                                              Bool.eqb negb].
  rewrite (sort_ordered_rows classes keys Hperm). reflexivity.
Qed.

Lemma pd_DataFrame_columns cols st :
  pd_DataFrame (Columns cols) st = (inr (List.length st), st ++ [frame_of_columns cols]).
Proof. reflexivity. Qed.

(** The aging table of a collection without open issue: no row at all. *)
Lemma aging_run_none parse issues now st r :
  nth_error st r = Some (frame_of_records (map get_issue_data issues)) ->
  filter is_open issues = [] ->
  returned (create_issue_aging_data parse r now st)
  = Some (mkDF ["Age_Bucket"; "Count"] []).
Proof.
  intros Hst Hnone.
  unfold create_issue_aging_data.
  destruct issues as [|i l].
  - run_step. run_step.
    cbn [map frame_of_records records_columns fold_left frame_empty df_columns orb].
    rewrite pd_DataFrame_columns. cbn [returned]. now rewrite nth_error_top.
  - rewrite frame_of_issues in Hst. run_step. run_step.
    rewrite frame_empty_map by discriminate. cbv iota.
    change (has_column "created_at" _) with true. cbn [negb orb].
    run_step. run_step. frame_norm. cbn [eq_str].
    rewrite (filter_ext _ is_open) by (intros [? ? [] ? ? ? ? ?]; reflexivity).
    rewrite Hnone.
    run_step. run_step. cbn [map frame_empty df_columns df_rows issue_columns].
    rewrite pd_DataFrame_columns. cbn [returned]. now rewrite nth_error_top.
Qed.

Lemma filter_nil_existsb {A} (p : A -> bool) l : filter p l = [] <-> existsb p l = false.
Proof.
  induction l as [|x l IH]; simpl; [tauto|].
  destruct (p x); simpl; [split; discriminate | exact IH].
Qed.

(** C6, amended: the aging table classifies every open issue by its age
    (up to 7 days, up to 30 days, more), as in the three examples; when the
    collection has at least one open issue the table has exactly the three
    bucket rows, in that order, a bucket without issue counting 0; when it
    has none (an empty collection, or closed issues only) the table has no
    row. *)
Theorem aging_table :
  forall (parse_datetime : string -> option Z) (issues : list Issue)
         (prs_data : list dict) (now : Z) (st : Store),
    Forall (fun i => in_bounds (issue_created_at i) = true) issues ->
    returned ((dfs <- frames_of (map get_issue_data issues) prs_data ;;
               create_issue_aging_data parse_datetime (fst dfs) now) st)
    = Some (mkDF ["Age_Bucket"; "Count"]
                 (if existsb is_open issues
                  then map (aging_row now issues) all_buckets
                  else []))
    /\ get_age_bucket (VFloat 5) = VStr "0-7 days"
    /\ get_age_bucket (VFloat 20) = VStr "7-30 days"
    /\ get_age_bucket (VFloat 40) = VStr "30+ days"
    /\ forall i, get_age_bucket (days_between (VTime now) (VTime (issue_created_at i)))
                 = VStr (age_class now i).
Proof.
  intros parse issues prs_data now st Hb.
  split; [| repeat split; apply get_age_bucket_class].
  run_step. cbn [fst].
  destruct (existsb is_open issues) eqn:E.
  - assert (Hopen : filter is_open issues <> []).
    { intro H. apply filter_nil_existsb in H. congruence. }
    destruct issues as [|i l]; [discriminate E|].
    rewrite frame_of_issues. apply aging_run_open; [lookup | assumption | assumption].
  - apply (aging_run_none parse issues); [lookup | now apply filter_nil_existsb].
Qed.


Lemma aging_table_witness :
  returned ((dfs <- frames_of (map get_issue_data [aged_issue; closed_issue]) [] ;;
             create_issue_aging_data (fun _ => None) (fst dfs) 0) [])
  = Some (mkDF ["Age_Bucket"; "Count"]
               [ [("Age_Bucket", VStr "0-7 days"); ("Count", VInt 1)];
                 [("Age_Bucket", VStr "7-30 days"); ("Count", VInt 0)];
                 [("Age_Bucket", VStr "30+ days"); ("Count", VInt 0)] ]).
Proof.
  assert (Hb : Forall (fun i => in_bounds (issue_created_at i) = true)
                      [aged_issue; closed_issue])
    by (repeat constructor).
  exact (proj1 (aging_table (fun _ => None) [aged_issue; closed_issue] [] 0 [] Hb)).
Defined.

(** C6, as stated, fails: with closed issues only, the three bucket rows are
    not in the table. *)
Lemma aging_table_without_open_issue :
  ~ (exists n0 n1 n2,
       returned ((dfs <- frames_of (map get_issue_data [closed_issue]) [] ;;
                  create_issue_aging_data (fun _ => None) (fst dfs) 0) [])
       = Some (mkDF ["Age_Bucket"; "Count"]
                    [ [("Age_Bucket", VStr "0-7 days"); ("Count", VInt n0)];
                      [("Age_Bucket", VStr "7-30 days"); ("Count", VInt n1)];
                      [("Age_Bucket", VStr "30+ days"); ("Count", VInt n2)] ])).
Proof.
  intros (n0 & n1 & n2 & H). vm_compute in H. discriminate H.
Qed.

(* ------------------------------------------------------------------ *)
(** ** calculate_kpis *)


Lemma row_get_dict_set k v d row : row_get k d (dict_set k v row) = v.
Proof.
  unfold row_get. induction row as [|[k' v'] row IH]; simpl.
  - now rewrite String.eqb_refl.
  - destruct (String.eqb_spec k k') as [->|Hne]; simpl.
    + now rewrite String.eqb_refl.
    + destruct (String.eqb_spec k k'); [contradiction | exact IH].
Qed.

Lemma zip_with_map {A B C D} (f : B -> C -> D) (g : A -> B) (h : A -> C) l :
  zip_with f (map g l) (map h l) = map (fun x => f (g x) (h x)) l.
Proof. induction l as [|x l IH]; simpl; [reflexivity | now rewrite IH]. Qed.

Lemma mapM_opt_times {A} parse (t : A -> option Z) l :
  Forall (fun x => opt_in_bounds (t x) = true) l ->
  mapM (to_datetime_cell parse) (map (fun x => opt_time (t x)) l)
  = inr (map (fun x => match t x with Some u => VTime u | None => VNaN end) l).
Proof.
  induction 1 as [|x l Hx Hl IH]; simpl; [reflexivity|].
  rewrite IH. destruct (t x) as [u|]; simpl in *; [|reflexivity].
  unfold timestamp. now rewrite Hx.
Qed.

Lemma mem_str_set_column c cols :
  mem_str c (if mem_str c cols then cols else cols ++ [c]) = true.
Proof.
  destruct (mem_str c cols) eqn:E; [exact E|].
  apply mem_str_In, in_or_app. right. now left.
Qed.

Lemma filter_filter {A} (p q : A -> bool) l :
  filter q (filter p l) = filter (fun x => p x && q x) l.
Proof.
  induction l as [|x l IH]; simpl; [reflexivity|].
  destruct (p x); simpl; [destruct (q x); now rewrite IH | exact IH].
Qed.

Lemma present_floats_days {A} (created : A -> Z) (final : A -> option Z) l :
  present_floats
    (map (fun x => days_between
                     match final x with Some u => VTime u | None => VNaN end
                     (VTime (created x))) l)
  = map (fun x => match final x with
                  | Some t => days_from_to (created x) t
                  | None => 0%Q
                  end)
        (filter (fun x => match final x with Some _ => true | None => false end) l).
Proof.
  induction l as [|x l IH]; [reflexivity|].
  cbn [map filter]. cbv beta.
  destruct (final x) eqn:E; cbn [days_between present_floats map]; cbv beta;
    rewrite ?E, IH; reflexivity.
Qed.

Lemma existsb_notna_opt {A} (final : A -> option Z) l :
  existsb notna (map (fun x => opt_time (final x)) l)
  = existsb (fun x => match final x with Some _ => true | None => false end) l.
Proof.
  induction l as [|x l IH]; simpl; [reflexivity|].
  rewrite IH. now destruct (final x).
Qed.

Lemma existsb_filter {A} (p q : A -> bool) l :
  existsb q (filter p l) = existsb (fun x => p x && q x) l.
Proof.
  induction l as [|x l IH]; simpl; [reflexivity|].
  destruct (p x); simpl; now rewrite IH.
Qed.

(** One "average time" block on a table built from items. *)
Lemma average_days_run {A} parse (items : list A) (row : A -> dict) cols
      c p until out (sel : A -> bool) (created : A -> Z) (final : A -> option Z) st r :
  nth_error st r = Some (mkDF cols (map row items)) ->
  mem_str c cols = true ->
  mem_str until cols = true ->
  mem_str "created_at" cols = true ->
  (forall x, p (row_get c VNaN (row x)) = sel x) ->
  (forall x, row_get until VNaN (row x) = opt_time (final x)) ->
  (forall x, row_get "created_at" VNaN (row x) = VTime (created x)) ->
  Forall (fun x => in_bounds (created x) = true) items ->
  Forall (fun x => opt_in_bounds (final x) = true) items ->
  exists extra,
    average_days parse r c p until out st
    = (inr (average_of sel created final items), st ++ extra).
Proof.
  intros Hst Hc Hu Hcr Hsel Hfin Hcre Hb1 Hb2.
  assert (Hcols : cols <> []) by (intros ->; discriminate Hc).
  unfold average_days, average_of.
  erewrite bind_run by (eapply df_getitem_run; [lookup | exact Hc]).
  run_step. frame_norm.
  rewrite (filter_ext _ sel) by apply Hsel.
  remember (filter sel items) as chosen eqn:Hch.
  assert (Hc1 : Forall (fun x => in_bounds (created x) = true) chosen).
  { subst chosen. rewrite Forall_forall in *. intros x Hx. apply Hb1.
    now apply filter_In in Hx. }
  assert (Hc2 : Forall (fun x => opt_in_bounds (final x) = true) chosen).
  { subst chosen. rewrite Forall_forall in *. intros x Hx. apply Hb2.
    now apply filter_In in Hx. }
  run_step. run_step. rewrite frame_empty_map by exact Hcols.
  rewrite <- existsb_filter, <- Hch.
  destruct chosen as [|x0 chosen'].
  { cbn [negb]. erewrite bind_run by reflexivity. cbn [existsb].
    rewrite <- !app_assoc. eexists. reflexivity. }
  cbv iota. set (chosen := x0 :: chosen') in *. cbn [negb].
  erewrite bind_run.
  2:{ erewrite bind_run by (eapply df_getitem_run; [lookup | exact Hu]). reflexivity. }
  rewrite column_values_map.
  rewrite (map_ext _ (fun x => opt_time (final x))) by apply Hfin.
  rewrite existsb_notna_opt.
  destruct (existsb _ chosen) eqn:Eany.
  2:{ rewrite <- !app_assoc. eexists. reflexivity. }
  erewrite bind_run by (eapply df_getitem_run; [lookup | exact Hu]).
  rewrite column_values_map.
  rewrite (map_ext _ (fun x => opt_time (final x))) by apply Hfin.
  erewrite bind_run by (unfold to_datetime; rewrite (mapM_opt_times _ _ _ Hc2); reflexivity).
  erewrite bind_run by (eapply df_getitem_run; [lookup | exact Hcr]).
  rewrite column_values_map.
  rewrite (map_ext _ (fun x => VTime (created x))) by apply Hcre.
  erewrite bind_run by (apply to_datetime_run, Hc1).
  rewrite zip_with_map.
  run_step. rewrite frame_set_column_map.
  erewrite bind_run
    by (eapply df_getitem_run; [lookup | apply mem_str_set_column]).
  rewrite column_values_map.
  rewrite (map_ext (fun x => row_get out VNaN _) _ (fun x => row_get_dict_set _ _ _ _)).
  unfold ret. rewrite <- !app_assoc. eexists. f_equal. f_equal.
  unfold series_mean. rewrite present_floats_days.
  rewrite <- filter_filter, <- Hch.
  destruct (map _ (filter _ chosen)) eqn:Em; [|reflexivity].
  exfalso. apply map_eq_nil in Em.
  apply filter_nil_existsb in Em. congruence.
Qed.

Lemma count_where_run st df c p d :
  nth_error st df = Some d -> has_column c d = true ->
  count_where df c p st
  = (inr (Z.of_nat (List.length (df_rows (frame_mask (map p (column_values c d)) d)))),
     st ++ [frame_mask (map p (column_values c d)) d]).
Proof.
  intros H Hc. unfold count_where.
  erewrite bind_run by (eapply df_getitem_run; eassumption).
  erewrite bind_run by (eapply df_getitem_mask_run; eassumption).
  erewrite df_len_run by apply nth_error_top. reflexivity.
Qed.

Lemma average_resolution_run parse issues st r :
  nth_error st r = Some (mkDF issue_columns (map get_issue_data issues)) ->
  Forall (fun i => issue_in_bounds i = true) issues ->
  exists extra,
    average_days parse r "state" (eq_str "closed") "closed_at" "resolution_time" st
    = (inr (if existsb resolved issues
            then VFloat (mean (map resolution_days (filter resolved issues)))
            else VInt 0),
       st ++ extra).
Proof.
  intros Hst Hb.
  apply (average_days_run parse issues get_issue_data issue_columns _ _ _ _
                          is_closed issue_created_at issue_closed_at);
    try reflexivity; try assumption.
  - intros [? ? [] ? ? ? ? ?]; reflexivity.
  - eapply Forall_impl; [|exact Hb]. intros i Hi.
    now apply andb_true_iff in Hi.
  - eapply Forall_impl; [|exact Hb]. intros i Hi.
    now apply andb_true_iff in Hi.
Qed.

Lemma average_merge_run parse prs st r :
  nth_error st r = Some (mkDF pr_columns (map get_pr_data prs)) ->
  Forall (fun p => pr_in_bounds p = true) prs ->
  exists extra,
    average_days parse r "merged" eq_true "merged_at" "merge_time" st
    = (inr (if existsb merged_with_time prs
            then VFloat (mean (map merge_days (filter merged_with_time prs)))
            else VInt 0),
       st ++ extra).
Proof.
  intros Hst Hb.
  apply (average_days_run parse prs get_pr_data pr_columns _ _ _ _
                          pr_merged pr_created_at pr_merged_at);
    try reflexivity; try assumption.
  - eapply Forall_impl; [|exact Hb]. intros p Hp. unfold pr_in_bounds in Hp.
    apply andb_true_iff in Hp. destruct Hp as [Hp _].
    now apply andb_true_iff in Hp.
  - eapply Forall_impl; [|exact Hb]. intros p Hp. unfold pr_in_bounds in Hp.
    now apply andb_true_iff in Hp.
Qed.

Ltac run_count :=
  erewrite bind_run by (eapply count_where_run; [lookup | reflexivity]).

Ltac run_average lem Hb :=
  match goal with
  | |- context [bind (average_days ?parse ?r _ _ _ _) _ ?s] =>
      let extra := fresh "extra" in
      let H := fresh "Havg" in
      destruct (lem parse _ s r ltac:(lookup) Hb) as [extra H];
      rewrite (bind_run _ _ _ _ _ H); clear H
  end.

(** C3: on every collection of issues (and of pull requests) whose instants
    pandas can represent, [calculate_kpis] returns its KPIs, and
    [avg_issue_resolution_days] is the arithmetic mean of
    [(closed_at - created_at)] in days (seconds / 86400) over exactly the
    issues that are closed and have a [closed_at]; when there is no such
    issue it is the sentinel 0. *)
Theorem average_issue_resolution :
  forall (parse_datetime : string -> option Z) (issues : list Issue)
         (prs : list PullRequest) (st : Store),
    Forall (fun i => issue_in_bounds i = true) issues ->
    Forall (fun p => pr_in_bounds p = true) prs ->
    exists kpis st',
      (dfs <- frames_of (map get_issue_data issues) (map get_pr_data prs) ;;
       calculate_kpis parse_datetime (fst dfs) (snd dfs)) st = (inr kpis, st')
      /\ dict_get "avg_issue_resolution_days" kpis
         = Some (if existsb resolved issues
                 then VFloat (mean (map resolution_days (filter resolved issues)))
                 else VInt 0).
Proof.
  intros parse issues prs st Hbi Hbp.
  run_step. cbn [fst snd]. unfold calculate_kpis.
  destruct issues as [|i issues'], prs as [|p prs'].
  - change (frame_of_records (map get_issue_data [])) with (mkDF [] []).
    change (frame_of_records (map get_pr_data [])) with (mkDF [] []).
    run_step. run_step. cbn [frame_empty df_columns negb andb].
    do 5 (erewrite bind_run by reflexivity).
    run_step.
    erewrite bind_run by reflexivity.
    run_step. run_step.
    erewrite bind_run by reflexivity.
    run_step. run_step.
    erewrite bind_run by reflexivity.
    eexists _, _. split; reflexivity.
  - rewrite frame_of_prs. set (prs := p :: prs') in *.
    run_step. run_step. rewrite frame_empty_map by discriminate.
    change (frame_empty (frame_of_records (map get_issue_data []))) with true.
    subst prs. cbv iota. cbn [negb andb]. set (prs := p :: prs') in *.
    erewrite bind_run by reflexivity.
    run_step.
    erewrite bind_run by reflexivity.
    run_count.
    erewrite bind_run by reflexivity.
    run_step. change (has_column "merged" _) with true. cbv iota.
    run_count.
    run_step. run_step.
    erewrite bind_run by reflexivity.
    run_step. run_step.
    change (has_column "created_at" _) with true.
    change (has_column "merged_at" _) with true. cbn [negb andb].
    run_average average_merge_run Hbp.
    eexists _, _. split; reflexivity.
  - rewrite frame_of_issues. set (issues := i :: issues') in *.
    run_step. run_step. rewrite frame_empty_map by discriminate.
    change (frame_empty (frame_of_records (map get_pr_data []))) with true.
    subst issues. cbv iota. cbn [negb andb]. set (issues := i :: issues') in *.
    run_step.
    erewrite bind_run by reflexivity.
    run_count.
    erewrite bind_run by reflexivity.
    run_count.
    run_step.
    erewrite bind_run by reflexivity.
    run_step. run_step.
    change (has_column "created_at" _) with true.
    change (has_column "closed_at" _) with true. cbn [negb andb].
    run_average average_resolution_run Hbi.
    run_step. run_step.
    erewrite bind_run by reflexivity.
    eexists _, _. split; reflexivity.
  - rewrite frame_of_issues, frame_of_prs.
    set (issues := i :: issues') in *. set (prs := p :: prs') in *.
    run_step. run_step. rewrite !frame_empty_map by discriminate.
    subst issues prs. cbv iota. cbn [negb andb].
    set (issues := i :: issues') in *. set (prs := p :: prs') in *.
    run_step. run_step.
    run_count. run_count. run_count.
    run_step. change (has_column "merged" _) with true. cbv iota.
    run_count.
    run_step. run_step.
    change (has_column "created_at" _) with true.
    change (has_column "closed_at" _) with true. cbn [negb andb].
    run_average average_resolution_run Hbi.
    run_step. run_step.
    change (has_column "created_at" _) with true.
    change (has_column "merged_at" _) with true. cbn [negb andb].
    run_average average_merge_run Hbp.
    eexists _, _. split; reflexivity.
Qed.


Lemma average_issue_resolution_witness :
  exists kpis st',
    (dfs <- frames_of (map get_issue_data spec_issues) (map get_pr_data []) ;;
     calculate_kpis (fun _ => None) (fst dfs) (snd dfs)) [] = (inr kpis, st')
    /\ dict_get "avg_issue_resolution_days" kpis
       = Some (VFloat (mean (map resolution_days spec_issues))).
Proof.
  apply (average_issue_resolution (fun _ => None) spec_issues [] []);
    repeat constructor.
Defined.

(** The mean of the example is 2 days. *)
Remark spec_issues_mean : (mean (map resolution_days spec_issues) == 2)%Q.
Proof. vm_compute. reflexivity. Qed.

(* ------------------------------------------------------------------ *)
(** ** create_contributor_leaderboard *)


Lemma tally_mem_of u data : tally_mem (VStr u) (tally_of data) = mem_str u (map fst data).
Proof.
  unfold tally_mem, tally_of, mem_str.
  induction data as [|[k c] data IH]; [reflexivity|].
  cbn [map existsb fst value_eqb]. f_equal. exact IH.
Qed.

Lemma tally_update_of f u n data :
  tally_update (VStr u) (field_name f) n (tally_of data)
  = tally_of (counters_update f u n data).
Proof.
  induction data as [|[k [a b]] data IH]; [reflexivity|].
  cbn [tally_of map tally_update counters_update fst snd value_eqb].
  destruct (String.eqb u k).
  - destruct f; reflexivity.
  - cbn [tally_of map fst snd]. f_equal. exact IH.
Qed.

Lemma record_count_of f data u n :
  record_count (field_name f) (tally_of data) (VStr u, n)
  = tally_of (counters_record f data (u, n)).
Proof.
  unfold record_count, counters_record. cbn [fst snd].
  rewrite tally_mem_of. destruct (mem_str u (map fst data)).
  - apply tally_update_of.
  - change (tally_of data ++ [(VStr u, new_entry)])
      with (tally_of data ++ tally_of [(u, (0, 0))]).
    unfold tally_of at 1 2. rewrite <- map_app. apply tally_update_of.
Qed.

Lemma fold_record_count_of f (items : list (string * Z)) : forall data,
  fold_left (record_count (field_name f))
            (map (fun it => (VStr (fst it), snd it)) items) (tally_of data)
  = tally_of (fold_left (counters_record f) items data).
Proof.
  induction items as [|[u n] items IH]; intro data; [reflexivity|].
  cbn [map fold_left fst snd]. rewrite record_count_of. apply IH.
Qed.

Lemma counters_update_absent f u n data :
  ~ In u (map fst data) -> counters_update f u n data = data.
Proof.
  induction data as [|[k c] data IH]; intro H; [reflexivity|].
  cbn [counters_update]. destruct (String.eqb_spec u k) as [->|_].
  - exfalso. apply H. now left.
  - f_equal. apply IH. intro Hin. apply H. now right.
Qed.

Lemma counters_update_map f u n data :
  NoDup (map fst data) ->
  counters_update f u n data
  = map (fun e => if String.eqb u (fst e) then (fst e, set_counter f n (snd e)) else e) data.
Proof.
  induction data as [|[k c] data IH]; intro H; [reflexivity|].
  inversion H as [|? ? Hk Hnd]; subst.
  cbn [counters_update map fst snd]. destruct (String.eqb_spec u k) as [->|Hne].
  - f_equal. symmetry. rewrite <- (map_id data) at 2. apply map_ext_in.
    intros [k' c'] Hin. cbn [fst snd].
    destruct (String.eqb_spec k k') as [->|_]; [|reflexivity].
    exfalso. apply Hk. apply in_map_iff. now exists (k', c').
  - f_equal. now apply IH.
Qed.

Lemma counters_update_keys f u n data :
  map fst (counters_update f u n data) = map fst data.
Proof.
  induction data as [|[k c] data IH]; [reflexivity|].
  cbn [counters_update]. destruct (String.eqb u k); cbn [map fst]; [reflexivity|].
  now rewrite IH.
Qed.

(** The effect of one counting loop on the tally. *)
Lemma fold_counters_record f (count : string -> Z) ks : NoDup ks -> forall data,
  NoDup (map fst data) ->
  fold_left (counters_record f) (map (fun k => (k, count k)) ks) data
  = map (fun e => if mem_str (fst e) ks
                  then (fst e, set_counter f (count (fst e)) (snd e)) else e) data
    ++ map (fun k => (k, set_counter f (count k) (0, 0)))
           (filter (fun k => negb (mem_str k (map fst data))) ks).
Proof.
  induction 1 as [|k ks Hk Hks IH]; intros data Hnd.
  - cbn [map fold_left filter mem_str existsb]. rewrite app_nil_r.
    symmetry. rewrite <- (map_id data) at 2. apply map_ext. now intros [? ?].
  - cbn [map fold_left filter]. unfold counters_record at 2. cbn [fst snd].
    destruct (mem_str k (map fst data)) eqn:E; cbn [negb].
    + rewrite IH by now rewrite counters_update_keys.
      rewrite counters_update_keys, counters_update_map, map_map by exact Hnd.
      f_equal. apply map_ext. intros [k' c']. cbn [fst snd mem_str existsb].
      destruct (String.eqb_spec k k') as [->|Hne]; cbn [fst snd].
      * rewrite String.eqb_refl. cbn [orb].
        destruct (mem_str k' ks) eqn:Em; [|reflexivity].
        apply mem_str_In in Em. contradiction.
      * destruct (String.eqb_spec k' k) as [->|_]; [contradiction|]. reflexivity.
    + assert (Hk' : ~ In k (map fst data))
        by (intro Hin; apply mem_str_In in Hin; congruence).
      rewrite counters_update_map.
      2:{ rewrite map_app. cbn [map fst]. apply NoDup_app; [exact Hnd | repeat constructor; intros [] |].
          intros a Ha [<-|[]]. contradiction. }
      rewrite map_app. cbn [map fst snd]. rewrite String.eqb_refl.
      rewrite (map_ext_in _ (fun e => e)), map_id.
      2:{ intros [k' c'] Hin. cbn [fst]. destruct (String.eqb_spec k k') as [->|_]; [|reflexivity].
          exfalso. apply Hk'. apply in_map_iff. now exists (k', c'). }
      rewrite IH.
      2:{ rewrite map_app. cbn [map fst]. apply NoDup_app; [exact Hnd | repeat constructor; intros [] |].
          intros a Ha [<-|[]]. contradiction. }
      rewrite map_app, <- app_assoc. cbn [map fst snd app]. f_equal.
      * apply map_ext_in. intros [k' c'] Hin. cbn [fst snd mem_str existsb].
        destruct (String.eqb_spec k' k) as [->|_]; [|reflexivity].
        exfalso. apply Hk'. apply in_map_iff. now exists (k, c').
      * destruct (mem_str k ks) eqn:Em; [apply mem_str_In in Em; contradiction|].
        cbn [app]. do 2 f_equal. apply filter_ext_in. intros k' Hin. f_equal.
        unfold mem_str. rewrite map_app, existsb_app. cbn [map fst existsb].
        destruct (String.eqb_spec k' k) as [->|_]; [contradiction|].
        now rewrite !orb_false_r.
Qed.

Lemma leaderboard_counters (issues prs ks_i ks_p : list string) :
  NoDup ks_i -> NoDup ks_p ->
  (forall k, In k ks_i <-> In k issues) ->
  (forall k, In k ks_p <-> In k prs) ->
  fold_left (counters_record false) (map (fun k => (k, occurrences k prs)) ks_p)
            (fold_left (counters_record true)
                       (map (fun k => (k, occurrences k issues)) ks_i) [])
  = map (fun k => (k, (occurrences k issues, occurrences k prs)))
        (ks_i ++ filter (fun k => negb (mem_str k ks_i)) ks_p).
Proof.
  intros Hi Hp Ini Inp.
  rewrite (fold_counters_record true _ ks_i Hi []) by constructor.
  cbn [map app mem_str existsb negb]. rewrite filter_true.
  cbn [set_counter fst snd].
  rewrite (fold_counters_record false _ ks_p Hp).
  2:{ rewrite map_map. cbn [fst]. now rewrite map_id. }
  rewrite !map_map. cbn [fst snd set_counter]. rewrite map_id, map_app. f_equal.
  - apply map_ext. intro k. destruct (mem_str k ks_p) eqn:E; [reflexivity|].
    rewrite (occurrences_absent k prs); [reflexivity|].
    intro H. apply Inp, mem_str_In in H. congruence.
  - apply map_ext_in. intros k Hk. apply filter_In in Hk. destruct Hk as [_ Hk].
    rewrite (occurrences_absent k issues); [reflexivity|].
    intro H. apply Ini, mem_str_In in H. rewrite H in Hk. discriminate Hk.
Qed.

Lemma tally_columns_fold (data : counters) :
  fold_left (fun seen d => union_keys seen (dict_keys d)) (map snd (tally_of data))
            ["Issues"; "PRs"]
  = ["Issues"; "PRs"].
Proof. induction data as [|e data IH]; [reflexivity|]. exact IH. Qed.

Lemma frame_from_tally_of (e : string * (Z * Z)) (data : counters) :
  frame_from_tally (tally_of (e :: data))
  = mkDF ["index"; "Issues"; "PRs"]
         (map (fun e => [ ("index", VStr (fst e));
                          ("Issues", VInt (fst (snd e)));
                          ("PRs", VInt (snd (snd e))) ])
              (e :: data)).
Proof.
  unfold frame_from_tally, records_columns.
  change (fold_left _ (map snd (tally_of (e :: data))) [])
    with (fold_left (fun seen d => union_keys seen (dict_keys d))
                    (map snd (tally_of data)) ["Issues"; "PRs"]).
  rewrite tally_columns_fold. f_equal.
  unfold tally_of. rewrite map_map. reflexivity.
Qed.

Lemma df_set_columns_top st names d :
  List.length names = List.length (df_columns d) ->
  df_set_columns (List.length st) names (st ++ [d])
  = (inr tt, st ++ [mkDF names (map (rename_row names) (df_rows d))]).
Proof.
  intro H. unfold df_set_columns.
  rewrite (bind_run _ _ _ _ _ (load_run _ _ _ (nth_error_top st d))).
  apply Nat.eqb_eq in H. rewrite H. apply store_top.
Qed.

(** Sorting by a column whose cells are all integers. *)
Lemma frame_sort_values_ints {A} c ascending cols (row : A -> dict) (key : A -> Z) l :
  (forall x, row_get c VNaN (row x) = VInt (key x)) ->
  frame_sort_values c ascending (mkDF cols (map row l))
  = mkDF cols
         (map row (sort_by (fun a b => if ascending then key a <=? key b
                                        else key b <=? key a) l)).
Proof.
  intro Hkey. unfold frame_sort_values. cbn [df_columns df_rows]. f_equal.
  rewrite (filter_ext_in _ (fun _ => true)), filter_true
    by (intros r Hr; apply in_map_iff in Hr; destruct Hr as (x & <- & _);
        now rewrite Hkey).
  rewrite (filter_ext_in _ (fun _ => false)), filter_false, app_nil_r
    by (intros r Hr; apply in_map_iff in Hr; destruct Hr as (x & <- & _);
        now rewrite Hkey).
  rewrite sort_by_map. f_equal. apply sort_by_ext. intros x y _ _.
  rewrite !Hkey. now destruct ascending.
Qed.

Lemma Sorted_impl {A} (R1 R2 : A -> A -> Prop) l :
  (forall x y, R1 x y -> R2 x y) -> Sorted R1 l -> Sorted R2 l.
Proof.
  intros H. induction 1 as [|x l Hl IH Hx]; constructor; [exact IH|].
  destruct Hx; constructor. now apply H.
Qed.

Lemma value_counts_nil : value_counts [] = [].
Proof. reflexivity. Qed.

Lemma issue_contributions_run issues field data st r :
  nth_error st r = Some (frame_of_records (map get_issue_data issues)) ->
  count_contributions r field data st
  = (inr (fold_left (record_count field)
                    (value_counts (map VStr (map issue_login issues))) data), st).
Proof.
  intro Hst. unfold count_contributions. destruct issues as [|i l].
  - run_step. run_step. reflexivity.
  - rewrite frame_of_issues in Hst. run_step. run_step.
    rewrite frame_empty_map by discriminate. cbv iota.
    change (has_column "user" _) with true. cbn [negb andb].
    run_step. frame_norm.
    rewrite (map_ext _ (fun x => VStr (issue_login x)))
      by (intros [? ? ? ? ? [u|] ? ?]; reflexivity).
    reflexivity.
Qed.

Lemma pr_contributions_run prs field data st r :
  nth_error st r = Some (frame_of_records (map get_pr_data prs)) ->
  count_contributions r field data st
  = (inr (fold_left (record_count field)
                    (value_counts (map VStr (map pr_login prs))) data), st).
Proof.
  intro Hst. unfold count_contributions. destruct prs as [|p l].
  - run_step. run_step. reflexivity.
  - rewrite frame_of_prs in Hst. run_step. run_step.
    rewrite frame_empty_map by discriminate. cbv iota.
    change (has_column "user" _) with true. cbn [negb andb].
    run_step. frame_norm.
    rewrite (map_ext _ (fun x => VStr (pr_login x)))
      by (intros [? ? ? ? ? ? [u|] ? ? ? ? ?]; reflexivity).
    reflexivity.
Qed.


(** The table built from a tally that is not empty. *)
Lemma leaderboard_table_run (e : string * (Z * Z)) (data : counters) st :
  returned
    ((leaderboard_df <- alloc (frame_from_tally (tally_of (e :: data))) ;;
      df_set_columns leaderboard_df ["Contributor"; "Issues"; "PRs"] ;;;
      issues <- df_getitem leaderboard_df "Issues" ;;
      prs <- df_getitem leaderboard_df "PRs" ;;
      df_setitem leaderboard_df "Total" (zip_with add_cells issues prs) ;;;
      df_sort_values leaderboard_df "Total" false) st)
  = Some (mkDF ["Contributor"; "Issues"; "PRs"; "Total"]
               (map counters_row
                    (sort_by (fun a b => fst (snd b) + snd (snd b)
                                         <=? fst (snd a) + snd (snd a))
                             (e :: data)))).
Proof.
  rewrite frame_from_tally_of. set (items := e :: data).
  erewrite bind_run by reflexivity.
  erewrite bind_run by (apply df_set_columns_top; reflexivity).
  cbn [df_rows]. rewrite map_map. cbn [rename_row zip_with snd].
  run_step. frame_norm.
  run_step. frame_norm.
  rewrite zip_with_map. cbn [add_cells].
  run_step. frame_norm.
  erewrite df_sort_values_run by (try lookup; reflexivity).
  cbn [returned]. rewrite nth_error_top. f_equal.
  apply (frame_sort_values_ints "Total" false _ _
           (fun x => fst (snd x) + snd (snd x))).
  reflexivity.
Qed.

(** C7: the leaderboard has exactly one row per distinct login seen in the
    issues or in the pull requests; the row gives the number of issues and
    of pull requests of that login (0 when it has none in a collection) and
    their sum as total; the rows are in descending order of total. *)
Theorem contributor_leaderboard :
  forall (issues : list Issue) (prs : list PullRequest) (st : Store),
    let issue_logins := map issue_login issues in
    let pr_logins := map pr_login prs in
    let total u := occurrences u issue_logins + occurrences u pr_logins in
    exists contributors,
      returned ((dfs <- frames_of (map get_issue_data issues) (map get_pr_data prs) ;;
                 create_contributor_leaderboard (fst dfs) (snd dfs)) st)
      = Some (mkDF ["Contributor"; "Issues"; "PRs"; "Total"]
                   (map (leaderboard_row issue_logins pr_logins) contributors))
      /\ NoDup contributors
      /\ (forall u, In u contributors <-> In u issue_logins \/ In u pr_logins)
      /\ Sorted (fun u v => total v <= total u) contributors.
Proof.
  intros issues prs st issue_logins pr_logins total.
  destruct (value_counts_strs issue_logins) as (ks_i & Hvi & Hni & Ini).
  destruct (value_counts_strs pr_logins) as (ks_p & Hvp & Hnp & Inp).
  set (keys := ks_i ++ filter (fun k => negb (mem_str k ks_i)) ks_p).
  set (leq := fun u v => total v <=? total u).
  exists (sort_by leq keys).
  assert (Hkeys : NoDup keys /\ forall u, In u keys <-> In u issue_logins \/ In u pr_logins).
  { split.
    - apply NoDup_app; [exact Hni | apply NoDup_filter, Hnp |].
      intros k Hk Hf. apply filter_In in Hf. destruct Hf as [_ Hf].
      apply mem_str_In in Hk. rewrite Hk in Hf. discriminate Hf.
    - intro u. unfold keys. rewrite in_app_iff, filter_In, Ini, Inp. split.
      + tauto.
      + intros [H|H]; [now left|].
        destruct (mem_str u ks_i) eqn:E.
        * left. now apply Ini, mem_str_In.
        * right. now split. }
  destruct Hkeys as [Hnd Hin].
  split; [| split; [| split]].
  - run_step. cbn [fst snd]. unfold create_contributor_leaderboard.
    erewrite bind_run by (apply issue_contributions_run; lookup).
    erewrite bind_run by (apply pr_contributions_run; lookup).
    fold issue_logins pr_logins. rewrite Hvi, Hvp.
    rewrite <- (map_map (fun k => (k, occurrences k issue_logins))
                        (fun it => (VStr (fst it), snd it))).
    rewrite <- (map_map (fun k => (k, occurrences k pr_logins))
                        (fun it => (VStr (fst it), snd it))).
    change (@nil (value * dict)) with (tally_of []).
    rewrite (fold_record_count_of true), (fold_record_count_of false).
    rewrite (leaderboard_counters issue_logins pr_logins ks_i ks_p) by assumption.
    fold keys.
    destruct keys as [|k keys'] eqn:Ekeys.
    + cbn [map tally_of sort_by]. rewrite pd_DataFrame_columns.
      cbn [returned]. now rewrite nth_error_top.
    + match goal with
      | |- returned (_ ?s) = _ =>
          etransitivity;
          [ exact (leaderboard_table_run
                     (k, (occurrences k issue_logins, occurrences k pr_logins))
                     (map (fun k => (k, (occurrences k issue_logins,
                                         occurrences k pr_logins))) keys') s) |]
      end.
      f_equal. f_equal.
      rewrite <- (map_cons (fun k => (k, (occurrences k issue_logins,
                                          occurrences k pr_logins)))).
      rewrite sort_by_map, map_map. reflexivity.
  - apply (Permutation_NoDup (l := keys)); [symmetry; apply sort_by_perm | exact Hnd].
  - intro u. rewrite sort_by_In. apply Hin.
  - apply (Sorted_impl (fun u v => leq u v = true)).
    + intros u v H. apply Z.leb_le in H. exact H.
    + apply sort_by_sorted. intros u v H. unfold leq in *.
      apply Z.leb_gt in H. apply Z.leb_le. lia.
Qed.


Lemma contributor_leaderboard_witness :
  exists contributors,
    returned ((dfs <- frames_of (map get_issue_data leaderboard_issues)
                                (map get_pr_data leaderboard_prs) ;;
               create_contributor_leaderboard (fst dfs) (snd dfs)) [])
    = Some (mkDF ["Contributor"; "Issues"; "PRs"; "Total"]
                 (map (leaderboard_row (map issue_login leaderboard_issues)
                                       (map pr_login leaderboard_prs))
                      contributors))
    /\ NoDup contributors
    /\ (forall u, In u contributors
                  <-> In u (map issue_login leaderboard_issues)
                      \/ In u (map pr_login leaderboard_prs))
    /\ Sorted (fun u v =>
                 occurrences v (map issue_login leaderboard_issues)
                 + occurrences v (map pr_login leaderboard_prs)
                 <= occurrences u (map issue_login leaderboard_issues)
                    + occurrences u (map pr_login leaderboard_prs))
              contributors.
Proof. exact (contributor_leaderboard leaderboard_issues leaderboard_prs []). Defined.

(** The example of the specification: alice 2 + 1, bob 0 + 3. *)
Remark leaderboard_of_spec_example :
  returned ((dfs <- frames_of (map get_issue_data leaderboard_issues)
                              (map get_pr_data leaderboard_prs) ;;
             create_contributor_leaderboard (fst dfs) (snd dfs)) [])
  = Some (mkDF ["Contributor"; "Issues"; "PRs"; "Total"]
               [ [ ("Contributor", VStr "alice"); ("Issues", VInt 2);
                   ("PRs", VInt 1); ("Total", VInt 3) ];
                 [ ("Contributor", VStr "bob"); ("Issues", VInt 0);
                   ("PRs", VInt 3); ("Total", VInt 3) ] ]).
Proof. vm_compute. reflexivity. Qed.

(* ================================================================== *)
(** * Further properties of the methods *)


(* ------------------------------------------------------------------ *)
(** ** calculate_kpis: the whole dictionary *)

Lemma count_where_items {A} st df c p cols (row : A -> dict) (sel : A -> bool) items :
  nth_error st df = Some (mkDF cols (map row items)) ->
  mem_str c cols = true ->
  (forall x, p (row_get c VNaN (row x)) = sel x) ->
  count_where df c p st
  = (inr (count_of sel items), st ++ [mkDF cols (map row (filter sel items))]).
Proof.
  intros H Hc Hsel.
  rewrite (count_where_run st df c p _ H Hc).
  rewrite column_values_map, map_map, frame_mask_map.
  rewrite (filter_ext _ sel) by apply Hsel.
  cbn [df_rows]. unfold count_of. now rewrite length_map.
Qed.

Lemma issue_state_open i : eq_str "open" (row_get "state" VNaN (get_issue_data i)) = is_open i.
Proof. now destruct i as [? ? [] ? ? ? ? ?]. Qed.

Lemma issue_state_closed i :
  eq_str "closed" (row_get "state" VNaN (get_issue_data i)) = is_closed i.
Proof. now destruct i as [? ? [] ? ? ? ? ?]. Qed.

Lemma pr_state_open p : eq_str "open" (row_get "state" VNaN (get_pr_data p)) = pr_is_open p.
Proof. now destruct p as [? ? [] ? ? ? ? ? ? ? ? ?]. Qed.

Lemma pr_merged_flag p : eq_true (row_get "merged" VNaN (get_pr_data p)) = pr_merged p.
Proof. reflexivity. Qed.

Lemma issue_average_run parse issues st r :
  nth_error st r = Some (mkDF issue_columns (map get_issue_data issues)) ->
  Forall (fun i => issue_in_bounds i = true) issues ->
  exists extra,
    average_days parse r "state" (eq_str "closed") "closed_at" "resolution_time" st
    = (inr (average_of is_closed issue_created_at issue_closed_at issues), st ++ extra).
Proof.
  intros Hst Hb.
  apply (average_days_run parse issues get_issue_data issue_columns);
    try reflexivity; try assumption.
  - apply issue_state_closed.
  - eapply Forall_impl; [|exact Hb]. intros i Hi. now apply andb_true_iff in Hi.
  - eapply Forall_impl; [|exact Hb]. intros i Hi. now apply andb_true_iff in Hi.
Qed.

Lemma pr_average_run parse prs st r :
  nth_error st r = Some (mkDF pr_columns (map get_pr_data prs)) ->
  Forall (fun p => pr_in_bounds p = true) prs ->
  exists extra,
    average_days parse r "merged" eq_true "merged_at" "merge_time" st
    = (inr (average_of pr_merged pr_created_at pr_merged_at prs), st ++ extra).
Proof.
  intros Hst Hb.
  apply (average_days_run parse prs get_pr_data pr_columns);
    try reflexivity; try assumption.
  - eapply Forall_impl; [|exact Hb]. intros p Hp. unfold pr_in_bounds in Hp.
    apply andb_true_iff in Hp. destruct Hp as [Hp _]. now apply andb_true_iff in Hp.
  - eapply Forall_impl; [|exact Hb]. intros p Hp. unfold pr_in_bounds in Hp.
    now apply andb_true_iff in Hp.
Qed.

Ltac run_count_items lem :=
  erewrite bind_run
    by (eapply count_where_items; [lookup | reflexivity | apply lem]).

Lemma calculate_kpis_run parse issues prs st :
  Forall (fun i => issue_in_bounds i = true) issues ->
  Forall (fun p => pr_in_bounds p = true) prs ->
  exists st',
    (dfs <- frames_of (map get_issue_data issues) (map get_pr_data prs) ;;
     calculate_kpis parse (fst dfs) (snd dfs)) st = (inr (kpis_of issues prs), st').
Proof.
  intros Hbi Hbp.
  run_step. cbn [fst snd]. unfold calculate_kpis, kpis_of.
  destruct issues as [|i issues'], prs as [|p prs'].
  - change (frame_of_records (map get_issue_data [])) with (mkDF [] []).
    change (frame_of_records (map get_pr_data [])) with (mkDF [] []).
    run_step. run_step. cbn [frame_empty df_columns negb andb].
    do 5 (erewrite bind_run by reflexivity).
    run_step.
    erewrite bind_run by reflexivity.
    run_step. run_step.
    erewrite bind_run by reflexivity.
    run_step. run_step.
    erewrite bind_run by reflexivity.
    eexists. reflexivity.
  - rewrite frame_of_prs. set (prs := p :: prs') in *.
    run_step. run_step. rewrite frame_empty_map by discriminate.
    change (frame_empty (frame_of_records (map get_issue_data []))) with true.
    subst prs. cbv iota. cbn [negb andb]. set (prs := p :: prs') in *.
    erewrite bind_run by reflexivity.
    run_step.
    erewrite bind_run by reflexivity.
    run_count_items pr_state_open.
    erewrite bind_run by reflexivity.
    run_step. change (has_column "merged" _) with true. cbv iota.
    run_count_items pr_merged_flag.
    run_step. run_step.
    erewrite bind_run by reflexivity.
    run_step. run_step.
    change (has_column "created_at" _) with true.
    change (has_column "merged_at" _) with true. cbn [negb andb].
    run_average pr_average_run Hbp.
    cbn [df_rows]. rewrite ?length_map.
    eexists. reflexivity.
  - rewrite frame_of_issues. set (issues := i :: issues') in *.
    run_step. run_step. rewrite frame_empty_map by discriminate.
    change (frame_empty (frame_of_records (map get_pr_data []))) with true.
    subst issues. cbv iota. cbn [negb andb]. set (issues := i :: issues') in *.
    run_step.
    erewrite bind_run by reflexivity.
    run_count_items issue_state_open.
    erewrite bind_run by reflexivity.
    run_count_items issue_state_closed.
    run_step.
    erewrite bind_run by reflexivity.
    run_step. run_step.
    change (has_column "created_at" _) with true.
    change (has_column "closed_at" _) with true. cbn [negb andb].
    run_average issue_average_run Hbi.
    run_step. run_step.
    erewrite bind_run by reflexivity.
    cbn [df_rows]. rewrite ?length_map.
    eexists. reflexivity.
  - rewrite frame_of_issues, frame_of_prs.
    set (issues := i :: issues') in *. set (prs := p :: prs') in *.
    run_step. run_step. rewrite !frame_empty_map by discriminate.
    subst issues prs. cbv iota. cbn [negb andb].
    set (issues := i :: issues') in *. set (prs := p :: prs') in *.
    run_step. run_step.
    run_count_items issue_state_open.
    run_count_items pr_state_open.
    run_count_items issue_state_closed.
    run_step. change (has_column "merged" _) with true. cbv iota.
    run_count_items pr_merged_flag.
    run_step. run_step.
    change (has_column "created_at" _) with true.
    change (has_column "closed_at" _) with true. cbn [negb andb].
    run_average issue_average_run Hbi.
    run_step. run_step.
    change (has_column "created_at" _) with true.
    change (has_column "merged_at" _) with true. cbn [negb andb].
    run_average pr_average_run Hbp.
    cbn [df_rows]. rewrite ?length_map.
    eexists. reflexivity.
Qed.

Lemma open_or_closed issues :
  count_of is_open issues + count_of is_closed issues = Z.of_nat (List.length issues).
Proof.
  unfold count_of. induction issues as [|i l IH]; [reflexivity|].
  cbn [filter List.length]. unfold is_open, is_closed in *.
  destruct (issue_state i); cbn [List.length]; lia.
Qed.

(** X1: on fetched issues and pull requests whose instants pandas can
    represent, [calculate_kpis] returns a dictionary of exactly eight
    entries; [total_issues] and [total_prs] are the sizes of the two
    collections, [open_issues], [closed_issues] and [open_prs] count the
    items by state, [merged_prs] counts the pull requests whose [merged]
    flag is set, and the open and the closed issues add up to the total. *)
Theorem kpis_counts :
  forall (parse_datetime : string -> option Z) (issues : list Issue)
         (prs : list PullRequest) (st : Store),
    Forall (fun i => issue_in_bounds i = true) issues ->
    Forall (fun p => pr_in_bounds p = true) prs ->
    exists kpis st',
      (dfs <- frames_of (map get_issue_data issues) (map get_pr_data prs) ;;
       calculate_kpis parse_datetime (fst dfs) (snd dfs)) st = (inr kpis, st')
      /\ dict_keys kpis
         = ["total_issues"; "total_prs"; "open_issues"; "open_prs"; "closed_issues";
            "merged_prs"; "avg_issue_resolution_days"; "avg_pr_merge_days"]
      /\ dict_get "total_issues" kpis = Some (VInt (Z.of_nat (List.length issues)))
      /\ dict_get "total_prs" kpis = Some (VInt (Z.of_nat (List.length prs)))
      /\ dict_get "open_issues" kpis = Some (VInt (count_of is_open issues))
      /\ dict_get "closed_issues" kpis = Some (VInt (count_of is_closed issues))
      /\ dict_get "open_prs" kpis = Some (VInt (count_of pr_is_open prs))
      /\ dict_get "merged_prs" kpis = Some (VInt (count_of pr_merged prs))
      /\ count_of is_open issues + count_of is_closed issues
         = Z.of_nat (List.length issues).
Proof.
  intros parse issues prs st Hbi Hbp.
  destruct (calculate_kpis_run parse issues prs st Hbi Hbp) as [st' Hrun].
  exists (kpis_of issues prs), st'. split; [exact Hrun|].
  repeat split. apply open_or_closed.
Qed.

Lemma kpis_counts_witness :
  exists kpis st',
    (dfs <- frames_of (map get_issue_data [aged_issue; closed_issue])
                      (map get_pr_data leaderboard_prs) ;;
     calculate_kpis (fun _ => None) (fst dfs) (snd dfs)) [] = (inr kpis, st')
    /\ dict_keys kpis
       = ["total_issues"; "total_prs"; "open_issues"; "open_prs"; "closed_issues";
          "merged_prs"; "avg_issue_resolution_days"; "avg_pr_merge_days"]
    /\ dict_get "total_issues" kpis = Some (VInt 2)
    /\ dict_get "total_prs" kpis = Some (VInt 4)
    /\ dict_get "open_issues" kpis = Some (VInt 1)
    /\ dict_get "closed_issues" kpis = Some (VInt 1)
    /\ dict_get "open_prs" kpis = Some (VInt 4)
    /\ dict_get "merged_prs" kpis = Some (VInt 0)
    /\ 1 + 1 = 2.
Proof.
  apply (kpis_counts (fun _ => None) [aged_issue; closed_issue] leaderboard_prs []);
    repeat constructor.
Defined.

(** X2: on the same inputs, [avg_pr_merge_days] is the arithmetic mean of
    [(merged_at - created_at)] in days over exactly the pull requests whose
    [merged] flag is set and whose [merged_at] is present, and the integer 0
    when there is no such pull request. *)
Theorem average_pr_merge :
  forall (parse_datetime : string -> option Z) (issues : list Issue)
         (prs : list PullRequest) (st : Store),
    Forall (fun i => issue_in_bounds i = true) issues ->
    Forall (fun p => pr_in_bounds p = true) prs ->
    exists kpis st',
      (dfs <- frames_of (map get_issue_data issues) (map get_pr_data prs) ;;
       calculate_kpis parse_datetime (fst dfs) (snd dfs)) st = (inr kpis, st')
      /\ dict_get "avg_pr_merge_days" kpis
         = Some (if existsb merged_with_time prs
                 then VFloat (mean (map merge_days (filter merged_with_time prs)))
                 else VInt 0).
Proof.
  intros parse issues prs st Hbi Hbp.
  destruct (calculate_kpis_run parse issues prs st Hbi Hbp) as [st' Hrun].
  exists (kpis_of issues prs), st'. split; [exact Hrun | reflexivity].
Qed.

Lemma average_pr_merge_witness :
  exists kpis st',
    (dfs <- frames_of (map get_issue_data []) (map get_pr_data merged_examples) ;;
     calculate_kpis (fun _ => None) (fst dfs) (snd dfs)) [] = (inr kpis, st')
    /\ dict_get "avg_pr_merge_days" kpis
       = Some (VFloat (mean [days_from_to 0 (2 * ns_per_day);
                             days_from_to ns_per_day (5 * ns_per_day)])).
Proof.
  apply (average_pr_merge (fun _ => None) [] merged_examples []); repeat constructor.
Defined.
(* ------------------------------------------------------------------ *)
(** ** Empty tables *)


Ltac run_pure := erewrite bind_run by reflexivity.

Lemma bind_assoc {A B C} (m : M A) (f : A -> M B) (g : B -> M C) st :
  bind (bind m f) g st = bind m (fun x => bind (f x) g) st.
Proof. unfold bind. destruct (m st) as [[e|a] st']; reflexivity. Qed.

Lemma bind_ret {A B} (a : A) (k : A -> M B) st : bind (ret a) k st = k a st.
Proof. reflexivity. Qed.

Ltac run_guards Ei Ep :=
  repeat first [ rewrite bind_assoc
               | rewrite bind_ret
               | run_step; rewrite ?Ei, ?Ep; cbn [negb andb orb] ].

(** X3: on two empty tables (no rows, as when the repository has no item in
    the window) every method takes its guard: each of the seven tables comes
    back with its fixed columns and no row, and every KPI is the integer 0;
    nothing is raised. *)
Theorem empty_tables_give_empty_results :
  forall (parse_datetime : string -> option Z) (st : Store) (issues_df prs_df : ref)
         (di dp : DataFrame) (start_date end_date now : Z),
    nth_error st issues_df = Some di ->
    nth_error st prs_df = Some dp ->
    frame_empty di = true ->
    frame_empty dp = true ->
    returned (extract_labels_frequency issues_df prs_df st)
    = Some (mkDF ["Label"; "Count"] [])
    /\ returned (create_contributor_leaderboard issues_df prs_df st)
       = Some (mkDF ["Contributor"; "Issues"; "PRs"; "Total"] [])
    /\ returned (extract_pr_issue_linkage prs_df st)
       = Some (mkDF ["PR Number"; "PR Title"; "Linked Issues"] [])
    /\ returned (create_timeline_data parse_datetime issues_df prs_df st)
       = Some (mkDF ["Date"; "Issues"; "PRs"; "Total"] [])
    /\ returned (create_throughput_data parse_datetime issues_df prs_df start_date end_date st)
       = Some (mkDF ["Period"; "Closed_Issues"; "Merged_PRs"] [])
    /\ returned (create_cycle_time_data parse_datetime prs_df start_date end_date st)
       = Some (mkDF ["Period"; "Avg_Cycle_Time_Days"] [])
    /\ returned (create_issue_aging_data parse_datetime issues_df now st)
       = Some (mkDF ["Age_Bucket"; "Count"] [])
    /\ fst (calculate_kpis parse_datetime issues_df prs_df st)
       = inr [ ("total_issues", VInt 0); ("total_prs", VInt 0);
               ("open_issues", VInt 0); ("open_prs", VInt 0);
               ("closed_issues", VInt 0); ("merged_prs", VInt 0);
               ("avg_issue_resolution_days", VInt 0);
               ("avg_pr_merge_days", VInt 0) ].
Proof.
  intros parse st issues_df prs_df di dp start_date end_date now Hi Hp Ei Ep.
  repeat split.
  - unfold extract_labels_frequency, collect_labels.
    run_guards Ei Ep.
    run_guards Ei Ep.
    rewrite pd_DataFrame_columns. cbn [returned]. now rewrite nth_error_top.
  - unfold create_contributor_leaderboard, count_contributions.
    run_guards Ei Ep.
    run_guards Ei Ep.
    rewrite pd_DataFrame_columns. cbn [returned]. now rewrite nth_error_top.
  - unfold extract_pr_issue_linkage.
    run_guards Ei Ep.
    rewrite pd_DataFrame_columns. cbn [returned]. now rewrite nth_error_top.
  - unfold create_timeline_data, timeline_issues, timeline_prs.
    run_guards Ei Ep.
    run_guards Ei Ep.
    rewrite pd_DataFrame_columns. cbn [returned]. now rewrite nth_error_top.
  - unfold create_throughput_data, throughput_closed_issues, throughput_merged_prs.
    run_guards Ei Ep.
    run_guards Ei Ep.
    rewrite pd_DataFrame_columns. cbn [returned]. now rewrite nth_error_top.
  - unfold create_cycle_time_data, empty_cycle_time.
    run_guards Ei Ep.
    rewrite pd_DataFrame_columns. cbn [returned]. now rewrite nth_error_top.
  - unfold create_issue_aging_data.
    run_guards Ei Ep.
    rewrite pd_DataFrame_columns. cbn [returned]. now rewrite nth_error_top.
  - unfold calculate_kpis.
    run_guards Ei Ep.
    reflexivity.
Qed.

Lemma empty_tables_give_empty_results_witness :
  returned (extract_labels_frequency 0%nat 1%nat empty_store)
  = Some (mkDF ["Label"; "Count"] [])
  /\ returned (create_contributor_leaderboard 0%nat 1%nat empty_store)
     = Some (mkDF ["Contributor"; "Issues"; "PRs"; "Total"] [])
  /\ returned (extract_pr_issue_linkage 1%nat empty_store)
     = Some (mkDF ["PR Number"; "PR Title"; "Linked Issues"] [])
  /\ returned (create_timeline_data (fun _ => None) 0%nat 1%nat empty_store)
     = Some (mkDF ["Date"; "Issues"; "PRs"; "Total"] [])
  /\ returned (create_throughput_data (fun _ => None) 0%nat 1%nat 0 ns_per_day empty_store)
     = Some (mkDF ["Period"; "Closed_Issues"; "Merged_PRs"] [])
  /\ returned (create_cycle_time_data (fun _ => None) 1%nat 0 ns_per_day empty_store)
     = Some (mkDF ["Period"; "Avg_Cycle_Time_Days"] [])
  /\ returned (create_issue_aging_data (fun _ => None) 0%nat ns_per_day empty_store)
     = Some (mkDF ["Age_Bucket"; "Count"] [])
  /\ fst (calculate_kpis (fun _ => None) 0%nat 1%nat empty_store)
     = inr [ ("total_issues", VInt 0); ("total_prs", VInt 0);
             ("open_issues", VInt 0); ("open_prs", VInt 0);
             ("closed_issues", VInt 0); ("merged_prs", VInt 0);
             ("avg_issue_resolution_days", VInt 0);
             ("avg_pr_merge_days", VInt 0) ].
Proof.
  exact (empty_tables_give_empty_results (fun _ => None) empty_store 0%nat 1%nat
           no_items no_items 0 ns_per_day ns_per_day
           eq_refl eq_refl eq_refl eq_refl).
Defined.
(* ------------------------------------------------------------------ *)
(** ** The unguarded [state] column *)


Lemma df_getitem_missing st r c d :
  nth_error st r = Some d -> has_column c d = false ->
  df_getitem r c st = (inl (KeyError c), st).
Proof.
  intros H Hc. unfold df_getitem.
  rewrite (bind_run _ _ _ _ _ (load_run _ _ _ H)). now rewrite Hc.
Qed.

Ltac run_missing :=
  erewrite bind_raise by (eapply df_getitem_missing; [lookup | eassumption]).

(** X4: three methods index the [state] column of the issues table without
    checking that it exists.  On a non-empty issues table that has no
    [state] column, [calculate_kpis] raises KeyError('state'); so does
    [create_throughput_data] when the table has a [closed_at] column, and
    [create_issue_aging_data] when it has a [created_at] column. *)
Theorem missing_state_column_raises :
  forall (parse_datetime : string -> option Z) (st : Store) (issues_df prs_df : ref)
         (di dp : DataFrame) (start_date end_date now : Z),
    nth_error st issues_df = Some di ->
    nth_error st prs_df = Some dp ->
    frame_empty di = false ->
    has_column "state" di = false ->
    fst (calculate_kpis parse_datetime issues_df prs_df st) = inl (KeyError "state")
    /\ (has_column "closed_at" di = true ->
        fst (create_throughput_data parse_datetime issues_df prs_df start_date end_date st)
        = inl (KeyError "state"))
    /\ (has_column "created_at" di = true ->
        fst (create_issue_aging_data parse_datetime issues_df now st)
        = inl (KeyError "state")).
Proof.
  intros parse st issues_df prs_df di dp start_date end_date now Hi Hp Ei Hs.
  repeat split.
  - unfold calculate_kpis, count_where.
    run_step. run_step. rewrite Ei. cbn [negb].
    run_step.
    destruct (frame_empty dp); cbn [negb].
    + rewrite bind_ret. rewrite bind_assoc. run_missing. reflexivity.
    + run_step. rewrite bind_assoc. run_missing. reflexivity.
  - intro Hc. unfold create_throughput_data, throughput_closed_issues, window_counts.
    rewrite bind_assoc. run_step. rewrite bind_assoc. run_step.
    rewrite Ei, Hc. cbn [negb andb].
    rewrite !bind_assoc. run_missing. reflexivity.
  - intro Hc. unfold create_issue_aging_data.
    run_step. run_step. rewrite Ei, Hc. cbn [negb orb].
    run_missing. reflexivity.
Qed.

Lemma missing_state_column_raises_witness :
  fst (calculate_kpis (fun _ => None) 0%nat 1%nat stateless_store) = inl (KeyError "state")
  /\ fst (create_throughput_data (fun _ => None) 0%nat 1%nat 0 ns_per_day stateless_store)
     = inl (KeyError "state")
  /\ fst (create_issue_aging_data (fun _ => None) 0%nat ns_per_day stateless_store)
     = inl (KeyError "state").
Proof.
  destruct (missing_state_column_raises (fun _ => None) stateless_store 0%nat 1%nat
              (frame_of_records [stateless_issue]) (frame_of_records [])
              0 ns_per_day ns_per_day eq_refl eq_refl eq_refl eq_refl)
    as (Hkpis & Hthroughput & Haging).
  exact (conj Hkpis (conj (Hthroughput eq_refl) (Haging eq_refl))).
Defined.
(* ------------------------------------------------------------------ *)
(** ** extract_labels_frequency *)


Lemma extend_all_lists {A} (labels : A -> list string) l : forall acc,
  extend_all acc (map (fun x => VList (labels x)) l)
  = inr (acc ++ map VStr (flat_map labels l)).
Proof.
  induction l as [|x l IH]; intro acc; simpl.
  - now rewrite app_nil_r.
  - rewrite IH, map_app, app_assoc. reflexivity.
Qed.

Lemma issue_labels_run issues acc st r :
  nth_error st r = Some (frame_of_records (map get_issue_data issues)) ->
  collect_labels r (map VStr acc) st
  = (inr (map VStr (acc ++ flat_map issue_labels issues)), st).
Proof.
  intro Hst. unfold collect_labels. destruct issues as [|i l].
  - run_step. run_step. cbn [flat_map]. now rewrite app_nil_r.
  - rewrite frame_of_issues in Hst. run_step. run_step.
    rewrite frame_empty_map by discriminate. cbv iota.
    change (has_column "labels" _) with true. cbn [negb andb].
    run_step. frame_norm.
    rewrite (extend_all_lists issue_labels). cbn [lift].
    now rewrite map_app.
Qed.

Lemma pr_labels_run prs acc st r :
  nth_error st r = Some (frame_of_records (map get_pr_data prs)) ->
  collect_labels r (map VStr acc) st
  = (inr (map VStr (acc ++ flat_map pr_labels prs)), st).
Proof.
  intro Hst. unfold collect_labels. destruct prs as [|p l].
  - run_step. run_step. cbn [flat_map]. now rewrite app_nil_r.
  - rewrite frame_of_prs in Hst. run_step. run_step.
    rewrite frame_empty_map by discriminate. cbv iota.
    change (has_column "labels" _) with true. cbn [negb andb].
    run_step. frame_norm.
    rewrite (extend_all_lists pr_labels). cbn [lift].
    now rewrite map_app.
Qed.

(** X5: the label table of fetched issues and pull requests has exactly one
    row per distinct label name found on an issue or on a pull request; its
    count is the number of items carrying the label, both collections
    together; the rows are in descending order of count.  Without any label
    the table has the two columns and no row. *)
Theorem labels_frequency :
  forall (issues : list Issue) (prs : list PullRequest) (st : Store),
    let names := all_label_names issues prs in
    exists labels,
      returned ((dfs <- frames_of (map get_issue_data issues) (map get_pr_data prs) ;;
                 extract_labels_frequency (fst dfs) (snd dfs)) st)
      = Some (mkDF ["Label"; "Count"] (map (label_row names) labels))
      /\ NoDup labels
      /\ (forall k, In k labels <-> In k names)
      /\ Sorted (fun a b => occurrences b names <= occurrences a names) labels.
Proof.
  intros issues prs st names.
  destruct (value_counts_strs names) as (ks & Hvc & Hnd & Hin).
  set (leq := fun a b => occurrences b names <=? occurrences a names).
  exists (sort_by leq ks).
  split; [| split; [| split]].
  - run_step. cbn [fst snd]. unfold extract_labels_frequency.
    change (@nil value) with (map VStr []).
    erewrite bind_run by (apply issue_labels_run; lookup).
    erewrite bind_run by (apply pr_labels_run; lookup).
    cbn [app]. fold (all_label_names issues prs). fold names.
    remember (map VStr names) as cells eqn:Ec.
    destruct cells as [|v cells'].
    + rewrite pd_DataFrame_columns. cbn [returned]. rewrite nth_error_top.
      symmetry in Ec. apply map_eq_nil in Ec.
      destruct ks as [|k ks']; [reflexivity|].
      exfalso. rewrite Ec in Hin. apply (proj1 (Hin k)). now left.
    + rewrite Hvc.
      unfold counts_frame. rewrite map_map. cbn [fst snd].
      erewrite bind_run by reflexivity.
      erewrite df_sort_values_run by (try lookup; reflexivity).
      cbn [returned]. rewrite nth_error_top. f_equal.
      apply (frame_sort_values_ints "Count" false _ _ (fun k => occurrences k names)).
      reflexivity.
  - apply (Permutation_NoDup (l := ks)); [symmetry; apply sort_by_perm | exact Hnd].
  - intro k. rewrite sort_by_In. apply Hin.
  - apply (Sorted_impl (fun a b => leq a b = true)).
    + intros a b H. apply Z.leb_le in H. exact H.
    + apply sort_by_sorted. intros a b H. unfold leq in *.
      apply Z.leb_gt in H. apply Z.leb_le. lia.
Qed.

(** The labels column of a raw table: a cell that cannot be iterated. *)
Lemma extend_all_fails cells : forall acc,
  existsb (fun v => negb (iterable v)) cells = true ->
  extend_all acc cells = inl TypeError.
Proof.
  induction cells as [|v cells IH]; intros acc H; [discriminate H|].
  cbn [existsb] in H. cbn [extend_all].
  destruct v; cbn [iterate_cell iterable negb orb] in *; try reflexivity;
    now apply IH.
Qed.

Lemma union_keys_keeps ks : forall seen k, In k ks -> In k (union_keys seen ks).
Proof.
  induction ks as [|k' ks IH]; intros seen k H; [destruct H|].
  simpl. destruct H as [->|H].
  - destruct (mem_str k seen) eqn:E.
    + apply union_keys_incl. now apply mem_str_In.
    + apply union_keys_incl. apply in_or_app. right. now left.
  - destruct (mem_str k' seen); now apply IH.
Qed.

Lemma records_columns_fold_incl recs : forall seen k,
  In k seen ->
  In k (fold_left (fun seen d => union_keys seen (dict_keys d)) recs seen).
Proof.
  induction recs as [|d recs IH]; intros seen k H; [exact H|].
  simpl. apply IH. now apply union_keys_incl.
Qed.

Lemma records_columns_In recs item k :
  In item recs -> In k (dict_keys item) -> In k (records_columns recs).
Proof.
  unfold records_columns. generalize (@nil string) as seen.
  induction recs as [|d recs IH]; intros seen Hi Hk; [destruct Hi|].
  simpl. destruct Hi as [->|Hi].
  - apply records_columns_fold_incl. now apply union_keys_keeps.
  - now apply IH.
Qed.

Lemma dict_get_keys k d : dict_get k d <> None -> In k (dict_keys d).
Proof.
  induction d as [|[k' v] d IH]; simpl; [congruence|].
  destruct (String.eqb k k') eqn:E.
  - apply String.eqb_eq in E. now left.
  - intro H. right. now apply IH.
Qed.

Lemma row_get_align cols d k :
  In k cols -> row_get k VNaN (align_row cols d) = row_get k VNaN d.
Proof. intro H. unfold row_get at 1. now rewrite dict_get_align. Qed.

(** X6: the normaliser fills a missing field with NaN, and
    [extract_labels_frequency] iterates every cell of the [labels] column:
    when one raw issue carries no [labels] field while another one does, the
    method raises TypeError instead of returning a table. *)
Theorem labels_of_unlabelled_item_raise :
  forall (issues_data prs_data : list dict) (item other : dict) (st : Store),
    In item issues_data ->
    dict_get "labels" item = None ->
    In other issues_data ->
    dict_get "labels" other <> None ->
    fst ((dfs <- frames_of issues_data prs_data ;;
          extract_labels_frequency (fst dfs) (snd dfs)) st)
    = inl TypeError.
Proof.
  intros issues_data prs_data item other st Hitem Hnone Hother Hsome.
  run_step. cbn [fst snd]. unfold extract_labels_frequency, collect_labels.
  assert (Hcol : In "labels" (records_columns issues_data)).
  { eapply records_columns_In; [exact Hother | now apply dict_get_keys]. }
  assert (Hhas : has_column "labels" (frame_of_records issues_data) = true).
  { apply mem_str_In. exact Hcol. }
  assert (Hne : frame_empty (frame_of_records issues_data) = false).
  { unfold frame_empty, frame_of_records. cbn [df_columns df_rows].
    destruct (records_columns issues_data); [destruct Hcol|].
    destruct issues_data; [destruct Hitem | reflexivity]. }
  rewrite !bind_assoc. run_step. rewrite bind_assoc. run_step.
  rewrite Hne, Hhas. cbn [negb andb].
  rewrite bind_assoc. run_step.
  rewrite extend_all_fails; [reflexivity|].
  apply existsb_exists. exists VNaN. split; [|reflexivity].
  unfold column_values, frame_of_records. cbn [df_rows]. rewrite map_map.
  apply in_map_iff. exists item. split; [|exact Hitem].
  rewrite row_get_align by exact Hcol.
  unfold row_get. now rewrite Hnone.
Qed.

Lemma labels_of_unlabelled_item_raise_witness :
  fst ((dfs <- frames_of unlabelled_items [] ;;
        extract_labels_frequency (fst dfs) (snd dfs)) [])
  = inl TypeError.
Proof.
  apply (labels_of_unlabelled_item_raise
           unlabelled_items [] [("number", VInt 2)]
           [("number", VInt 1); ("labels", VList ["bug"])] []).
  - right. now left.
  - reflexivity.
  - now left.
  - discriminate.
Defined.
(* ------------------------------------------------------------------ *)
(** ** extract_pr_issue_linkage: every pull request *)








(* ------------------------------------------------------------------ *)
(** ** The scan of a body *)

Lemma match_one a re s cap :
  a_quant a = One ->
  match_here (a :: re) s cap
  = match s with
    | c :: s' => if class_match (a_class a) c
                 then match_here re s' (capture a c cap) else None
    | [] => None
    end.
Proof. destruct a as [cl q g]. cbn. intros ->. destruct s; reflexivity. Qed.

Lemma match_optional a re s cap :
  a_quant a = Optional ->
  match_here (a :: re) s cap
  = match s with
    | c :: s' =>
        if class_match (a_class a) c
        then match match_here re s' (capture a c cap) with
             | Some r => Some r
             | None => match_here re s cap
             end
        else match_here re s cap
    | [] => match_here re s cap
    end.
Proof. destruct a as [cl q g]. cbn. intros ->. destruct s; reflexivity. Qed.

Lemma match_plus a re s cap :
  a_quant a = Plus ->
  match_here (a :: re) s cap
  = match s with
    | c :: s' =>
        if class_match (a_class a) c
        then match match_here (a :: re) s' (capture a c cap) with
             | Some r => Some r
             | None => match_here re s' (capture a c cap)
             end
        else None
    | [] => None
    end.
Proof. destruct a as [cl q g]. cbn. intros ->. destruct s; reflexivity. Qed.

Lemma class_match_hash c : class_match (CChar "#") c = true -> c = "#"%char.
Proof.
  destruct c as [[] [] [] [] [] [] [] []]; vm_compute; intro H;
    try discriminate H; reflexivity.
Qed.

Lemma digits_stop s cap :
  match_here [mkAtom CDigit Plus true] s cap = None -> stops s.
Proof.
  rewrite match_plus by reflexivity. destruct s as [|c s]; [constructor|].
  cbn [a_class class_match stops]. destruct (is_digit c); [|reflexivity].
  destruct (match_here _ s _); discriminate.
Qed.

Lemma digits_sound s : forall cap cap' rest,
  match_here [mkAtom CDigit Plus true] s cap = Some (cap', rest) ->
  exists ds, s = ds ++ rest /\ cap' = cap ++ ds /\ ds <> [] /\ digits ds /\ stops rest.
Proof.
  induction s as [|c s IH]; intros cap cap' rest H;
    rewrite match_plus in H by reflexivity; [discriminate H|].
  cbn [a_class class_match capture a_group] in H.
  destruct (is_digit c) eqn:Ec; [|discriminate H].
  destruct (match_here [mkAtom CDigit Plus true] s (cap ++ [c])) as [r|] eqn:Em.
  - injection H as ->. apply IH in Em. destruct Em as (ds & -> & -> & _ & Hd & Hs).
    exists (c :: ds). rewrite <- app_assoc. repeat split; try assumption.
    + discriminate.
    + unfold digits. cbn [forallb]. now rewrite Ec.
  - cbn [match_here] in H. injection H as <- <-.
    exists [c]. repeat split.
    + discriminate.
    + unfold digits. cbn [forallb]. now rewrite Ec.
    + eapply digits_stop, Em.
Qed.

Lemma digits_complete ds : ds <> [] -> digits ds -> forall rest cap,
  stops rest ->
  match_here [mkAtom CDigit Plus true] (ds ++ rest) cap = Some (cap ++ ds, rest).
Proof.
  induction ds as [|c ds IH]; intros Hne Hd rest cap Hs; [congruence|].
  unfold digits in Hd. cbn [forallb] in Hd. apply andb_true_iff in Hd.
  destruct Hd as [Hc Hd].
  rewrite match_plus by reflexivity. cbn [app a_class class_match capture a_group].
  rewrite Hc. destruct ds as [|d ds].
  - cbn [app]. rewrite match_plus by reflexivity.
    destruct rest as [|r rest]; [reflexivity|].
    cbn [stops] in Hs. cbn [a_class class_match]. now rewrite Hs.
  - rewrite IH by (try discriminate; assumption).
    now rewrite <- app_assoc.
Qed.

Lemma match_hash_sound s cap rest :
  match_here hash_digits s [] = Some (cap, rest) ->
  s = "#"%char :: cap ++ rest /\ cap <> [] /\ digits cap /\ stops rest.
Proof.
  unfold hash_digits. rewrite match_one by reflexivity.
  destruct s as [|c s]; [discriminate|].
  cbn [a_class capture a_group].
  destruct (class_match (CChar "#") c) eqn:Ec; [|discriminate].
  apply class_match_hash in Ec. subst c. intro H.
  apply digits_sound in H. destruct H as (ds & -> & -> & Hne & Hd & Hs).
  cbn [app]. auto.
Qed.

Lemma match_hash_complete ds rest :
  ds <> [] -> digits ds -> stops rest ->
  match_here hash_digits ("#"%char :: ds ++ rest) [] = Some (ds, rest).
Proof.
  intros Hne Hd Hs. unfold hash_digits. rewrite match_one by reflexivity.
  cbn [a_class capture a_group].
  change (class_match (CChar "#") "#") with true. cbv iota.
  now rewrite digits_complete.
Qed.

(** A match of a pattern that ends with [#(\d+)] and has no other group:
    the group is a maximal run of digits after a [#] of the text. *)
Lemma match_reference re :
  Forall (fun a => a_group a = false) re ->
  forall s cap cap' rest,
    match_here (re ++ hash_digits) s cap = Some (cap', rest) ->
    exists pre ds,
      s = pre ++ "#"%char :: ds ++ rest /\ cap' = cap ++ ds
      /\ ds <> [] /\ digits ds /\ stops rest.
Proof.
  induction 1 as [|a re Ha Hre IH].
  - intros s cap cap' rest H. cbn [app] in H.
    unfold hash_digits in H. rewrite match_one in H by reflexivity.
    destruct s as [|c s]; [discriminate|].
    cbn [a_class capture a_group] in H.
    destruct (class_match (CChar "#") c) eqn:Ec; [|discriminate].
    apply class_match_hash in Ec. subst c.
    apply digits_sound in H. destruct H as (ds & -> & -> & Hne & Hd & Hs).
    exists [], ds. cbn [app]. auto.
  - assert (Hcap : forall c cap, capture a c cap = cap)
      by (intros; unfold capture; now rewrite Ha).
    assert (Hshift : forall c s cap cap' rest,
               match_here (re ++ hash_digits) s cap = Some (cap', rest) ->
               exists pre ds,
                 c :: s = pre ++ "#"%char :: ds ++ rest /\ cap' = cap ++ ds
                 /\ ds <> [] /\ digits ds /\ stops rest).
    { intros c s cap cap' rest H. apply IH in H.
      destruct H as (pre & ds & -> & H). exists (c :: pre), ds. now split. }
    cbn [app]. destruct (a_quant a) eqn:Q.
    + intros s cap cap' rest H. rewrite match_one in H by exact Q.
      destruct s as [|c s]; [discriminate|].
      destruct (class_match (a_class a) c); [|discriminate].
      rewrite Hcap in H. now apply Hshift.
    + intros s cap cap' rest H. rewrite match_optional in H by exact Q.
      destruct s as [|c s]; [now apply IH|].
      destruct (class_match (a_class a) c); [|now apply IH].
      rewrite Hcap in H.
      destruct (match_here (re ++ hash_digits) s cap) as [r|] eqn:Em.
      * injection H as ->. now apply Hshift.
      * now apply IH.
    + induction s as [|c s IHs]; intros cap cap' rest H;
        rewrite match_plus in H by exact Q; [discriminate H|].
      destruct (class_match (a_class a) c); [|discriminate].
      rewrite Hcap in H.
      destruct (match_here (a :: re ++ hash_digits) s cap) as [r|] eqn:Em.
      * injection H as ->. apply IHs in Em.
        destruct Em as (pre & ds & -> & Hr). exists (c :: pre), ds. now split.
      * now apply Hshift.
Qed.

Lemma occurs_app p s ds : occurs s ds -> occurs (p ++ s) ds.
Proof.
  intros (pre & rest & -> & H). exists (p ++ pre), rest.
  now rewrite <- app_assoc.
Qed.

Lemma findall_from_sound re :
  Forall (fun a => a_group a = false) re ->
  forall fuel s x,
    In x (findall_from fuel (re ++ hash_digits) s) -> occurs s x.
Proof.
  intros Hre. induction fuel as [|fuel IH]; intros s x H; [destruct H|].
  cbn [findall_from] in H. destruct s as [|c s]; [destruct H|].
  destruct (match_here (re ++ hash_digits) (c :: s) []) as [[cap rest]|] eqn:Em.
  - apply (match_reference re Hre) in Em.
    destruct Em as (pre & ds & Es & -> & Hne & Hd & Hs). cbn [app] in H.
    destruct H as [<-|H].
    + exists pre, rest. auto.
    + destruct (List.length rest <? List.length (c :: s))%nat.
      * apply IH in H. rewrite Es.
        replace (pre ++ "#"%char :: ds ++ rest)
          with ((pre ++ "#"%char :: ds) ++ rest)
          by (now rewrite <- app_assoc).
        now apply occurs_app.
      * apply IH in H. now apply (occurs_app [c]).
  - apply IH in H. now apply (occurs_app [c]).
Qed.

Lemma split_digits cap : digits cap -> forall pre t rest,
  cap ++ rest = pre ++ "#"%char :: t ->
  exists pre', pre = cap ++ pre' /\ rest = pre' ++ "#"%char :: t.
Proof.
  induction cap as [|a cap IH]; intros Hd pre t rest H.
  - exists pre. now split.
  - unfold digits in Hd. cbn [forallb] in Hd. apply andb_true_iff in Hd.
    destruct Hd as [Ha Hd]. destruct pre as [|b pre].
    + cbn [app] in H. injection H as -> _. discriminate Ha.
    + cbn [app] in H. injection H as -> H.
      destruct (IH Hd _ _ _ H) as (pre' & -> & ->). exists pre'. now split.
Qed.

Lemma findall_from_complete ds : forall fuel s,
  (List.length s < fuel)%nat -> occurs s ds ->
  In ds (findall_from fuel hash_digits s).
Proof.
  induction fuel as [|fuel IH]; intros s Hlen (pre & rest & -> & Hne & Hd & Hs);
    [inversion Hlen|].
  destruct pre as [|c pre].
  - cbn [app findall_from]. rewrite match_hash_complete by assumption. now left.
  - cbn [app findall_from].
    destruct (match_here hash_digits (c :: pre ++ "#"%char :: ds ++ rest) [])
      as [[cap rest']|] eqn:Em.
    + right. apply match_hash_sound in Em. destruct Em as (Es & Hne' & Hd' & Hs').
      injection Es as -> Es. symmetry in Es.
      destruct (split_digits cap Hd' _ _ _ Es) as (pre' & -> & ->).
      assert (Hshort : (List.length (pre' ++ "#"%char :: ds ++ rest)
                        <? List.length ("#"%char :: (cap ++ pre') ++ "#"%char :: ds ++ rest))%nat
                       = true).
      { apply Nat.ltb_lt. repeat (rewrite length_app || cbn [List.length]). lia. }
      rewrite Hshort. apply IH.
      * repeat (rewrite length_app in * || cbn [List.length] in * ). lia.
      * exists pre', rest. auto.
    + apply IH.
      * apply Nat.succ_lt_mono. exact Hlen.
      * exists pre, rest. auto.
Qed.

Lemma length_list_ascii s : List.length (list_ascii_of_string s) = String.length s.
Proof. induction s as [|c s IH]; simpl; [reflexivity | now rewrite IH]. Qed.

Lemma findall_hash body x : In x (findall hash_digits body) <-> references body x.
Proof.
  unfold findall, references. rewrite in_map_iff. split.
  - intros (ds & <- & H). exists ds. split; [reflexivity|].
    now apply (findall_from_sound [] (Forall_nil _)) in H.
  - intros (ds & -> & H). exists ds. split; [reflexivity|].
    apply findall_from_complete; [|exact H].
    rewrite length_list_ascii. lia.
Qed.

Lemma findall_keyword re body x :
  Forall (fun a => a_group a = false) re ->
  In x (findall (re ++ hash_digits) body) -> In x (findall hash_digits body).
Proof.
  intros Hre H. apply findall_hash. unfold findall in H.
  apply in_map_iff in H. destruct H as (ds & <- & H).
  exists ds. split; [reflexivity|]. now apply (findall_from_sound re Hre) in H.
Qed.

Lemma set_update_In items : forall set x,
  In x (set_update set items) <-> In x set \/ In x items.
Proof.
  unfold set_update. induction items as [|i items IH]; intros set x; cbn [fold_left].
  - cbn [In]. tauto.
  - rewrite IH. destruct (mem_str i set) eqn:E.
    + apply mem_str_In in E. cbn [In]. split; [tauto|].
      intros [H|[<-|H]]; auto.
    + rewrite in_app_iff. cbn [In]. tauto.
Qed.

Lemma set_update_NoDup items : forall set, NoDup set -> NoDup (set_update set items).
Proof.
  unfold set_update. induction items as [|i items IH]; intros set H; cbn [fold_left].
  - exact H.
  - apply IH. destruct (mem_str i set) eqn:E; [exact H|].
    apply NoDup_app; [exact H | repeat constructor; now intros [] |].
    intros x Hx [<-|[]]. apply mem_str_In in Hx. congruence.
Qed.

Lemma set_update_covered items : forall set,
  (forall x, In x items -> In x set) -> set_update set items = set.
Proof.
  unfold set_update. induction items as [|i items IH]; intros set H; cbn [fold_left].
  - reflexivity.
  - assert (E : mem_str i set = true) by (apply mem_str_In, H; now left).
    rewrite E. apply IH. intros x Hx. apply H. now right.
Qed.

(** X8: the scan of a body finds exactly the references [#<digits>] written
    in it: a number is in the scanned set if and only if it is a maximal,
    non-empty run of decimal digits that follows a [#] of the body.  The set
    has no duplicate, and the four keyword patterns ("closes", "fixes",
    "resolves", "related to") never add a number that the bare pattern
    [#(\d+)] did not already find. *)
Theorem scan_body_references :
  forall body : string,
    scan_body body = set_update [] (findall hash_digits body)
    /\ NoDup (scan_body body)
    /\ forall x, In x (scan_body body) <-> references body x.
Proof.
  intro body.
  assert (E : scan_body body = set_update [] (findall hash_digits body)).
  { unfold scan_body, patterns. cbn [fold_left].
    assert (Hin : forall x, In x (findall hash_digits body) ->
                            In x (set_update [] (findall hash_digits body)))
      by (intros x Hx; apply set_update_In; now right).
    rewrite (set_update_covered (findall (lit "close" ++ _) body)).
    2:{ intros x Hx. apply Hin.
        apply (findall_keyword (lit "close" ++ optional "s" ++ spaces));
          [repeat constructor | exact Hx]. }
    rewrite (set_update_covered (findall (lit "fixe" ++ _) body)).
    2:{ intros x Hx. apply Hin.
        apply (findall_keyword (lit "fixe" ++ optional "s" ++ spaces));
          [repeat constructor | exact Hx]. }
    rewrite (set_update_covered (findall (lit "resolve" ++ _) body)).
    2:{ intros x Hx. apply Hin.
        apply (findall_keyword (lit "resolve" ++ optional "s" ++ spaces));
          [repeat constructor | exact Hx]. }
    rewrite (set_update_covered (findall (lit "related" ++ _) body)).
    2:{ intros x Hx. apply Hin.
        apply (findall_keyword (lit "related" ++ spaces ++ lit "to" ++ spaces));
          [repeat constructor | exact Hx]. }
    reflexivity. }
  split; [exact E|]. rewrite E. split.
  - apply set_update_NoDup. constructor.
  - intro x. rewrite set_update_In, findall_hash. cbn [In]. tauto.
Qed.
(* ------------------------------------------------------------------ *)
(** ** create_issue_aging_data: every open issue is counted once *)

Lemma occurrences_cons k x l :
  occurrences k (x :: l) = (if String.eqb k x then 1 else 0) + occurrences k l.
Proof.
  unfold occurrences. cbn [filter]. destruct (String.eqb k x); cbn [List.length]; lia.
Qed.

Lemma bucket_counts_add_up classes :
  (forall c, In c classes -> In c all_buckets) ->
  occurrences "0-7 days" classes + occurrences "7-30 days" classes
  + occurrences "30+ days" classes
  = Z.of_nat (List.length classes).
Proof.
  induction classes as [|c classes IH]; intro H; [reflexivity|].
  rewrite !occurrences_cons. cbn [List.length].
  assert (Hc : In c all_buckets) by (apply H; now left).
  assert (IH' := IH (fun c' Hc' => H c' (or_intror Hc'))).
  apply in_all_buckets in Hc.
  destruct Hc as [-> | [-> | ->]]; cbn [String.eqb Ascii.eqb Bool.eqb]; lia.
Qed.

(** X9: when the collection has an open issue, the three counts of the aging
    table add up to the number of open issues: every open issue is counted
    in exactly one bucket, and no closed issue is counted. *)
Theorem aging_counts_add_up :
  forall (parse_datetime : string -> option Z) (issues : list Issue)
         (prs_data : list dict) (now : Z) (st : Store),
    Forall (fun i => in_bounds (issue_created_at i) = true) issues ->
    existsb is_open issues = true ->
    exists n0 n1 n2,
      returned ((dfs <- frames_of (map get_issue_data issues) prs_data ;;
                 create_issue_aging_data parse_datetime (fst dfs) now) st)
      = Some (mkDF ["Age_Bucket"; "Count"]
                   [ [("Age_Bucket", VStr "0-7 days"); ("Count", VInt n0)];
                     [("Age_Bucket", VStr "7-30 days"); ("Count", VInt n1)];
                     [("Age_Bucket", VStr "30+ days"); ("Count", VInt n2)] ])
      /\ n0 + n1 + n2 = count_of is_open issues.
Proof.
  intros parse issues prs_data now st Hb Hopen.
  set (classes := map (age_class now) (filter is_open issues)).
  exists (occurrences "0-7 days" classes), (occurrences "7-30 days" classes),
         (occurrences "30+ days" classes).
  split.
  - run_step. cbn [fst].
    destruct issues as [|i l]; [discriminate Hopen|].
    rewrite frame_of_issues.
    rewrite (aging_run_open parse (i :: l) now); [reflexivity | lookup | exact Hb |].
    intro H. apply filter_nil_existsb in H. congruence.
  - rewrite bucket_counts_add_up.
    + unfold classes, count_of. now rewrite length_map.
    + intros c Hc. apply in_map_iff in Hc. destruct Hc as (x & <- & _).
      apply age_class_bucket.
Qed.

Lemma aging_counts_add_up_witness :
  exists n0 n1 n2,
    returned ((dfs <- frames_of (map get_issue_data [aged_issue; closed_issue]) [] ;;
               create_issue_aging_data (fun _ => None) (fst dfs) 0) [])
    = Some (mkDF ["Age_Bucket"; "Count"]
                 [ [("Age_Bucket", VStr "0-7 days"); ("Count", VInt n0)];
                   [("Age_Bucket", VStr "7-30 days"); ("Count", VInt n1)];
                   [("Age_Bucket", VStr "30+ days"); ("Count", VInt n2)] ])
    /\ n0 + n1 + n2 = 1.
Proof.
  apply (aging_counts_add_up (fun _ => None) [aged_issue; closed_issue] [] 0 []);
    [repeat constructor | reflexivity].
Defined.

(* ------------------------------------------------------------------ *)
(** ** fetch_issues_and_prs *)


Lemma fetch_fold get_pull start_date end_date all_items : forall issues pull_requests,
  fold_left (fetch_item get_pull start_date end_date) all_items (issues, pull_requests)
  = (issues
     ++ map item_issue
          (filter (fun it => created_within start_date end_date it
                             && negb (item_pull_request it)) all_items),
     pull_requests
     ++ map (fun it => get_pull (issue_number (item_issue it)))
          (filter (fun it => created_within start_date end_date it
                             && item_pull_request it) all_items)).
Proof.
  induction all_items as [|it l IH]; intros issues prs; cbn [fold_left filter map].
  - now rewrite !app_nil_r.
  - assert (Hstep : fetch_item get_pull start_date end_date (issues, prs) it
                    = (issues ++ (if created_within start_date end_date it
                                     && negb (item_pull_request it)
                                  then [item_issue it] else []),
                       prs ++ (if created_within start_date end_date it
                                  && item_pull_request it
                               then [get_pull (issue_number (item_issue it))] else []))).
    { unfold fetch_item, created_within.
      destruct ((start_date <=? _) && (_ <=? end_date)), (item_pull_request it);
        cbn [andb negb]; rewrite ?app_nil_r; reflexivity. }
    rewrite Hstep, IH.
    destruct (created_within start_date end_date it && negb (item_pull_request it)),
             (created_within start_date end_date it && item_pull_request it);
      cbn [map]; rewrite <- ?app_assoc; reflexivity.
Qed.

(** X10: the fetch keeps exactly the listed items created inside
    [start_date, end_date] (both ends included), whatever their last update,
    in the order of the listing; those marked as pull requests are fetched
    again one by one by number and returned in the second list, the others
    are returned as they are in the first; no item lands in both lists. *)
Theorem fetch_partitions_the_window :
  forall (get_pull : Z -> PullRequest) (all_items : list Item) (start_date end_date : Z),
    let fetched := fetch_issues_and_prs get_pull all_items start_date end_date in
    let inside := filter (created_within start_date end_date) all_items in
    fst fetched = map item_issue (filter (fun it => negb (item_pull_request it)) inside)
    /\ snd fetched
       = map (fun it => get_pull (issue_number (item_issue it)))
             (filter item_pull_request inside)
    /\ (List.length (fst fetched) + List.length (snd fetched) = List.length inside)%nat
    /\ Forall (fun i => start_date <= issue_created_at i <= end_date) (fst fetched).
Proof.
  intros get_pull all_items start_date end_date fetched inside.
  assert (E : fetched
              = (map item_issue (filter (fun it => negb (item_pull_request it)) inside),
                 map (fun it => get_pull (issue_number (item_issue it)))
                     (filter item_pull_request inside))).
  { unfold fetched, fetch_issues_and_prs, inside. rewrite fetch_fold.
    rewrite !filter_filter. reflexivity. }
  rewrite E. cbn [fst snd]. split; [reflexivity|]. split; [reflexivity|]. split.
  - rewrite !length_map. clear E. induction inside as [|it l IH]; [reflexivity|].
    cbn [filter]. destruct (item_pull_request it); cbn [negb List.length]; lia.
  - apply Forall_forall. intros i Hi. apply in_map_iff in Hi.
    destruct Hi as (it & <- & Hit). apply filter_In in Hit. destruct Hit as [Hit _].
    apply filter_In in Hit. destruct Hit as [_ Hit].
    unfold created_within in Hit. apply andb_true_iff in Hit. lia.
Qed.

(* ------------------------------------------------------------------ *)
(** ** The window of the dashboard and the period of the series *)


Lemma window_days start_date end_date :
  timedelta_days (end_of_day end_date - start_of_day start_date) = end_date - start_date.
Proof.
  unfold timedelta_days, end_of_day, start_of_day, ns_per_day.
  symmetry. apply (Z.div_unique _ _ _ (86400000000000 - 1000)); lia.
Qed.

(** X11: for the two dates picked in the dashboard, the window runs from
    midnight of the first to the last microsecond of the second, and the
    bucket size of both series depends only on the number of days between
    the two dates: daily up to 7, weekly up to 90, monthly beyond; an
    accepted pair of dates is at least one day apart. *)
Theorem window_period :
  forall start_date end_date : Z,
    date_range_accepted start_date end_date = true ->
    1 <= end_date - start_date
    /\ throughput_period (start_of_day start_date) (end_of_day end_date)
       = period_rule (end_date - start_date)
    /\ cycle_time_period (start_of_day start_date) (end_of_day end_date)
       = period_rule (end_date - start_date).
Proof.
  intros start_date end_date H. unfold date_range_accepted in H.
  apply andb_true_iff in H. destruct H as [_ H].
  apply negb_true_iff, Z.ltb_ge in H.
  split; [exact H|].
  rewrite throughput_period_rule, cycle_time_period_rule, window_days. now split.
Qed.

Lemma window_period_witness :
  1 <= 19730 - 19723
  /\ throughput_period (start_of_day 19723) (end_of_day 19730) = FreqD
  /\ cycle_time_period (start_of_day 19723) (end_of_day 19730) = FreqD.
Proof. apply (window_period 19723 19730). reflexivity. Defined.

(* ------------------------------------------------------------------ *)
(** ** The average cards *)

Lemma Qsum_zero qs : Forall (fun q => q == 0)%Q qs -> (Qsum qs == 0)%Q.
Proof.
  induction 1 as [|q qs Hq Hqs IH]; [reflexivity|].
  cbn [Qsum fold_right]. fold (Qsum qs). rewrite Hq, IH. reflexivity.
Qed.

Lemma mean_zero qs : Forall (fun q => q == 0)%Q qs -> (mean qs == 0)%Q.
Proof.
  intro H. unfold mean, Qdiv. rewrite (Qsum_zero qs H). apply Qmult_0_l.
Qed.

(** X12: the dashboard shows an average as "N/A" whenever it is not greater
    than zero.  When every counted issue was closed at the very instant of
    its creation, [avg_issue_resolution_days] is a float equal to 0 (a real
    mean, not the integer 0 returned when nothing is counted), and its card
    reads "N/A", exactly as the card of the integer 0 does. *)
Theorem zero_average_reads_not_applicable :
  forall (parse_datetime : string -> option Z) (issues : list Issue)
         (prs : list PullRequest) (st : Store),
    Forall (fun i => issue_in_bounds i = true) issues ->
    Forall (fun p => pr_in_bounds p = true) prs ->
    existsb resolved issues = true ->
    (forall i, In i issues -> resolved i = true ->
               issue_closed_at i = Some (issue_created_at i)) ->
    exists kpis st' q,
      (dfs <- frames_of (map get_issue_data issues) (map get_pr_data prs) ;;
       calculate_kpis parse_datetime (fst dfs) (snd dfs)) st = (inr kpis, st')
      /\ dict_get "avg_issue_resolution_days" kpis = Some (VFloat q)
      /\ (q == 0)%Q
      /\ average_card (VFloat q) = NotApplicable
      /\ average_card (VInt 0) = NotApplicable.
Proof.
  intros parse issues prs st Hbi Hbp Hany Hzero.
  destruct (calculate_kpis_run parse issues prs st Hbi Hbp) as [st' Hrun].
  exists (kpis_of issues prs), st', (mean (map resolution_days (filter resolved issues))).
  assert (Hq : (mean (map resolution_days (filter resolved issues)) == 0)%Q).
  { apply mean_zero. apply Forall_forall. intros q Hq.
    apply in_map_iff in Hq. destruct Hq as (i & <- & Hi).
    apply filter_In in Hi. destruct Hi as [Hi Hr].
    unfold resolution_days. rewrite (Hzero i Hi Hr).
    unfold days_from_to. rewrite Z.sub_diag. reflexivity. }
  split; [exact Hrun|]. split; [| split; [exact Hq | split; [|reflexivity]]].
  - cbn [kpis_of dict_get String.eqb Ascii.eqb Bool.eqb].
    unfold average_of. fold resolved.
    change (existsb (fun x => is_closed x && _) issues) with (existsb resolved issues).
    rewrite Hany. reflexivity.
  - unfold average_card, greater_than_zero.
    assert (Hle : Qle_bool (mean (map resolution_days (filter resolved issues))) 0 = true).
    { apply Qle_bool_iff. rewrite Hq. apply Qle_refl. }
    now rewrite Hle.
Qed.

Lemma zero_average_reads_not_applicable_witness :
  exists kpis st' q,
    (dfs <- frames_of (map get_issue_data instant_issues) (map get_pr_data []) ;;
     calculate_kpis (fun _ => None) (fst dfs) (snd dfs)) [] = (inr kpis, st')
    /\ dict_get "avg_issue_resolution_days" kpis = Some (VFloat q)
    /\ (q == 0)%Q
    /\ average_card (VFloat q) = NotApplicable
    /\ average_card (VInt 0) = NotApplicable.
Proof.
  apply (zero_average_reads_not_applicable (fun _ => None) instant_issues [] []).
  - repeat constructor.
  - constructor.
  - reflexivity.
  - intros i [<- | [<- | []]] _; reflexivity.
Defined.
(* ------------------------------------------------------------------ *)
(** ** Grouping by a key that is a number *)


Lemma count_key_absent k ks : ~ In k ks -> count_key k ks = 0.
Proof.
  unfold count_key. intro H. induction ks as [|x ks IH]; [reflexivity|].
  cbn [filter]. destruct (Z.eqb_spec k x) as [->|_]; [exfalso; apply H; now left|].
  apply IH. intro Hin. apply H. now right.
Qed.

Lemma count_key_present k ks : In k ks -> 0 < count_key k ks.
Proof.
  unfold count_key. induction ks as [|x ks IH]; [intros []|].
  intros [->|H]; cbn [filter].
  - rewrite Z.eqb_refl. cbn [List.length]. lia.
  - destruct (k =? x); cbn [List.length]; [lia | now apply IH].
Qed.

Section Keyed.

(** A kind of cell that holds a number: a date, or a period of a fixed
    frequency. *)
Variable inj : Z -> value.
Hypothesis inj_eqb : forall a b, value_eqb (inj a) (inj b) = (a =? b).
Hypothesis inj_notna : forall a, notna (inj a) = true.
Hypothesis inj_leb : forall a b, value_leb (inj a) (inj b) = (a <=? b).

Lemma filter_notna_keys l : filter notna (map inj l) = map inj l.
Proof.
  induction l as [|x l IH]; cbn [map filter]; [reflexivity|].
  now rewrite inj_notna, IH.
Qed.

Lemma mem_value_keys k l : mem_value (inj k) (map inj l) = existsb (Z.eqb k) l.
Proof.
  unfold mem_value. induction l as [|x l IH]; cbn [map existsb]; [reflexivity|].
  now rewrite inj_eqb, IH.
Qed.

Lemma count_value_keys k l : count_value (inj k) (map inj l) = count_key k l.
Proof.
  unfold count_value, count_key. f_equal.
  induction l as [|x l IH]; cbn [map filter]; [reflexivity|].
  rewrite inj_eqb. destruct (k =? x); cbn [List.length]; now rewrite IH.
Qed.

Lemma existsb_eqb_In k l : existsb (Z.eqb k) l = true <-> In k l.
Proof.
  rewrite existsb_exists. split.
  - intros (x & Hx & E). apply Z.eqb_eq in E. now subst.
  - intro H. exists k. split; [exact H | apply Z.eqb_refl].
Qed.

Lemma distinct_keys l : forall seen,
  exists ks, distinct (map inj seen) (map inj l) = map inj ks
             /\ NoDup ks
             /\ forall k, In k ks <-> In k l /\ ~ In k seen.
Proof.
  induction l as [|u l IH]; intro seen; cbn [map distinct].
  - exists []. split; [reflexivity|]. split; [constructor|]. intro k. cbn [In]. tauto.
  - rewrite mem_value_keys. destruct (existsb (Z.eqb u) seen) eqn:E.
    + destruct (IH seen) as (ks & Hks & Hnd & Hin). exists ks.
      split; [exact Hks|]. split; [exact Hnd|]. intro k. rewrite Hin.
      apply existsb_eqb_In in E. cbn [In]. split; [tauto|].
      intros [[<-|Hk] Hn]; [contradiction | tauto].
    + destruct (IH (u :: seen)) as (ks & Hks & Hnd & Hin).
      exists (u :: ks). cbn [map] in Hks. rewrite Hks.
      assert (Hu : ~ In u seen) by (intro Hs; apply existsb_eqb_In in Hs; congruence).
      split; [reflexivity|]. split.
      * constructor; [|exact Hnd]. intro Hk. apply Hin in Hk. apply (proj2 Hk). now left.
      * intro k. cbn [In]. rewrite Hin. cbn [In]. split.
        -- intros [<-|[Hk Hn]]; [tauto|]. split; [tauto|]. intro Hs. apply Hn. now right.
        -- intros [[<-|Hk] Hn]; [now left|].
           destruct (Z.eq_dec u k) as [->|Hne]; [now left|].
           right. split; [exact Hk|]. intros [->|Hs]; tauto.
Qed.

Lemma sort_keys ks :
  sort_by value_leb (map inj ks) = map inj (sort_by Z.leb ks).
Proof.
  rewrite sort_by_map. f_equal. apply sort_by_ext. intros x y _ _. apply inj_leb.
Qed.

End Keyed.

Lemma sort_increasing ks : NoDup ks -> StronglySorted Z.lt (sort_by Z.leb ks).
Proof.
  intro Hnd.
  assert (Hs : Sorted (fun x y => (x <=? y) = true) (sort_by Z.leb ks)).
  { apply sort_by_sorted. intros x y E. apply Z.leb_gt in E. apply Z.leb_le. lia. }
  apply Sorted_StronglySorted in Hs.
  2:{ intros x y z Hxy Hyz. apply Z.leb_le in Hxy, Hyz. apply Z.leb_le. lia. }
  assert (Hnd' : NoDup (sort_by Z.leb ks))
    by (apply (Permutation_NoDup (l := ks)); [symmetry; apply sort_by_perm | exact Hnd]).
  revert Hs Hnd'. generalize (sort_by Z.leb ks). intro l.
  induction l as [|a l IH]; intros Hs Hnd'; constructor.
  - apply IH; [now inversion Hs | now inversion Hnd'].
  - inversion Hs as [|? ? _ Hall]; subst. inversion Hnd' as [|? ? Hnot _]; subst.
    rewrite Forall_forall in Hall |- *. intros x Hx.
    specialize (Hall _ Hx). apply Z.leb_le in Hall.
    assert (a <> x) by (intros ->; contradiction). lia.
Qed.

(** [groupby(key).size()] on a column of such cells: one entry per distinct
    number, in increasing order, with the number of its occurrences. *)
Lemma groupby_size_keys (inj : Z -> value) l :
  (forall a b, value_eqb (inj a) (inj b) = (a =? b)) ->
  (forall a, notna (inj a) = true) ->
  (forall a b, value_leb (inj a) (inj b) = (a <=? b)) ->
  exists ks, groupby_size (map inj l) = map (fun k => (inj k, count_key k l)) ks
             /\ StronglySorted Z.lt ks
             /\ forall k, In k ks <-> In k l.
Proof.
  intros Heq Hna Hle. unfold groupby_size. rewrite (filter_notna_keys inj Hna).
  destruct (distinct_keys inj Heq l []) as (ks & Hks & Hnd & Hin).
  change (@nil value) with (map inj []). rewrite Hks, (sort_keys inj Hle), map_map.
  exists (sort_by Z.leb ks). split; [|split].
  - apply map_ext. intro k. now rewrite (count_value_keys inj Heq).
  - now apply sort_increasing.
  - intro k. rewrite sort_by_In, Hin. cbn [In]. tauto.
Qed.

(* ------------------------------------------------------------------ *)
(** ** The merge of the two counts of a time series *)

Section Entries.

Context {K : Type}.
Variable eqb : K -> K -> bool.
Hypothesis eqb_spec : forall a b, eqb a b = true <-> a = b.

Lemma existsb_eqb k l : existsb (eqb k) l = true <-> In k l.
Proof.
  rewrite existsb_exists. split.
  - intros (x & Hx & E). apply eqb_spec in E. now subst.
  - intro H. exists k. split; [exact H | now apply eqb_spec].
Qed.

Lemma existsb_eqb_absent k l : ~ In k l -> existsb (eqb k) l = false.
Proof.
  intro H. destruct (existsb (eqb k) l) eqn:E; [|reflexivity].
  apply existsb_eqb in E. contradiction.
Qed.

Lemma eqb_refl k : eqb k k = true.
Proof. now apply eqb_spec. Qed.

Lemma eqb_neq a b : a <> b -> eqb a b = false.
Proof.
  intro H. destruct (eqb a b) eqn:E; [|reflexivity]. apply eqb_spec in E. contradiction.
Qed.

Lemma entries_upsert_absent k n (data : entries K) :
  ~ In k (map fst data) -> entries_upsert eqb k n data = data ++ [(k, (0, n))].
Proof.
  induction data as [|[k' c] data IH]; intro H; [reflexivity|].
  cbn [entries_upsert app]. rewrite eqb_neq.
  - f_equal. apply IH. intro Hin. apply H. now right.
  - intros ->. apply H. now left.
Qed.

Lemma entries_upsert_present k n (data : entries K) :
  NoDup (map fst data) -> In k (map fst data) ->
  entries_upsert eqb k n data
  = map (fun e => if eqb (fst e) k then (fst e, (fst (snd e), n)) else e) data.
Proof.
  induction data as [|[k' c] data IH]; intros Hnd Hin; [destruct Hin|].
  inversion Hnd as [|? ? Hk Hnd']; subst.
  cbn [entries_upsert map fst snd]. destruct (eqb k' k) eqn:E.
  - f_equal. apply eqb_spec in E. subst k'.
    symmetry. rewrite <- (map_id data) at 2. apply map_ext_in.
    intros [k2 c2] H2. cbn [fst snd]. rewrite eqb_neq; [reflexivity|].
    intros ->. apply Hk. apply in_map_iff. now exists (k, c2).
  - f_equal. apply IH; [exact Hnd'|]. cbn [map fst] in Hin.
    destruct Hin as [->|Hin]; [|exact Hin].
    rewrite eqb_refl in E. discriminate E.
Qed.

Lemma entries_upsert_keys k n (data : entries K) :
  In k (map fst data) -> map fst (entries_upsert eqb k n data) = map fst data.
Proof.
  induction data as [|[k' c] data IH]; intro Hin; [destruct Hin|].
  cbn [entries_upsert]. destruct (eqb k' k) eqn:E; cbn [map fst]; [reflexivity|].
  f_equal. apply IH. cbn [map fst] in Hin. destruct Hin as [->|Hin]; [|exact Hin].
  rewrite eqb_refl in E. discriminate E.
Qed.

(** The effect of the second block on the tally of the first. *)
Lemma fold_upsert (count : K -> Z) ks : NoDup ks -> forall data : entries K,
  NoDup (map fst data) ->
  fold_left (fun d k => entries_upsert eqb k (count k) d) ks data
  = map (fun e => if existsb (eqb (fst e)) ks
                  then (fst e, (fst (snd e), count (fst e))) else e)
        data
    ++ map (fun k => (k, (0, count k)))
           (filter (fun k => negb (existsb (eqb k) (map fst data))) ks).
Proof.
  induction 1 as [|k ks Hk Hks IH]; intros data Hnd.
  - cbn [fold_left filter map existsb]. rewrite app_nil_r.
    symmetry. rewrite <- (map_id data) at 2. apply map_ext. now intros [? ?].
  - assert (Hkm : existsb (eqb k) ks = false) by now apply existsb_eqb_absent.
    cbn [fold_left filter]. destruct (existsb (eqb k) (map fst data)) eqn:E; cbn [negb].
    + apply existsb_eqb in E.
      rewrite IH by (rewrite entries_upsert_keys; assumption).
      rewrite entries_upsert_keys by exact E.
      rewrite entries_upsert_present, map_map by assumption.
      f_equal. apply map_ext. intros [k' c']. cbn [fst snd existsb].
      destruct (eqb k' k) eqn:Ek; cbn [fst snd orb].
      * apply eqb_spec in Ek. subst k'. now rewrite Hkm.
      * reflexivity.
    + assert (Hk' : ~ In k (map fst data))
        by (intro Hin; apply existsb_eqb in Hin; congruence).
      rewrite entries_upsert_absent by exact Hk'.
      rewrite IH.
      2:{ rewrite map_app. cbn [map fst].
          apply NoDup_app; [exact Hnd | repeat constructor; intros [] |].
          intros a Ha [<-|[]]. contradiction. }
      rewrite map_app, <- app_assoc. cbn [map fst snd app]. rewrite Hkm. f_equal.
      * apply map_ext_in. intros [k' c'] Hin. cbn [fst snd existsb].
        rewrite eqb_neq; [reflexivity|].
        intros ->. apply Hk'. apply in_map_iff. now exists (k, c').
      * f_equal. f_equal. apply filter_ext_in. intros k' Hin. f_equal.
        rewrite map_app, existsb_app. cbn [map fst existsb].
        rewrite eqb_neq; [now rewrite !orb_false_r|].
        intros ->. contradiction.
Qed.

(** The tally after the two blocks: every key of the first block, then the
    new keys of the second, each with its two counts. *)
Lemma merged_entries (first second : K -> Z) ks_i ks_p :
  NoDup ks_i -> NoDup ks_p ->
  (forall k, ~ In k ks_i -> first k = 0) ->
  (forall k, ~ In k ks_p -> second k = 0) ->
  fold_left (fun d k => entries_upsert eqb k (second k) d) ks_p
            (map (fun k => (k, (first k, 0))) ks_i)
  = map (fun k => (k, (first k, second k)))
        (ks_i ++ filter (fun k => negb (existsb (eqb k) ks_i)) ks_p).
Proof.
  intros Hi Hp Hfirst Hsecond.
  rewrite (fold_upsert second ks_p Hp).
  2:{ rewrite map_map. cbn [fst]. now rewrite map_id. }
  rewrite !map_map. cbn [fst snd]. rewrite map_id, map_app. f_equal.
  - apply map_ext. intro k. destruct (existsb (eqb k) ks_p) eqn:E; [reflexivity|].
    rewrite Hsecond; [reflexivity|].
    intro H. apply existsb_eqb in H. congruence.
  - apply map_ext_in. intros k Hk. apply filter_In in Hk. destruct Hk as [_ Hk].
    rewrite Hfirst; [reflexivity|].
    intro H. apply existsb_eqb in H. rewrite H in Hk. discriminate Hk.
Qed.

Lemma merged_keys ks_i ks_p :
  NoDup ks_i -> NoDup ks_p ->
  NoDup (ks_i ++ filter (fun k => negb (existsb (eqb k) ks_i)) ks_p)
  /\ forall k, In k (ks_i ++ filter (fun k => negb (existsb (eqb k) ks_i)) ks_p)
               <-> In k ks_i \/ In k ks_p.
Proof.
  intros Hi Hp. split.
  - apply NoDup_app; [exact Hi | now apply NoDup_filter |].
    intros k Hk Hf. apply filter_In in Hf. destruct Hf as [_ Hf].
    apply existsb_eqb in Hk. rewrite Hk in Hf. discriminate Hf.
  - intro k. rewrite in_app_iff, filter_In. split; [tauto|].
    intros [H|H]; [now left|].
    destruct (existsb (eqb k) ks_i) eqn:E.
    + left. now apply existsb_eqb.
    + right. now split.
Qed.

End Entries.

(* ------------------------------------------------------------------ *)
(** ** Tables whose records all have the same keys *)

Lemma align_row_self d : NoDup (dict_keys d) -> align_row (dict_keys d) d = d.
Proof.
  unfold align_row, dict_keys. induction d as [|[k v] d IH]; intro H; [reflexivity|].
  inversion H as [|? ? Hk Hnd]; subst. cbn [map fst].
  unfold row_get at 1. cbn [dict_get]. rewrite String.eqb_refl. f_equal.
  rewrite <- (IH Hnd) at 2. apply map_ext_in. intros c Hc.
  unfold row_get. cbn [dict_get].
  destruct (String.eqb_spec c k) as [->|_]; [contradiction | reflexivity].
Qed.

Lemma frame_of_uniform_records {A} (row : A -> dict) cols x l :
  NoDup cols -> (forall y, dict_keys (row y) = cols) ->
  frame_of_records (map row (x :: l)) = mkDF cols (map row (x :: l)).
Proof.
  intros Hnd Hkeys. unfold frame_of_records.
  assert (E : records_columns (map row (x :: l)) = cols).
  { unfold records_columns. cbn [map fold_left]. rewrite Hkeys.
    rewrite (union_keys_fresh cols Hnd []) by (intros k _ []). cbn [app].
    induction l as [|y l IH]; [reflexivity|].
    cbn [map fold_left]. rewrite Hkeys.
    rewrite union_keys_covered by auto. exact IH. }
  rewrite E. f_equal. rewrite map_map. apply map_ext. intro y.
  rewrite <- (Hkeys y). apply align_row_self. now rewrite Hkeys.
Qed.

(** Sorting by a column whose cells hold distinct kinds of numbers. *)
Lemma frame_sort_values_keys {A} (inj : Z -> value) c cols (row : A -> dict)
      (key : A -> Z) l :
  (forall a, notna (inj a) = true) ->
  (forall a b, value_leb (inj a) (inj b) = (a <=? b)) ->
  (forall x, row_get c VNaN (row x) = inj (key x)) ->
  frame_sort_values c true (mkDF cols (map row l))
  = mkDF cols (map row (sort_by (fun a b => key a <=? key b) l)).
Proof.
  intros Hna Hle Hkey. unfold frame_sort_values. cbn [df_columns df_rows]. f_equal.
  rewrite (filter_ext_in _ (fun _ => true)), filter_true
    by (intros r Hr; apply in_map_iff in Hr; destruct Hr as (x & <- & _);
        now rewrite Hkey, Hna).
  rewrite (filter_ext_in _ (fun _ => false)), filter_false, app_nil_r
    by (intros r Hr; apply in_map_iff in Hr; destruct Hr as (x & <- & _);
        unfold isna; rewrite Hkey; specialize (Hna (key x)); unfold notna in Hna;
        now apply negb_true_iff in Hna).
  rewrite sort_by_map. f_equal. apply sort_by_ext. intros x y _ _.
  now rewrite !Hkey, Hle.
Qed.
(* ------------------------------------------------------------------ *)
(** ** create_timeline_data *)

Lemma increasing_NoDup ks : StronglySorted Z.lt ks -> NoDup ks.
Proof.
  induction 1 as [|a l Hl IH Ha]; constructor; [|exact IH].
  intro Hin. rewrite Forall_forall in Ha. specialize (Ha _ Hin). lia.
Qed.

Lemma date_eqb a b : value_eqb (VDate a) (VDate b) = (a =? b).
Proof. reflexivity. Qed.

Lemma date_notna a : notna (VDate a) = true.
Proof. reflexivity. Qed.

Lemma date_leb a b : value_leb (VDate a) (VDate b) = (a <=? b).
Proof. reflexivity. Qed.

(** The sizes of the groups by creation day of a table built from items. *)
Lemma counts_by_creation_run {A} parse (items : list A) (row : A -> dict) cols
      (created : A -> Z) st r :
  nth_error st r = Some (mkDF cols (map row items)) ->
  mem_str "created_at" cols = true ->
  (forall x, row_get "created_at" VNaN (row x) = VTime (created x)) ->
  Forall (fun x => in_bounds (created x) = true) items ->
  exists extra,
    counts_by_creation_date parse r st
    = (inr (groupby_size (map (fun x => VDate (day_of (created x))) items)),
       st ++ extra).
Proof.
  intros Hst Hc Hcre Hb. unfold counts_by_creation_date.
  run_step.
  erewrite bind_run by (eapply df_getitem_run; [lookup | exact Hc]).
  rewrite column_values_map.
  rewrite (map_ext _ (fun x => VTime (created x))) by apply Hcre.
  erewrite bind_run by (apply to_datetime_run, Hb).
  rewrite map_map. cbn [date_of_cell].
  run_step. rewrite frame_set_column_map.
  erewrite bind_run by (eapply df_getitem_run; [lookup | apply mem_str_set_column]).
  rewrite column_values_map.
  rewrite (map_ext (fun x => row_get "date" VNaN _) _ (fun x => row_get_dict_set _ _ _ _)).
  unfold ret. eexists. reflexivity.
Qed.

Lemma timeline_issues_run parse issues st r :
  nth_error st r = Some (frame_of_records (map get_issue_data issues)) ->
  Forall (fun i => in_bounds (issue_created_at i) = true) issues ->
  exists extra,
    timeline_issues parse r st
    = (inr (map (fun item => [("Date", fst item); ("Issues", VInt (snd item));
                              ("PRs", VInt 0)])
                (groupby_size (map (fun i => VDate (day_of (issue_created_at i))) issues))),
       st ++ extra).
Proof.
  intros Hst Hb. unfold timeline_issues. destruct issues as [|i l].
  - run_step. run_step. exists []. now rewrite app_nil_r.
  - rewrite frame_of_issues in Hst. run_step. run_step.
    rewrite frame_empty_map by discriminate. cbv iota.
    change (has_column "created_at" _) with true. cbn [negb andb].
    destruct (counts_by_creation_run parse (i :: l) get_issue_data issue_columns
                issue_created_at st r Hst eq_refl (fun _ => eq_refl) Hb) as [extra H].
    rewrite (bind_run _ _ _ _ _ H). exists extra. reflexivity.
Qed.

Lemma timeline_prs_run parse prs timeline_data st r :
  nth_error st r = Some (frame_of_records (map get_pr_data prs)) ->
  Forall (fun p => in_bounds (pr_created_at p) = true) prs ->
  exists extra,
    timeline_prs parse r timeline_data st
    = (inr (fold_left
              (fun data item =>
                 upsert "Date" (fst item) "PRs" (snd item)
                        [("Date", fst item); ("Issues", VInt 0); ("PRs", VInt (snd item))]
                        data)
              (groupby_size (map (fun p => VDate (day_of (pr_created_at p))) prs))
              timeline_data),
       st ++ extra).
Proof.
  intros Hst Hb. unfold timeline_prs. destruct prs as [|p l].
  - run_step. run_step. exists []. now rewrite app_nil_r.
  - rewrite frame_of_prs in Hst. run_step. run_step.
    rewrite frame_empty_map by discriminate. cbv iota.
    change (has_column "created_at" _) with true. cbn [negb andb].
    destruct (counts_by_creation_run parse (p :: l) get_pr_data pr_columns
                pr_created_at st r Hst eq_refl (fun _ => eq_refl) Hb) as [extra H].
    rewrite (bind_run _ _ _ _ _ H). exists extra. reflexivity.
Qed.

Lemma upsert_date k n data :
  upsert "Date" (VDate k) "PRs" n
         [("Date", VDate k); ("Issues", VInt 0); ("PRs", VInt n)]
         (map timeline_entry data)
  = map timeline_entry (entries_upsert Z.eqb k n data).
Proof.
  induction data as [|[k' c] data IH]; [reflexivity|].
  cbn [map upsert entries_upsert].
  change (value_eqb (row_get "Date" VNaN (timeline_entry (k', c))) (VDate k))
    with (k' =? k).
  destruct (k' =? k); [reflexivity|]. cbn [map]. now rewrite IH.
Qed.

Lemma fold_upsert_dates (count : Z -> Z) ks : forall data,
  fold_left (fun data item =>
               upsert "Date" (fst item) "PRs" (snd item)
                      [("Date", fst item); ("Issues", VInt 0); ("PRs", VInt (snd item))]
                      data)
            (map (fun k => (VDate k, count k)) ks) (map timeline_entry data)
  = map timeline_entry
        (fold_left (fun d k => entries_upsert Z.eqb k (count k) d) ks data).
Proof.
  induction ks as [|k ks IH]; intro data; [reflexivity|].
  cbn [map fold_left fst snd]. rewrite upsert_date. apply IH.
Qed.

(** The table built from the merged tally. *)
Lemma timeline_frame_run (first second : Z -> Z) keys st :
  returned
    (match map (fun k => timeline_entry (k, (first k, second k))) keys with
     | _ :: _ =>
         timeline_df <- pd_DataFrame
                          (Records (map (fun k => timeline_entry (k, (first k, second k)))
                                        keys)) ;;
         timeline_df <- df_sort_values timeline_df "Date" true ;;
         issues <- df_getitem timeline_df "Issues" ;;
         prs <- df_getitem timeline_df "PRs" ;;
         df_setitem timeline_df "Total" (zip_with add_cells issues prs) ;;;
         ret timeline_df
     | [] => pd_DataFrame (Columns ["Date"; "Issues"; "PRs"; "Total"])
     end st)
  = Some (mkDF ["Date"; "Issues"; "PRs"; "Total"]
               (map (fun k => [ ("Date", VDate k); ("Issues", VInt (first k));
                                ("PRs", VInt (second k));
                                ("Total", VInt (first k + second k)) ])
                    (sort_by Z.leb keys))).
Proof.
  set (row := fun k => timeline_entry (k, (first k, second k))).
  destruct keys as [|k keys'].
  - cbn [map sort_by]. rewrite pd_DataFrame_columns.
    cbn [returned]. now rewrite nth_error_top.
  - cbn [map]. change (row k :: map row keys') with (map row (k :: keys')).
    run_step.
    rewrite (frame_of_uniform_records row ["Date"; "Issues"; "PRs"]).
    2:{ repeat constructor; cbn [In]; intuition discriminate. }
    2:{ reflexivity. }
    set (keys := k :: keys').
    erewrite bind_run by (eapply df_sort_values_run; [lookup | reflexivity]).
    rewrite (frame_sort_values_keys VDate "Date" _ row (fun k => k))
      by (reflexivity || apply date_notna || apply date_leb).
    run_step. frame_norm.
    run_step. frame_norm.
    rewrite zip_with_map.
    run_step. frame_norm.
    unfold ret. cbn [returned]. rewrite nth_error_top.
    reflexivity.
Qed.

(** X13: the timeline of fetched issues and pull requests whose creation
    instants pandas can represent has exactly one row per calendar day on
    which an issue or a pull request was created, and no row for the other
    days; the row gives the number of issues and of pull requests created
    that day (0 when there is none of a kind) and their sum; the rows are in
    increasing order of day. *)
Theorem timeline_table :
  forall (parse_datetime : string -> option Z) (issues : list Issue)
         (prs : list PullRequest) (st : Store),
    Forall (fun i => in_bounds (issue_created_at i) = true) issues ->
    Forall (fun p => in_bounds (pr_created_at p) = true) prs ->
    let issue_days := map (fun i => day_of (issue_created_at i)) issues in
    let pr_days := map (fun p => day_of (pr_created_at p)) prs in
    exists days,
      returned ((dfs <- frames_of (map get_issue_data issues) (map get_pr_data prs) ;;
                 create_timeline_data parse_datetime (fst dfs) (snd dfs)) st)
      = Some (mkDF ["Date"; "Issues"; "PRs"; "Total"]
                   (map (timeline_row issue_days pr_days) days))
      /\ StronglySorted Z.lt days
      /\ forall d, In d days <-> In d issue_days \/ In d pr_days.
Proof.
  intros parse issues prs st Hbi Hbp issue_days pr_days.
  destruct (groupby_size_keys VDate issue_days date_eqb date_notna date_leb)
    as (ks_i & Hgi & Hsi & Ini).
  destruct (groupby_size_keys VDate pr_days date_eqb date_notna date_leb)
    as (ks_p & Hgp & Hsp & Inp).
  assert (Hni := increasing_NoDup ks_i Hsi).
  assert (Hnp := increasing_NoDup ks_p Hsp).
  set (keys := ks_i ++ filter (fun k => negb (existsb (Z.eqb k) ks_i)) ks_p).
  destruct (merged_keys Z.eqb Z.eqb_eq ks_i ks_p Hni Hnp) as [Hnd Hin].
  fold keys in Hnd, Hin.
  exists (sort_by Z.leb keys). split; [| split].
  - run_step. cbn [fst snd]. unfold create_timeline_data.
    match goal with
    | |- context [bind (timeline_issues ?parse ?r) _ ?s] =>
        destruct (timeline_issues_run parse issues s r ltac:(lookup) Hbi) as [extra1 H1]
    end.
    rewrite (bind_run _ _ _ _ _ H1). clear H1.
    match goal with
    | |- context [bind (timeline_prs ?parse ?r ?data) _ ?s] =>
        destruct (timeline_prs_run parse prs data s r ltac:(lookup) Hbp) as [extra2 H2]
    end.
    rewrite (bind_run _ _ _ _ _ H2). clear H2.
    rewrite <- (map_map (fun i => day_of (issue_created_at i)) VDate).
    rewrite <- (map_map (fun p => day_of (pr_created_at p)) VDate).
    fold issue_days pr_days. rewrite Hgi, Hgp.
    rewrite map_map. cbn [fst snd].
    rewrite (map_ext _ (fun k => timeline_entry (k, (count_key k issue_days, 0))))
      by reflexivity.
    rewrite <- (map_map (fun k => (k, (count_key k issue_days, 0))) timeline_entry).
    rewrite fold_upsert_dates.
    rewrite (merged_entries Z.eqb Z.eqb_eq
               (fun k => count_key k issue_days) (fun k => count_key k pr_days)
               ks_i ks_p Hni Hnp).
    2:{ intros k Hk. apply count_key_absent. now rewrite <- Ini. }
    2:{ intros k Hk. apply count_key_absent. now rewrite <- Inp. }
    fold keys. rewrite map_map.
    match goal with
    | |- returned (_ ?s) = _ =>
        exact (timeline_frame_run (fun k => count_key k issue_days)
                                  (fun k => count_key k pr_days) keys s)
    end.
  - apply sort_increasing, Hnd.
  - intro d. rewrite sort_by_In, Hin, Ini, Inp. reflexivity.
Qed.

Lemma timeline_table_witness :
  exists days,
    returned ((dfs <- frames_of (map get_issue_data timeline_issues_example)
                                (map get_pr_data timeline_prs_example) ;;
               create_timeline_data (fun _ => None) (fst dfs) (snd dfs)) [])
    = Some (mkDF ["Date"; "Issues"; "PRs"; "Total"]
                 (map (timeline_row [1; 1] [0]) days))
    /\ StronglySorted Z.lt days
    /\ forall d, In d days <-> In d [1; 1] \/ In d [0].
Proof.
  apply (timeline_table (fun _ => None) timeline_issues_example timeline_prs_example []);
    repeat constructor.
Defined.
(* ------------------------------------------------------------------ *)
(** ** create_cycle_time_data *)


Lemma period_eqb f a b : value_eqb (VPeriod f a) (VPeriod f b) = (a =? b).
Proof. now destruct f. Qed.

Lemma period_notna f a : notna (VPeriod f a) = true.
Proof. reflexivity. Qed.

Lemma period_leb f a b : value_leb (VPeriod f a) (VPeriod f b) = (a <=? b).
Proof. reflexivity. Qed.

Lemma present_floats_all {A} (q : A -> Q) l :
  present_floats (map (fun x => VFloat (q x)) l) = map q l.
Proof. induction l as [|x l IH]; cbn [map present_floats]; [reflexivity | now rewrite IH]. Qed.

(** [groupby(key)[c].mean()] on a column of numbers grouped by a key that is
    a number: one entry per distinct key, in increasing order, with the mean
    of the numbers of the group. *)
Lemma groupby_mean_keys {A} (inj : Z -> value) (ord : A -> Z) (q : A -> Q) l :
  (forall a b, value_eqb (inj a) (inj b) = (a =? b)) ->
  (forall a, notna (inj a) = true) ->
  (forall a b, value_leb (inj a) (inj b) = (a <=? b)) ->
  exists ks,
    groupby_mean (map (fun x => inj (ord x)) l) (map (fun x => VFloat (q x)) l)
    = map (fun k => (inj k, VFloat (mean (map q (filter (fun x => k =? ord x) l))))) ks
    /\ StronglySorted Z.lt ks
    /\ forall k, In k ks <-> In k (map ord l).
Proof.
  intros Heq Hna Hle. unfold groupby_mean.
  rewrite <- (map_map ord inj).
  rewrite (filter_notna_keys inj Hna).
  destruct (distinct_keys inj Heq (map ord l) []) as (ks & Hks & Hnd & Hin).
  change (@nil value) with (map inj []). rewrite Hks, (sort_keys inj Hle), map_map.
  assert (Hin' : forall k, In k (sort_by Z.leb ks) <-> In k (map ord l)).
  { intro k. rewrite sort_by_In, Hin. cbn [In]. tauto. }
  exists (sort_by Z.leb ks). split; [|split].
  - apply map_ext_in. intros k Hk. f_equal.
    rewrite !map_map. rewrite (map_ext _ (fun x => k =? ord x)) by (intro; apply Heq).
    rewrite select_map_filter. unfold series_mean. rewrite present_floats_all.
    destruct (filter (fun x => k =? ord x) l) as [|x l'] eqn:Ef; [|reflexivity].
    exfalso. apply Hin', in_map_iff in Hk. destruct Hk as (x & <- & Hx).
    assert (Hf : In x (filter (fun y => ord x =? ord y) l))
      by (apply filter_In; split; [exact Hx | apply Z.eqb_refl]).
    rewrite Ef in Hf. destruct Hf.
  - now apply sort_increasing.
  - exact Hin'.
Qed.

Lemma df_rename_run st r old new d :
  nth_error st r = Some d ->
  df_rename r old new st
  = (inr (List.length st),
     st ++ [mkDF (map (fun c => if String.eqb c old then new else c) (df_columns d))
                 (map (dict_rename old new) (df_rows d))]).
Proof. intro H. unfold df_rename. now rewrite (bind_run _ _ _ _ _ (load_run _ _ _ H)). Qed.

Lemma df_select_columns_run st r cols d :
  nth_error st r = Some d ->
  filter (fun c => negb (has_column c d)) cols = [] ->
  df_select_columns r cols st
  = (inr (List.length st), st ++ [mkDF cols (map (align_row cols) (df_rows d))]).
Proof.
  intros H Hc. unfold df_select_columns.
  rewrite (bind_run _ _ _ _ _ (load_run _ _ _ H)). now rewrite Hc.
Qed.

Lemma cycle_time_run parse prs start_date end_date st r :
  nth_error st r = Some (mkDF pr_columns (map get_pr_data prs)) ->
  prs <> [] ->
  Forall (fun p => pr_in_bounds p = true) prs ->
  exists ordinals,
    returned (create_cycle_time_data parse r start_date end_date st)
    = Some (mkDF ["Period"; "Avg_Cycle_Time_Days"]
                 (map (cycle_time_row (cycle_time_period start_date end_date)
                                      (filter (in_cycle_window start_date end_date) prs))
                      ordinals))
    /\ StronglySorted Z.lt ordinals
    /\ forall o, In o ordinals
                 <-> In o (map (merge_ordinal (cycle_time_period start_date end_date))
                               (filter (in_cycle_window start_date end_date) prs)).
Proof.
  intros Hst Hne Hb. unfold create_cycle_time_data, empty_cycle_time.
  run_step. run_step. run_step. run_step.
  rewrite frame_empty_map by discriminate.
  destruct prs as [|p0 prs0]; [congruence|]. cbv iota. set (prs := p0 :: prs0) in *.
  change (has_column "created_at" _) with true.
  change (has_column "merged_at" _) with true.
  change (has_column "merged" _) with true. cbn [negb orb].
  run_step. run_step. frame_norm. cbn [eq_true].
  assert (Hsplit : filter (in_cycle_window start_date end_date) prs
                   = filter (fun p => (start_date <=? pr_created_at p)
                                      && match pr_merged_at p with
                                         | Some m => m <=? end_date
                                         | None => false
                                         end)
                            (filter (fun x => pr_merged x) prs))
    by (rewrite filter_filter; reflexivity).
  rewrite Hsplit. clear Hsplit.
  assert (Hbm : Forall (fun p => pr_in_bounds p = true) (filter (fun x => pr_merged x) prs)).
  { rewrite Forall_forall in *. intros x Hx. apply Hb. now apply filter_In in Hx. }
  remember (filter (fun x => pr_merged x) prs) as merged eqn:Hm. clear Hm.
  run_step. run_step. rewrite frame_empty_map by discriminate.
  destruct merged as [|m0 merged0].
  { exists []. cbn [filter map]. rewrite pd_DataFrame_columns. cbn [returned].
    rewrite nth_error_top. repeat split; try constructor; intros []. }
  cbv iota. set (merged := m0 :: merged0) in *.
  assert (Hc1 : Forall (fun p => in_bounds (pr_created_at p) = true) merged).
  { eapply Forall_impl; [|exact Hbm]. intros p Hp. unfold pr_in_bounds in Hp.
    apply andb_true_iff in Hp. destruct Hp as [Hp _]. now apply andb_true_iff in Hp. }
  assert (Hc2 : Forall (fun p => opt_in_bounds (pr_merged_at p) = true) merged).
  { eapply Forall_impl; [|exact Hbm]. intros p Hp. unfold pr_in_bounds in Hp.
    now apply andb_true_iff in Hp. }
  run_step. frame_norm.
  erewrite bind_run by (apply to_datetime_run, Hc1).
  run_step. frame_norm.
  run_step. frame_norm.
  erewrite bind_run by (unfold to_datetime; rewrite (mapM_opt_times _ _ _ Hc2); reflexivity).
  run_step. frame_norm.
  run_step. frame_norm.
  run_step. frame_norm.
  rewrite zip_with_map.
  run_step. frame_norm.
  rewrite (filter_ext _ (fun p => (start_date <=? pr_created_at p)
                                  && match pr_merged_at p with
                                     | Some m => m <=? end_date
                                     | None => false
                                     end))
    by (intro p; cbn [time_ge]; destruct (pr_merged_at p); reflexivity).
  set (f := cycle_time_period start_date end_date).
  assert (Hsel : Forall (fun p => exists m, pr_merged_at p = Some m)
                        (filter (fun p => (start_date <=? pr_created_at p)
                                          && match pr_merged_at p with
                                             | Some m => m <=? end_date
                                             | None => false
                                             end) merged)).
  { apply Forall_forall. intros p Hp. apply filter_In in Hp. destruct Hp as [_ Hp].
    apply andb_true_iff in Hp. destruct Hp as [_ Hp].
    destruct (pr_merged_at p) as [m|]; [now exists m | discriminate]. }
  remember (filter (fun p => (start_date <=? pr_created_at p)
                             && match pr_merged_at p with
                                | Some m => m <=? end_date
                                | None => false
                                end) merged) as selected eqn:Hs. clear Hs.
  run_step. rewrite frame_empty_map by discriminate.
  destruct selected as [|s0 selected0].
  { exists []. cbn [map]. rewrite pd_DataFrame_columns. cbn [returned].
    rewrite nth_error_top. repeat split; try constructor; intros []. }
  cbv iota. set (selected := s0 :: selected0) in *.
  run_step. frame_norm.
  run_step. frame_norm.
  rewrite zip_with_map.
  run_step. frame_norm.
  run_step. frame_norm.
  run_step. frame_norm.
  run_step. frame_norm.
  run_step. frame_norm.
  rewrite (map_ext_in _ (fun p => VPeriod f (merge_ordinal f p))).
  2:{ intros p Hp. rewrite Forall_forall in Hsel. destruct (Hsel p Hp) as [m Em].
      unfold merge_ordinal. now rewrite Em. }
  rewrite (map_ext_in (fun p => days_between _ _) (fun p => VFloat (merge_days p))).
  2:{ intros p Hp. rewrite Forall_forall in Hsel. destruct (Hsel p Hp) as [m Em].
      unfold merge_days. now rewrite Em. }
  destruct (groupby_mean_keys (VPeriod f) (merge_ordinal f) merge_days selected
              (period_eqb f) (period_notna f) (period_leb f))
    as (ks & Hg & Hsorted & Hin).
  rewrite Hg. clear Hg. rewrite map_map. cbn [fst snd].
  erewrite bind_run by reflexivity.
  run_step. frame_norm.
  run_step. frame_norm. cbn [period_to_str].
  erewrite bind_run by (apply df_rename_run; lookup).
  cbn [df_columns df_rows map String.eqb Ascii.eqb Bool.eqb].
  rewrite map_map. cbn [dict_rename String.eqb Ascii.eqb Bool.eqb].
  exists ks. split; [| split; [exact Hsorted | exact Hin]].
  erewrite df_select_columns_run by (try lookup; reflexivity).
  cbn [returned]. rewrite nth_error_top. cbn [df_rows]. rewrite map_map.
  reflexivity.
Qed.

(** X14: the cycle-time series of fetched pull requests whose instants
    pandas can represent counts exactly the pull requests that are merged,
    were created at or after the start of the window and were merged at or
    before its end (a pull request created before the window is left out
    even when it was merged inside it).  The table has one row per period
    in which such a pull request was merged, in increasing order of period;
    the row gives the text of the period and the mean, in days, of
    [(merged_at - created_at)] over the pull requests merged in it. *)
Theorem cycle_time_table :
  forall (parse_datetime : string -> option Z) (issues_data : list dict)
         (prs : list PullRequest) (start_date end_date : Z) (st : Store),
    Forall (fun p => pr_in_bounds p = true) prs ->
    let f := cycle_time_period start_date end_date in
    let selected := filter (in_cycle_window start_date end_date) prs in
    exists ordinals,
      returned ((dfs <- frames_of issues_data (map get_pr_data prs) ;;
                 create_cycle_time_data parse_datetime (snd dfs) start_date end_date) st)
      = Some (mkDF ["Period"; "Avg_Cycle_Time_Days"]
                   (map (cycle_time_row f selected) ordinals))
      /\ StronglySorted Z.lt ordinals
      /\ forall o, In o ordinals <-> In o (map (merge_ordinal f) selected).
Proof.
  intros parse issues_data prs start_date end_date st Hb f selected.
  destruct prs as [|p prs'].
  - exists []. split; [| split; [constructor | intro o; reflexivity]].
    run_step. cbn [snd]. unfold create_cycle_time_data, empty_cycle_time.
    run_step. run_step. run_step. run_step.
    cbn [map frame_of_records records_columns fold_left frame_empty df_columns orb].
    rewrite pd_DataFrame_columns. cbn [returned]. now rewrite nth_error_top.
  - destruct (cycle_time_run parse (p :: prs') start_date end_date
                (st ++ [frame_of_records issues_data]
                    ++ [frame_of_records (map get_pr_data (p :: prs'))])
                (List.length (st ++ [frame_of_records issues_data])))
      as (ordinals & Hrun & Hrest).
    + rewrite frame_of_prs, app_assoc. apply nth_error_top.
    + discriminate.
    + exact Hb.
    + exists ordinals. split; [|exact Hrest].
      run_step. cbn [snd]. rewrite <- app_assoc. exact Hrun.
Qed.

Lemma cycle_time_table_witness :
  exists ordinals,
    returned ((dfs <- frames_of [] (map get_pr_data cycle_examples) ;;
               create_cycle_time_data (fun _ => None) (snd dfs) 0 (2 * ns_per_day)) [])
    = Some (mkDF ["Period"; "Avg_Cycle_Time_Days"]
                 (map (cycle_time_row FreqD (filter (in_cycle_window 0 (2 * ns_per_day))
                                                    cycle_examples))
                      ordinals))
    /\ StronglySorted Z.lt ordinals
    /\ forall o, In o ordinals <-> In o [1].
Proof.
  apply (cycle_time_table (fun _ => None) [] cycle_examples 0 (2 * ns_per_day) []).
  repeat constructor.
Defined.
(* ------------------------------------------------------------------ *)
(** ** The calendar *)


Lemma all_from_spec p n : forall x,
  all_from p x n = true -> forall y, x <= y < x + Z.of_nat n -> p y = true.
Proof.
  induction n as [|n IH]; intros x H y Hy; [lia|].
  cbn [all_from] in H. apply andb_true_iff in H. destruct H as [Hx H].
  destruct (Z.eq_dec y x) as [->|Hne]; [exact Hx|].
  apply (IH (Z.succ x) H). lia.
Qed.

Lemma era_checked : all_from era_date_ok 0 (Z.to_nat 146097) = true.
Proof. vm_compute. reflexivity. Qed.

Lemma era_date_facts doe :
  0 <= doe < 146097 ->
  let '(yoe, m, d) := era_date doe in
  era_day yoe m d = doe /\ 0 <= yoe <= 399 /\ 1 <= m <= 12 /\ 1 <= d <= 31.
Proof.
  intro H.
  assert (Hok : era_date_ok doe = true).
  { apply (all_from_spec _ _ _ era_checked). rewrite Z2Nat.id by lia. lia. }
  unfold era_date_ok in Hok. destruct (era_date doe) as [[yoe m] d].
  repeat (apply andb_true_iff in Hok; destruct Hok as [Hok ?]).
  apply Z.eqb_eq in Hok. repeat split; try apply Z.leb_le; assumption.
Qed.

Lemma civil_from_days_era days :
  civil_from_days days
  = let z := days + 719468 in
    let '(yoe, m, d) := era_date (z mod 146097) in
    (yoe + z / 146097 * 400 + (if m <=? 2 then 1 else 0), m, d).
Proof.
  unfold civil_from_days, era_date. cbv zeta.
  destruct (_ <=? 2); f_equal; f_equal; lia.
Qed.

(** Two days with the same date are the same day. *)
Lemma civil_from_days_inj d1 d2 :
  civil_from_days d1 = civil_from_days d2 -> d1 = d2.
Proof.
  rewrite !civil_from_days_era. cbv zeta.
  assert (H1 := era_date_facts ((d1 + 719468) mod 146097)
                  (Z.mod_pos_bound _ 146097 eq_refl)).
  assert (H2 := era_date_facts ((d2 + 719468) mod 146097)
                  (Z.mod_pos_bound _ 146097 eq_refl)).
  destruct (era_date ((d1 + 719468) mod 146097)) as [[yoe1 m1] x1].
  destruct (era_date ((d2 + 719468) mod 146097)) as [[yoe2 m2] x2].
  destruct H1 as (E1 & Hy1 & _), H2 as (E2 & Hy2 & _).
  intro H. injection H as Hy Hm Hx. subst m2 x2.
  assert (Hera : (d1 + 719468) / 146097 = (d2 + 719468) / 146097 /\ yoe1 = yoe2) by lia.
  destruct Hera as [Hera ->].
  assert (Hdoe : (d1 + 719468) mod 146097 = (d2 + 719468) mod 146097) by congruence.
  assert (D1 := Z.div_mod (d1 + 719468) 146097 ltac:(lia)).
  assert (D2 := Z.div_mod (d2 + 719468) 146097 ltac:(lia)).
  lia.
Qed.

(** The date of a day between the years 1200 and 2800. *)
Lemma civil_from_days_range day :
  -280000 <= day <= 300000 ->
  let '(y, m, d) := civil_from_days day in
  0 <= y <= 9999 /\ 1 <= m <= 12 /\ 1 <= d <= 31.
Proof.
  intro H. rewrite civil_from_days_era. cbv zeta.
  assert (H1 := era_date_facts ((day + 719468) mod 146097)
                  (Z.mod_pos_bound _ 146097 eq_refl)).
  destruct (era_date ((day + 719468) mod 146097)) as [[yoe m] d].
  destruct H1 as (_ & Hy & Hm & Hd).
  assert (3 <= (day + 719468) / 146097 < 7).
  { split; [apply Z.div_le_lower_bound | apply Z.div_lt_upper_bound]; lia. }
  destruct (m <=? 2); lia.
Qed.

Lemma digit_inj a b : digit a = digit b -> a mod 10 = b mod 10.
Proof.
  unfold digit. intro H. apply (f_equal nat_of_ascii) in H.
  assert (Ha := Z.mod_pos_bound a 10 eq_refl).
  assert (Hb := Z.mod_pos_bound b 10 eq_refl).
  rewrite !nat_ascii_embedding in H by lia. lia.
Qed.

Lemma pad2_inj a b : 0 <= a <= 99 -> 0 <= b <= 99 -> pad2 a = pad2 b -> a = b.
Proof.
  intros Ha Hb H. unfold pad2 in H. injection H as H1 H2.
  apply digit_inj in H1, H2. Z.div_mod_to_equations. lia.
Qed.

Lemma pad4_inj a b : 0 <= a <= 9999 -> 0 <= b <= 9999 -> pad4 a = pad4 b -> a = b.
Proof.
  intros Ha Hb H. unfold pad4, pad2 in H. injection H as H1 H2 H3 H4.
  apply digit_inj in H1, H2, H3, H4. Z.div_mod_to_equations. lia.
Qed.

(** Between the years 1200 and 2800 the text of a day identifies the day. *)
Lemma format_date_inj d1 d2 :
  -280000 <= d1 <= 300000 -> -280000 <= d2 <= 300000 ->
  format_date d1 = format_date d2 -> d1 = d2.
Proof.
  intros H1 H2 H. apply civil_from_days_inj.
  apply civil_from_days_range in H1, H2. unfold format_date in H.
  destruct (civil_from_days d1) as [[y1 m1] x1].
  destruct (civil_from_days d2) as [[y2 m2] x2].
  destruct H1 as (Hy1 & Hm1 & Hx1), H2 as (Hy2 & Hm2 & Hx2).
  assert (E : pad4 y1 = pad4 y2 /\ pad2 m1 = pad2 m2 /\ pad2 x1 = pad2 x2).
  { unfold pad4, pad2 in *. cbn [String.append] in H.
    injection H as A1 A2 A3 A4 B1 B2 C1 C2.
    repeat split; congruence. }
  destruct E as (Ey & Em & Ex).
  apply pad4_inj in Ey; [|lia|lia]. apply pad2_inj in Em; [|lia|lia].
  apply pad2_inj in Ex; [|lia|lia]. congruence.
Qed.
